(** * Civic AI Policy Bridge: feedback aggregation and insight generation

    A shallow embedding of the feedback pipeline of [main.py]:
    the session store filled by [feedback_page], the pandas frame built
    from it by [insights_page], the rule list of
    [generate_recommendations] and the text of
    [generate_summary_report].

    Conventions of the embedding.
    - A Python [dict] built by one literal is a record; the session list
      of such dicts is a [list].
    - A pandas frame is an ordered list of labelled columns over cells of
      type [value]; a missing label raises [KeyError], as in Python.
    - A float is either [NaN] or a rational.  The mean of a boolean
      column is held as its exact quotient, which is what the comparison
      of rule 1 and the counts depend on; [round64] rounds a rational to
      the nearest binary64 number, and [sentiment_percentage64] is a
      percentage as binary64 arithmetic gives it, each operation
      rounded.  [Binary64] holds the same operations in primitive
      binary64 arithmetic, to compare the two.
    - One run of a Streamlit page is a function from the session state and
      the widget inputs of that run to the new state and the widgets it
      emits; layout calls (columns, forms, spinners) leave no trace. *)

From Stdlib Require Import List String Ascii Bool Arith ZArith QArith Lia.
From Stdlib Require Import Qpower Qabs Lqa.
From Stdlib Require Import Sorted Permutation DecimalString OrderedTypeEx.
From Stdlib Require PrimFloat Uint63 FloatOps SpecFloat.
Import ListNotations.
Close Scope Q_scope.
Open Scope list_scope.
Open Scope string_scope.

(** ** Python values *)

Module Py.

(** Exceptions that the modelled code can raise. *)
Inductive exn :=
| KeyError (key : string)
| AttributeError (what : string).

Inductive result (A : Type) :=
| Ok (a : A)
| Raise (e : exn).
Arguments Ok {A} a.
Arguments Raise {A} e.

Definition bind {A B} (m : result A) (k : A -> result B) : result B :=
  match m with
  | Ok a => k a
  | Raise e => Raise e
  end.

(** [datetime.datetime]: the fields the program reads or prints. *)
Record datetime := mk_datetime {
  year : nat; month : nat; day : nat;
  hour : nat; minute : nat; second : nat; microsecond : nat
}.

(** [str(n)] for a non-negative integer. *)
Definition str_nat (n : nat) : string :=
  NilZero.string_of_uint (Nat.to_uint n).

Definition str_Z (z : Z) : string :=
  NilZero.string_of_int (Z.to_int z).

(** Zero padding to a width, as [%02d] and [%04d] do. *)
Fixpoint zeros (k : nat) : string :=
  match k with
  | O => ""
  | S k' => String "0" (zeros k')
  end.

Definition zfill (width n : nat) : string :=
  let s := str_nat n in zeros (width - String.length s) ++ s.

(** [t.strftime('%Y-%m-%d %H:%M:%S')] *)
Definition strftime_seconds (t : datetime) : string :=
  zfill 4 (year t) ++ "-" ++ zfill 2 (month t) ++ "-" ++ zfill 2 (day t)
  ++ " " ++ zfill 2 (hour t) ++ ":" ++ zfill 2 (minute t) ++ ":"
  ++ zfill 2 (second t).

(** [t.strftime('%Y%m%d')] *)
Definition strftime_date (t : datetime) : string :=
  zfill 4 (year t) ++ zfill 2 (month t) ++ zfill 2 (day t).

(** A float: not-a-number, or a rational.  [fmul] and the mean of a
    column are exact; [fround] rounds their result to binary64. *)
Inductive float :=
| NaN
| Fin (q : Q).

Definition fmul (x : float) (k : Q) : float :=
  match x with
  | NaN => NaN
  | Fin q => Fin (q * k)%Q
  end.

(** [x > y]: every comparison with NaN is false. *)
Definition fgt (x : float) (y : Q) : bool :=
  match x with
  | NaN => false
  | Fin q => negb (Qle_bool q y)
  end.

(** *** Rounding to binary64 *)

(** The integer nearest to [n / d], for [0 <= n] and [0 < d]; of two
    nearest integers, the even one. *)
Definition nearest_even (n d : Z) : Z :=
  let q := (n / d)%Z in
  match (2 * (n mod d) ?= d)%Z with
  | Lt => q
  | Gt => (q + 1)%Z
  | Eq => if Z.even q then q else (q + 1)%Z
  end.

(** The exponent of the leading binary digit of [a / b]: the [L] with
    [2^L <= a / b < 2^(L+1)]. *)
Definition log2_floor (a b : positive) : Z :=
  let la := Z.log2 (Zpos a) in
  let lb := Z.log2 (Zpos b) in
  if (Zpos b * 2 ^ la <=? Zpos a * 2 ^ lb)%Z then (la - lb)%Z else (la - lb - 1)%Z.

(** The binary64 number nearest to [a / b]: the quotient is scaled to an
    integer of 53 binary digits, which is rounded to the nearest integer,
    ties to even. *)
Definition round64_pos (a b : positive) : Q :=
  let e := (log2_floor a b - 52)%Z in
  let y := ((Zpos a # b) * 2 ^ (- e))%Q in
  (inject_Z (nearest_even (Qnum y) (Zpos (Qden y))) * 2 ^ e)%Q.

(** Rounding of a rational to binary64, the default rounding of the
    arithmetic.  The exponent is not bounded: the numbers rounded here
    are counts, quotients of counts and percentages, far from overflow
    and underflow. *)
Definition round64 (x : Q) : Q :=
  match Qnum x with
  | Z0 => 0%Q
  | Zpos a => round64_pos a (Qden x)
  | Zneg a => (- round64_pos a (Qden x))%Q
  end.

Definition fround (x : float) : float :=
  match x with
  | NaN => NaN
  | Fin q => Fin (round64 q)
  end.

(** Half the distance from 1 to the next binary64 number: the largest
    relative error of one rounding. *)
Definition unit_roundoff : Q := 1 # (2 ^ 53).

(** *** Characters of a string *)

(** A string is the UTF-8 encoding of a Python [str]: a character is one
    byte, or a leading byte followed by continuation bytes, the bytes
    from 128 to 191. *)
Definition is_continuation (c : ascii) : bool :=
  Nat.leb 128 (nat_of_ascii c) && Nat.leb (nat_of_ascii c) 191.

(** [len(s)]: the number of characters. *)
Fixpoint str_len (s : string) : nat :=
  match s with
  | EmptyString => 0
  | String c s' => (if is_continuation c then 0 else 1) + str_len s'
  end.

(** [s[:n]]: the first [n] characters, each with all its bytes. *)
Fixpoint str_prefix (n : nat) (s : string) : string :=
  match s with
  | EmptyString => EmptyString
  | String c s' =>
      if is_continuation c then String c (str_prefix n s')
      else
        match n with
        | O => EmptyString
        | S n' => String c (str_prefix n' s')
        end
  end.

End Py.
Export Py.

Notation "x <- m ;; k" := (bind m (fun x => k))
  (at level 61, m at next level, right associativity).

(** ** Cells, series and frames (pandas) *)

Module Pandas.

(** A cell of a frame: the Python objects that the program stores. *)
Inductive value :=
| VStr (s : string)
| VInt (z : Z)
| VTime (t : datetime)
| VList (l : list string).

Definition datetime_eq_dec (a b : datetime) : {a = b} + {a <> b}.
Proof. decide equality; apply Nat.eq_dec. Defined.

Definition value_eq_dec (a b : value) : {a = b} + {a <> b}.
Proof.
  decide equality.
  - apply string_dec.
  - apply Z.eq_dec.
  - apply datetime_eq_dec.
  - apply (list_eq_dec string_dec).
Defined.

(** Python [==] on cells. *)
Definition value_eqb (a b : value) : bool :=
  if value_eq_dec a b then true else false.

Definition lex (c : comparison) (rest : comparison) : comparison :=
  match c with
  | Eq => rest
  | _ => c
  end.

Definition datetime_compare (a b : datetime) : comparison :=
  lex (Nat.compare (year a) (year b))
 (lex (Nat.compare (month a) (month b))
 (lex (Nat.compare (day a) (day b))
 (lex (Nat.compare (hour a) (hour b))
 (lex (Nat.compare (minute a) (minute b))
 (lex (Nat.compare (second a) (second b))
      (Nat.compare (microsecond a) (microsecond b))))))).

Fixpoint list_compare (a b : list string) : comparison :=
  match a, b with
  | [], [] => Eq
  | [], _ :: _ => Lt
  | _ :: _, [] => Gt
  | x :: a', y :: b' => lex (String.compare x y) (list_compare a' b')
  end.

Definition type_rank (v : value) : nat :=
  match v with
  | VStr _ => 0
  | VInt _ => 1
  | VTime _ => 2
  | VList _ => 3
  end.

(** Python [<] on cells of one type: strings by code unit, integers and
    datetimes by value.  Cells of different types do not occur in one
    column of this program; they are ordered by type here. *)
Definition value_compare (a b : value) : comparison :=
  match a, b with
  | VStr x, VStr y => String.compare x y
  | VInt x, VInt y => Z.compare x y
  | VTime x, VTime y => datetime_compare x y
  | VList x, VList y => list_compare x y
  | _, _ => Nat.compare (type_rank a) (type_rank b)
  end.

(** [str(v)], as an f-string interpolates a cell.  A list cell is shown
    with its items quoted and comma separated. *)
Definition str_value (v : value) : string :=
  match v with
  | VStr s => s
  | VInt z => str_Z z
  | VTime t =>
      strftime_seconds t ++
      (if Nat.eqb (microsecond t) 0 then "" else "." ++ zfill 6 (microsecond t))
  | VList l => "[" ++ String.concat ", " (map (fun s => "'" ++ s ++ "'") l) ++ "]"
  end.

(** *** Helpers on lists, generic in the element type *)

Section ListOps.
Context {A : Type}.
Variable eqb : A -> A -> bool.
Variable cmp : A -> A -> comparison.

Fixpoint count (x : A) (l : list A) : nat :=
  match l with
  | [] => 0
  | y :: l' => (if eqb x y then 1 else 0) + count x l'
  end.

(** Distinct elements in order of first appearance. *)
Fixpoint unique (l : list A) : list A :=
  match l with
  | [] => []
  | x :: l' => x :: filter (fun y => negb (eqb x y)) (unique l')
  end.

(** Stable insertion by decreasing count: [p] goes in front of the
    first entry whose count is not larger than its own. *)
Fixpoint insert_desc (p : A * nat) (l : list (A * nat)) : list (A * nat) :=
  match l with
  | [] => [p]
  | q :: l' => if Nat.ltb (snd p) (snd q) then q :: insert_desc p l' else p :: l
  end.

Definition sort_desc (l : list (A * nat)) : list (A * nat) :=
  fold_right insert_desc [] l.

(** Ascending order without repetition. *)
Fixpoint insert_unique (x : A) (l : list A) : list A :=
  match l with
  | [] => [x]
  | y :: l' =>
      match cmp x y with
      | Lt => x :: l
      | Eq => l
      | Gt => y :: insert_unique x l'
      end
  end.

Definition sort_unique (l : list A) : list A :=
  fold_right insert_unique [] l.

Fixpoint assoc {B} (k : A) (l : list (A * B)) : option B :=
  match l with
  | [] => None
  | (k', b) :: l' => if eqb k k' then Some b else assoc k l'
  end.
End ListOps.

(** *** Series *)

Definition Series := list value.

(** [s == x], elementwise. *)
Definition series_eq (s : Series) (x : value) : list bool :=
  map (fun v => value_eqb v x) s.

(** [mask.sum()] *)
Definition mask_sum (m : list bool) : nat := List.length (filter (fun b => b) m).

(** [mask.mean()]: the fraction of [True]; NaN on an empty mask. *)
Definition mask_mean (m : list bool) : float :=
  match List.length m with
  | O => NaN
  | S _ => Fin (Z.of_nat (mask_sum m) # Pos.of_nat (List.length m))
  end.

(** [s[mask]] *)
Fixpoint mask_select {A} (m : list bool) (s : list A) : list A :=
  match m, s with
  | b :: m', x :: s' => if b then x :: mask_select m' s' else mask_select m' s'
  | _, _ => []
  end.

(** [s.nunique()] *)
Definition nunique (s : Series) : nat := List.length (unique value_eqb s).

(** [s.value_counts()]: one entry per distinct value, counted in order of
    first appearance and then ordered by decreasing count, entries of
    equal count staying in that order. *)
Definition value_counts (s : Series) : list (value * nat) :=
  sort_desc (map (fun k => (k, count value_eqb k s)) (unique value_eqb s)).

(** [s.head(n).tolist()] *)
Definition head (n : nat) (s : Series) : Series := firstn n s.

(** [s.dt.hour]: defined on a datetime column only. *)
Fixpoint dt_hour (s : Series) : result Series :=
  match s with
  | [] => Ok []
  | VTime t :: s' => r <- dt_hour s' ;; Ok (VInt (Z.of_nat (hour t)) :: r)
  | _ :: _ => Raise (AttributeError "dt")
  end.

(** *** Frames *)

Record DataFrame := mk_frame {
  index_len : nat;                  (* number of rows *)
  data : list (string * Series)     (* the columns, in order *)
}.

Definition columns (df : DataFrame) : list string := map fst (data df).

(** [len(df)] *)
Definition len (df : DataFrame) : nat := index_len df.

(** [df[label]] *)
Definition getitem (df : DataFrame) (label : string) : result Series :=
  match assoc String.eqb label (data df) with
  | Some s => Ok s
  | None => Raise (KeyError label)
  end.

(** [df[label] = s]: replaces the column in place when the label exists,
    appends it as the last column otherwise. *)
Fixpoint set_column (label : string) (s : Series) (cols : list (string * Series))
  : list (string * Series) :=
  match cols with
  | [] => [(label, s)]
  | (l, c) :: cols' =>
      if String.eqb label l then (l, s) :: cols'
      else (l, c) :: set_column label s cols'
  end.

(** [df[label] = s] for a series [s] taken from the frame itself, over
    the same rows, as the insights page assigns it: the column replaces
    the one under that label, or becomes the last column. *)
Definition setitem (df : DataFrame) (label : string) (s : Series) : DataFrame :=
  {| index_len := index_len df; data := set_column label s (data df) |}.

(** [df[mask]]: the rows where the mask holds. *)
Definition loc_mask (df : DataFrame) (m : list bool) : DataFrame :=
  {| index_len := mask_sum m;
     data := map (fun c => (fst c, mask_select m (snd c))) (data df) |}.

(** [s.groupby(s).size()] for one key: the distinct keys in ascending
    order, each with its number of rows. *)
Definition groupby_size (s : Series) : list (value * nat) :=
  map (fun k => (k, count value_eqb k s)) (sort_unique value_compare s).

Definition pair_eqb (p q : value * value) : bool :=
  value_eqb (fst p) (fst q) && value_eqb (snd p) (snd q).

(** [df.groupby([a, b]).size()]: the observed pairs of keys in ascending
    lexicographic order, each with its number of rows. *)
Definition groupby2_size (a b : Series) : list ((value * value) * nat) :=
  let pairs := combine a b in
  flat_map (fun r =>
    flat_map (fun c =>
      match count pair_eqb (r, c) pairs with
      | O => []
      | S n => [((r, c), S n)]
      end) (sort_unique value_compare b)) (sort_unique value_compare a).

(** A frame of counts: row labels, column labels, and the cells by row. *)
Record CrossTab := mk_crosstab {
  ct_index : list value;
  ct_columns : list value;
  ct_cells : list (list nat)
}.

(** [g.unstack(fill_value=f)]: the second key becomes the columns; a pair
    that has no group gets [f]. *)
Definition unstack (g : list ((value * value) * nat)) (fill_value : nat) : CrossTab :=
  let rows := sort_unique value_compare (map (fun e => fst (fst e)) g) in
  let cols := sort_unique value_compare (map (fun e => snd (fst e)) g) in
  {| ct_index := rows;
     ct_columns := cols;
     ct_cells :=
       map (fun r => map (fun c =>
         match assoc pair_eqb (r, c) g with
         | Some n => n
         | None => fill_value
         end) cols) rows |}.

(** The cell of a cross-tabulation at a row and a column label. *)
Definition ct_cell (t : CrossTab) (r c : value) : option nat :=
  match assoc value_eqb r (combine (ct_index t) (ct_cells t)) with
  | Some row => assoc value_eqb c (combine (ct_columns t) row)
  | None => None
  end.

(** The table written by [df.to_csv(index=False)]: the header line of
    column labels and one line of cells per row, in index order.  The
    quoting of a cell as text is the writer's business. *)
Record csv_table := mk_csv {
  csv_header : list string;
  csv_rows : list (list value)
}.

Definition row_at (df : DataFrame) (i : nat) : list value :=
  map (fun c => nth i (snd c) (VStr "")) (data df).

Definition to_csv (df : DataFrame) : csv_table :=
  {| csv_header := columns df;
     csv_rows := map (row_at df) (seq 0 (index_len df)) |}.

End Pandas.
Export Pandas.

(** ** Configuration ([config.py]) *)

Definition DEMOGRAPHICS : list string :=
  [ "General Citizen"; "Student"; "Farmer"; "Business Owner";
    "Senior Citizen"; "Parent"; "Teacher"; "Healthcare Worker" ].

Definition FEEDBACK_TYPES : list string :=
  [ "Support"; "Concern"; "Suggestion"; "Question" ].

(** ** The session and the feedback form ([main.py]) *)

(** The entry that [feedback_page] appends: a dict with these eight
    keys, in this order. *)
Record feedback_entry := mk_entry {
  timestamp : datetime;
  name : string;
  demographic : string;
  type : string;
  text : string;
  sentiment : string;
  key_points : list string;
  category : string
}.

(** The keys of [st.session_state] that the feedback pipeline uses
    ([demographic_analysis] and [insights] hold the analyser's
    narrative and play no part in it). *)
Record session_state := mk_session {
  document_text : string;
  simplified_text : string;
  feedback_data : list feedback_entry
}.

(** [initialize_session_state]: a key that is absent gets its initial
    value; [None] is the session before its first run. *)
Definition initialize_session_state (s : option session_state) : session_state :=
  match s with
  | Some st => st
  | None => {| document_text := ""; simplified_text := ""; feedback_data := [] |}
  end.

(** The choice made in [st.selectbox("I represent:", ...)]. *)
Inductive demographic_choice :=
| GeneralCitizen | Student | Farmer | BusinessOwner
| SeniorCitizen | Parent | Teacher | HealthcareWorker.

Definition selectbox_label (d : demographic_choice) : string :=
  match d with
  | GeneralCitizen => "General Citizen"
  | Student => "Student"
  | Farmer => "Farmer"
  | BusinessOwner => "Business Owner"
  | SeniorCitizen => "Senior Citizen"
  | Parent => "Parent"
  | Teacher => "Teacher"
  | HealthcareWorker => "Healthcare Worker"
  end.

(** The choice made in [st.radio("Type of feedback:", ...)]. *)
Inductive feedback_type_choice := Support | Concern | Suggestion | Question.

Definition radio_label (t : feedback_type_choice) : string :=
  match t with
  | Support => "Support"
  | Concern => "Concern"
  | Suggestion => "Suggestion"
  | Question => "Question"
  end.

(** The widget values of one run of the feedback form. *)
Record feedback_form := mk_form {
  form_name : string;
  form_demographic : demographic_choice;
  form_type : feedback_type_choice;
  form_text : string;
  form_submitted : bool
}.

(** The dict returned by [ai_analyzer.process_feedback]: each key may be
    absent. *)
Record processed_feedback := mk_processed {
  pf_sentiment : option string;
  pf_key_points : option (list string);
  pf_category : option string
}.

(** [d.get(key, default)] *)
Definition dict_get {A} (entry : option A) (default : A) : A :=
  match entry with
  | Some v => v
  | None => default
  end.

(** What one run reads from outside: the clock and the classifier. *)
Record run_env := mk_env {
  now : datetime;
  process_feedback : string -> string -> processed_feedback
}.

(** Python truth value of a string. *)
Definition truthy (s : string) : bool := negb (String.eqb s "").

(** [a or b] on strings. *)
Definition str_or (a b : string) : string := if truthy a then a else b.

(** *** Widgets emitted by a page *)

Inductive chart :=
| px_pie (title : string) (slices : list (value * nat))
| px_bar (title : string) (bars : list (value * nat))
| px_line (title : string) (points : list (value * nat))
| px_bar_frame (title : string) (frame : CrossTab).

Inductive payload :=
| csv_data (t : csv_table)
| text_data (s : string).

Inductive widget :=
| st_header (s : string)
| st_subheader (s : string)
| st_warning (s : string)
| st_success (s : string)
| st_info (s : string)
| st_markdown (s : string)
| st_metric (label : string) (shown : string)
| st_plotly_chart (c : chart)
| st_feedback_card (css_class : string) (e : feedback_entry)
| st_download_button (label : string) (d : payload) (file_name : string) (mime : string).

(** [pd.DataFrame(list_of_dicts)]: the columns are the keys of the dicts;
    an empty list gives a frame without columns. *)
Definition DataFrame_of (records : list feedback_entry) : DataFrame :=
  match records with
  | [] => {| index_len := 0; data := [] |}
  | _ :: _ =>
      {| index_len := List.length records;
         data :=
           [ ("timestamp", map (fun e => VTime (timestamp e)) records);
             ("name", map (fun e => VStr (name e)) records);
             ("demographic", map (fun e => VStr (demographic e)) records);
             ("type", map (fun e => VStr (type e)) records);
             ("text", map (fun e => VStr (text e)) records);
             ("sentiment", map (fun e => VStr (sentiment e)) records);
             ("key_points", map (fun e => VList (key_points e)) records);
             ("category", map (fun e => VStr (category e)) records) ] |}
  end.

(** [l[-n:]] *)
Definition last_n {A} (n : nat) (l : list A) : list A :=
  skipn (List.length l - n) l.

(** *** [feedback_page] *)

(** The entry built from the form and the classifier's answer. *)
Definition feedback_entry_of (env : run_env) (f : feedback_form) : feedback_entry :=
  let feedback_type := radio_label (form_type f) in
  let processed_feedback := process_feedback env (form_text f) feedback_type in
  {| timestamp := now env;
     name := str_or (form_name f) "Anonymous";
     demographic := selectbox_label (form_demographic f);
     type := feedback_type;
     text := form_text f;
     sentiment := dict_get (pf_sentiment processed_feedback) "neutral";
     key_points := dict_get (pf_key_points processed_feedback) [];
     category := dict_get (pf_category processed_feedback) "general" |}.

(** The live statistics and the recent entries, drawn when the run did
    not end in a submission. *)
Definition live_feedback_stats (st : session_state) : result (list widget) :=
  match feedback_data st with
  | [] => Ok [st_subheader "📊 Live Feedback Stats"; st_info "No feedback received yet."]
  | _ :: _ =>
      let df := DataFrame_of (feedback_data st) in
      ty <- getitem df "type" ;;
      let type_counts := value_counts ty in
      se <- getitem df "sentiment" ;;
      let sentiment_counts := value_counts se in
      Ok ([ st_subheader "📊 Live Feedback Stats";
            st_plotly_chart (px_pie "Feedback Types" type_counts);
            st_plotly_chart (px_bar "Sentiment Analysis" sentiment_counts);
            st_subheader "Recent Feedback" ]
          ++ map (fun feedback =>
                    st_feedback_card
                      (if String.eqb (sentiment feedback) "positive"
                       then "feedback-item" else "concern-item")
                      feedback)
                 (last_n 5 (feedback_data st)))%list
  end.

(** One run of the page.  A submission with a text appends the entry,
    thanks the citizen and reruns the script; no other path writes to the
    session. *)
Definition feedback_page (env : run_env) (f : feedback_form) (st : session_state)
  : result (session_state * list widget) :=
  if negb (truthy (simplified_text st)) then
    Ok (st, [ st_header "💬 Citizen Feedback Collection";
              st_warning "Please analyze a document first to collect feedback!" ])
  else if form_submitted f && truthy (form_text f) then
    let feedback_entry := feedback_entry_of env f in
    Ok ({| document_text := document_text st;
           simplified_text := simplified_text st;
           feedback_data := (feedback_data st ++ [feedback_entry])%list |},
        [ st_header "💬 Citizen Feedback Collection";
          st_markdown (simplified_text st);
          st_subheader "Submit Your Feedback";
          st_success "Thank you for your feedback!" ])
  else
    stats <- live_feedback_stats st ;;
    Ok (st, ([ st_header "💬 Citizen Feedback Collection";
               st_markdown (simplified_text st);
               st_subheader "Submit Your Feedback" ] ++ stats)%list).

(** *** [generate_recommendations] *)

Definition rule1_text : string :=
  "Consider addressing the high level of concerns (30%+) before policy implementation.".

Definition rule2_text (top_concerned : value) : string :=
  "Focus stakeholder engagement on " ++ str_value top_concerned
  ++ " group, which shows highest concern levels.".

Definition rule3_text (suggestion_count : nat) : string :=
  "Review " ++ str_nat suggestion_count
  ++ " citizen suggestions for potential policy improvements.".

(** [(df['sentiment'] == label).mean()]: the fraction of the rows whose
    sentiment is [label]. *)
Definition sentiment_mean (df : DataFrame) (label : string) : result float :=
  s <- getitem df "sentiment" ;;
  Ok (mask_mean (series_eq s (VStr label))).

(** [(df['sentiment'] == label).mean() * 100] as binary64 arithmetic
    gives it: the quotient of the two counts is rounded, and so is its
    product with 100. *)
Definition sentiment_percentage64 (df : DataFrame) (label : string) : result float :=
  mean <- sentiment_mean df label ;;
  Ok (fround (fmul (fround mean) 100)).

Definition generate_recommendations (df : DataFrame) : result (list string) :=
  let recommendations := [] in
  (* Analyze sentiment distribution *)
  negative_pct <- sentiment_mean df "negative" ;;
  let recommendations :=
    if fgt negative_pct (3 # 10) then (recommendations ++ [rule1_text])%list
    else recommendations in
  (* Analyze demographic concerns *)
  s <- getitem df "sentiment" ;;
  d <- getitem (loc_mask df (series_eq s (VStr "negative"))) "demographic" ;;
  let demo_concerns := value_counts d in
  let recommendations :=
    match demo_concerns with
    | (top_concerned, _) :: _ => (recommendations ++ [rule2_text top_concerned])%list
    | [] => recommendations
    end in
  (* Analyze feedback types *)
  t <- getitem df "type" ;;
  let suggestion_count := mask_sum (series_eq t (VStr "Suggestion")) in
  let recommendations :=
    if Nat.ltb 0 suggestion_count
    then (recommendations ++ [rule3_text suggestion_count])%list
    else recommendations in
  Ok recommendations.

(** *** [generate_summary_report] and [insights_page] *)

Definition nl : string := String (ascii_of_nat 10) EmptyString.

(** [for i, x in enumerate(items, i): report += f"{i}. {x}\n"] *)
Fixpoint numbered_lines (i : nat) (items : list value) : string :=
  match items with
  | [] => ""
  | x :: rest => str_nat i ++ ". " ++ str_value x ++ nl ++ numbered_lines (S i) rest
  end.

Section Rendering.
(** Text rendering that belongs to Python and pandas: [f"{x:.1f}"] on a
    float, and [Series.to_string()] on the counts of a column, given the
    label of that column (pandas prints the label above the counts, or
    leaves it out, by version). *)
Variable format_1f : float -> string.
Variable to_string : string -> list (value * nat) -> string.

(** [generate_summary_report(df)], run when the clock shows [now_]. *)
Definition generate_summary_report (now_ : datetime) (df : DataFrame) : result string :=
  let total_feedback := len df in
  support_rate <- sentiment_percentage64 df "positive" ;;
  concern_rate <- sentiment_percentage64 df "negative" ;;
  let generated := strftime_seconds now_ in
  d <- getitem df "demographic" ;;
  let demographics_represented := nunique d in
  d <- getitem df "demographic" ;;
  let demographic_breakdown := to_string "demographic" (value_counts d) in
  s <- getitem df "sentiment" ;;
  let sentiment_analysis := to_string "sentiment" (value_counts s) in
  t <- getitem df "type" ;;
  let feedback_types := to_string "type" (value_counts t) in
  let report :=
    nl ++ "POLICY FEEDBACK ANALYSIS REPORT" ++ nl
    ++ "Generated: " ++ generated ++ nl
    ++ nl
    ++ "SUMMARY STATISTICS" ++ nl
    ++ "==================" ++ nl
    ++ "Total Feedback Received: " ++ str_nat total_feedback ++ nl
    ++ "Support Rate: " ++ format_1f support_rate ++ "%" ++ nl
    ++ "Concern Rate: " ++ format_1f concern_rate ++ "%" ++ nl
    ++ "Demographics Represented: " ++ str_nat demographics_represented ++ nl
    ++ nl
    ++ "DEMOGRAPHIC BREAKDOWN" ++ nl
    ++ "====================" ++ nl
    ++ demographic_breakdown ++ nl
    ++ nl
    ++ "SENTIMENT ANALYSIS" ++ nl
    ++ "==================" ++ nl
    ++ sentiment_analysis ++ nl
    ++ nl
    ++ "FEEDBACK TYPES" ++ nl
    ++ "==============" ++ nl
    ++ feedback_types ++ nl
    ++ nl
    ++ "TOP CONCERNS" ++ nl
    ++ "============" ++ nl in
  s <- getitem df "sentiment" ;;
  c <- getitem (loc_mask df (series_eq s (VStr "negative"))) "text" ;;
  let concerns := head 5 c in
  let report := report ++ numbered_lines 1 concerns in
  let report := report ++ nl ++ "TOP SUPPORT POINTS" ++ nl ++ "================" ++ nl in
  s <- getitem df "sentiment" ;;
  p <- getitem (loc_mask df (series_eq s (VStr "positive"))) "text" ;;
  let support := head 5 p in
  let report := report ++ numbered_lines 1 support in
  Ok report.

(** [f"• {x[:100]}..."] for the first three items. *)
Definition bullet_points (items : list value) : list widget :=
  map (fun x => st_markdown ("• " ++ str_prefix 100 (str_value x) ++ "..."))
      (firstn 3 items).

Fixpoint enumerate_recommendations (i : nat) (recs : list string) : list widget :=
  match recs with
  | [] => []
  | rec :: rest =>
      st_markdown ("**" ++ str_nat i ++ ".** " ++ rec) :: enumerate_recommendations (S i) rest
  end.

(** The values of [datetime.now()] in one run of the insights page, in
    the order in which the run reads the clock: for the name of the CSV
    file, inside [generate_summary_report], and for the name of the
    report file. *)
Record insights_clock := mk_insights_clock {
  csv_name_now : datetime;
  report_now : datetime;
  report_name_now : datetime
}.

(** One run of the insights page.  The frame [df] is one object for the
    whole run: the [hour] column written for the timeline is still
    there when the frame is exported. *)
Definition insights_page (csv_clicked report_clicked : bool) (clock : insights_clock)
    (st : session_state) : result (list widget) :=
  let out := [st_header "📊 Policy Insights Report"] in
  if match feedback_data st with [] => true | _ :: _ => false end then
    Ok (out ++ [st_warning "No feedback data available for insights!"])%list
  else
  let df := DataFrame_of (feedback_data st) in
  (* Summary metrics *)
  let out := (out ++ [st_metric "Total Feedback" (str_nat (len df))])%list in
  support_pct <- sentiment_percentage64 df "positive" ;;
  let out := (out ++ [st_metric "Support Rate" (format_1f support_pct ++ "%")])%list in
  concern_pct <- sentiment_percentage64 df "negative" ;;
  let out := (out ++ [st_metric "Concern Rate" (format_1f concern_pct ++ "%")])%list in
  d <- getitem df "demographic" ;;
  let out := (out ++ [st_metric "Demographics Represented" (str_nat (nunique d))])%list in
  (* Timeline chart *)
  let out := (out ++ [st_subheader "📈 Feedback Trends"])%list in
  ts <- getitem df "timestamp" ;;
  hours <- dt_hour ts ;;
  let df := setitem df "hour" hours in
  h <- getitem df "hour" ;;
  let hourly_counts := groupby_size h in
  let out := (out ++ [st_plotly_chart (px_line "Feedback Submission Timeline" hourly_counts)])%list in
  (* Demographic breakdown *)
  d <- getitem df "demographic" ;;
  s <- getitem df "sentiment" ;;
  let demo_sentiment := unstack (groupby2_size d s) 0 in
  let out := (out ++ [st_plotly_chart (px_bar_frame "Sentiment by Demographic" demo_sentiment)])%list in
  (* Key insights *)
  let out := (out ++ [st_subheader "🔑 Key Insights"])%list in
  s <- getitem df "sentiment" ;;
  concerns <- getitem (loc_mask df (series_eq s (VStr "negative"))) "text" ;;
  let out :=
    match concerns with
    | [] => out
    | _ :: _ => (out ++ st_markdown "**Top Concerns:**" :: bullet_points concerns)%list
    end in
  s <- getitem df "sentiment" ;;
  support <- getitem (loc_mask df (series_eq s (VStr "positive"))) "text" ;;
  let out :=
    match support with
    | [] => out
    | _ :: _ => (out ++ st_markdown "**Strong Support For:**" :: bullet_points support)%list
    end in
  (* Actionable recommendations *)
  let out := (out ++ [st_subheader "💡 AI-Generated Recommendations"])%list in
  recs <- (if Nat.ltb 0 (len df) then generate_recommendations df else Ok []) ;;
  let out := (out ++ enumerate_recommendations 1 recs)%list in
  (* Export functionality *)
  let out := (out ++ [st_subheader "📥 Export Data"])%list in
  let out :=
    if csv_clicked then
      let csv := to_csv df in
      (out ++ [st_download_button "Download CSV" (csv_data csv)
                 ("policy_feedback_" ++ strftime_date (csv_name_now clock) ++ ".csv")
                 "text/csv"])%list
    else out in
  if report_clicked then
    report <- generate_summary_report (report_now clock) df ;;
    Ok (out ++ [st_download_button "Download Report" (text_data report)
                  ("policy_insights_report_" ++ strftime_date (report_name_now clock)
                   ++ ".txt")
                  "text/plain"])%list
  else Ok out.
End Rendering.

(** *** The other pages, and a session as a sequence of runs *)

(** How the document reaches the page in one run: with "Upload File",
    the text that [doc_processor.extract_text] returns for the uploaded
    file ([None] when no file is uploaded); with "Paste Text", the
    content of the text area. *)
Inductive document_input :=
| upload_file (extracted : option string)
| paste_text (pasted : string).

(** [policy_upload_page]: the text extracted from an uploaded file
    replaces the stored document, whatever it is; a pasted text replaces
    it when it is not empty.  With a stored document and an API key,
    pressing Analyze stores the simplified text that the analyser
    returns. *)
Definition policy_upload_page (api_key : string) (input : document_input)
    (analyze_clicked : bool) (simplified : string) (st : session_state)
  : session_state :=
  let store document_text_ :=
    {| document_text := document_text_;
       simplified_text := simplified_text st;
       feedback_data := feedback_data st |} in
  let st :=
    match input with
    | upload_file (Some extracted) => store extracted
    | upload_file None => st
    | paste_text pasted => if truthy pasted then store pasted else st
    end in
  if truthy (document_text st) && truthy api_key && analyze_clicked
  then {| document_text := document_text st;
          simplified_text := simplified;
          feedback_data := feedback_data st |}
  else st.

(** One run of the script: the page chosen in the sidebar with the
    widget values of that run. *)
Inductive page_run :=
| PolicyUpload (api_key : string) (input : document_input) (analyze_clicked : bool)
    (simplified : string)
| AnalysisDashboard
| CitizenFeedback (env : run_env) (f : feedback_form)
| InsightsReport (csv_clicked report_clicked : bool) (clock : insights_clock).

(** The session state after a run.  The dashboard and the insights page
    only read the session; a run that raises leaves it as it was. *)
Definition run (st : session_state) (p : page_run) : session_state :=
  match p with
  | PolicyUpload api_key input analyze_clicked simplified =>
      policy_upload_page api_key input analyze_clicked simplified st
  | AnalysisDashboard => st
  | CitizenFeedback env f =>
      match feedback_page env f st with
      | Ok (st', _) => st'
      | Raise _ => st
      end
  | InsightsReport _ _ _ => st
  end.

Definition session (runs : list page_run) : session_state :=
  fold_left run runs (initialize_session_state None).

(** *** [analysis_dashboard_page] *)

(** A value of the analyser's dict [demographic_analysis]: a dict of
    texts, a list of texts, or a text. *)
Inductive analysis_value :=
| analysis_dict (items : list (string * string))
| analysis_list (items : list string)
| analysis_text (s : string).

(** [for x in v]: the keys of a dict, the items of a list, the
    characters of a text. *)
Definition iterate (v : analysis_value) : list string :=
  match v with
  | analysis_dict items => map fst items
  | analysis_list items => items
  | analysis_text s => map (fun c => String c EmptyString) (list_ascii_of_string s)
  end.

(** [v.get(key, default)]: only a dict has the method. *)
Definition analysis_get (v : analysis_value) (key default : string) : result string :=
  match v with
  | analysis_dict items => Ok (dict_get (assoc String.eqb key items) default)
  | _ => Raise (AttributeError "get")
  end.

Definition is_lower (c : ascii) : bool :=
  Nat.leb 97 (nat_of_ascii c) && Nat.leb (nat_of_ascii c) 122.

Definition is_upper (c : ascii) : bool :=
  Nat.leb 65 (nat_of_ascii c) && Nat.leb (nat_of_ascii c) 90.

Definition to_upper (c : ascii) : ascii :=
  if is_lower c then ascii_of_nat (nat_of_ascii c - 32) else c.

Definition to_lower (c : ascii) : ascii :=
  if is_upper c then ascii_of_nat (nat_of_ascii c + 32) else c.

(** [s.title()] on ASCII letters: a letter that follows a letter is made
    lower case, any other letter upper case; other characters are kept. *)
Fixpoint title_from (previous_is_cased : bool) (s : string) : string :=
  match s with
  | EmptyString => EmptyString
  | String c s' =>
      if is_lower c
      then String (if previous_is_cased then c else to_upper c) (title_from true s')
      else if is_upper c
      then String (if previous_is_cased then to_lower c else c) (title_from true s')
      else String c (title_from false s')
  end.

Definition title (s : string) : string := title_from false s.

Definition dq : string := String (ascii_of_nat 34) EmptyString.

(** The card of one entry of the analysis. *)
Definition metric_card (demo : string) (analysis : analysis_value) : result string :=
  let heading := title demo in
  impact <- analysis_get analysis "impact" "N/A" ;;
  concerns <- analysis_get analysis "concerns" "None identified" ;;
  benefits <- analysis_get analysis "benefits" "None identified" ;;
  Ok (nl
      ++ "            <div class=" ++ dq ++ "metric-card" ++ dq ++ ">" ++ nl
      ++ "                <h4>" ++ heading ++ "</h4>" ++ nl
      ++ "                <p><strong>Impact:</strong> " ++ impact ++ "</p>" ++ nl
      ++ "                <p><strong>Concerns:</strong> " ++ concerns ++ "</p>" ++ nl
      ++ "                <p><strong>Benefits:</strong> " ++ benefits ++ "</p>" ++ nl
      ++ "            </div>" ++ nl
      ++ "            ").

(** A widget of the dashboard: on the page, or in one of its columns. *)
Inductive placed :=
| on_page (w : widget)
| in_column (i : nat) (w : widget).

(** [for i, (demo, analysis) in enumerate(demographics.items())], from
    index [i] on, over [ncols] columns. *)
Fixpoint dashboard_cards (ncols i : nat) (items : list (string * analysis_value))
  : result (list placed) :=
  match items with
  | [] => Ok []
  | (demo, analysis) :: rest =>
      card <- metric_card demo analysis ;;
      cards <- dashboard_cards ncols (S i) rest ;;
      Ok (in_column (i mod ncols) (st_markdown card) :: cards)
  end.

(** One run of the dashboard on the analysis kept in the session. *)
Definition analysis_dashboard_page (demographic_analysis : list (string * analysis_value))
  : result (list placed) :=
  match demographic_analysis with
  | [] =>
      Ok [ on_page (st_header "🔍 Policy Analysis Dashboard");
           on_page (st_warning "Please upload and analyze a document first!") ]
  | _ :: _ =>
      let demographics := demographic_analysis in
      let demo_names := map fst demographics in
      let ncols :=
        if Nat.leb 3 (List.length demo_names) then 3 else List.length demo_names in
      cards <- dashboard_cards ncols 0 demographics ;;
      let provisions :=
        match assoc String.eqb "key_provisions" demographics with
        | Some v => map (fun provision => on_page (st_markdown ("• " ++ provision))) (iterate v)
        | None => []
        end in
      Ok ([ on_page (st_header "🔍 Policy Analysis Dashboard");
            on_page (st_subheader "👥 Demographic Impact Analysis") ]
          ++ cards
          ++ [ on_page (st_subheader "📋 Key Provisions") ]
          ++ provisions)%list
  end.

(** ** Vocabulary of the statements *)

(** The entries whose sentiment is [label]. *)
Definition has_sentiment (label : string) (e : feedback_entry) : bool :=
  String.eqb (sentiment e) label.

Definition with_sentiment (label : string) (rs : list feedback_entry) : list feedback_entry :=
  filter (has_sentiment label) rs.

Definition is_suggestion (e : feedback_entry) : bool :=
  String.eqb (type e) "Suggestion".

(** The demographics of the negative entries, in the order of the store. *)
Definition concerned (rs : list feedback_entry) : list string :=
  map demographic (with_sentiment "negative" rs).

(** How often [d] occurs in a list of labels. *)
Definition occurrences (d : string) (l : list string) : nat :=
  count String.eqb d l.

(** The exact fraction of the entries whose sentiment is [label]. *)
Definition fraction (label : string) (rs : list feedback_entry) : Q :=
  Z.of_nat (List.length (with_sentiment label rs)) # Pos.of_nat (List.length rs).

(** The percentage of the entries whose sentiment is [label], as
    binary64 arithmetic gives it: the fraction rounded, and its product
    with 100 rounded. *)
Definition percentage64 (label : string) (rs : list feedback_entry) : Q :=
  round64 (round64 (fraction label rs) * 100)%Q.

(** The three sentiment classes. *)
Definition recognized (s : string) : Prop :=
  s = "positive" \/ s = "neutral" \/ s = "negative".

(** The rows with demographic [d] and sentiment [s]. *)
Definition cell_count (d s : string) (rs : list feedback_entry) : nat :=
  List.length (filter (fun e => String.eqb (demographic e) d && String.eqb (sentiment e) s) rs).

(** Ascending order of labels. *)
Definition value_lt (a b : value) : Prop := value_compare a b = Lt.

(** The attributes of an entry as cells, in the order of its keys. *)
Definition entry_cells (e : feedback_entry) : list value :=
  [ VTime (timestamp e); VStr (name e); VStr (demographic e); VStr (type e);
    VStr (text e); VStr (sentiment e); VList (key_points e); VStr (category e) ].

Definition entry_keys : list string :=
  [ "timestamp"; "name"; "demographic"; "type"; "text"; "sentiment";
    "key_points"; "category" ].

(** A frame that has the columns of the entries and no row. *)
Definition no_rows : DataFrame :=
  {| index_len := 0; data := map (fun k => (k, [])) entry_keys |}.

(** The store after an append. *)
Definition appended (st : session_state) (e : feedback_entry) : session_state :=
  {| document_text := document_text st;
     simplified_text := simplified_text st;
     feedback_data := (feedback_data st ++ [e])%list |}.

(** The leftmost entry of largest count in a list of counts. *)
Fixpoint leftmost_max {A} (l : list (A * nat)) : option (A * nat) :=
  match l with
  | [] => None
  | p :: l' =>
      match leftmost_max l' with
      | None => Some p
      | Some q => if Nat.ltb (snd p) (snd q) then Some q else Some p
      end
  end.

(** Entries used in the examples. *)
Definition noon : datetime := mk_datetime 2025 3 14 12 0 0 0.

(** A run of the insights page in which every reading of the clock gives
    [noon]. *)
Definition at_noon : insights_clock := mk_insights_clock noon noon noon.

Definition sample (d s : string) : feedback_entry :=
  {| timestamp := noon; name := "Anonymous"; demographic := d; type := "Concern";
     text := "The fee is too high."; sentiment := s; key_points := [];
     category := "general" |}.

(** A session in which a document has been analysed, and classifiers
    that answer with a fixed sentiment. *)
Definition analysed : session_state :=
  {| document_text := "Section 1. A fee of 5 applies to every permit.";
     simplified_text := "Every permit costs 5.";
     feedback_data := [] |}.

Definition answering (s : option string) : run_env :=
  {| now := noon;
     process_feedback := fun _ _ =>
       {| pf_sentiment := s; pf_key_points := Some ["fee"]; pf_category := Some "cost" |} |}.

(** An entry with a non-empty name. *)
Definition named (e : feedback_entry) : Prop := name e <> "".

(** The text of the report up to the generation time. *)
Definition report_head : string :=
  nl ++ "POLICY FEEDBACK ANALYSIS REPORT" ++ nl ++ "Generated: ".

(** The hour of each entry, as the timeline column holds it. *)
Definition hours (rs : list feedback_entry) : Series :=
  map (fun e => VInt (Z.of_nat (hour (timestamp e)))) rs.

(** The frame of the store once the insights page has written the
    [hour] column into it. *)
Definition with_hour (rs : list feedback_entry) : DataFrame :=
  setitem (DataFrame_of rs) "hour" (hours rs).

(** A frame that holds the entries [rs] in the columns that the
    aggregation reads. *)
Definition store_frame (rs : list feedback_entry) (df : DataFrame) : Prop :=
  len df = List.length rs
  /\ getitem df "sentiment" = Ok (map (fun e => VStr (sentiment e)) rs)
  /\ getitem df "demographic" = Ok (map (fun e => VStr (demographic e)) rs)
  /\ getitem df "type" = Ok (map (fun e => VStr (type e)) rs)
  /\ (forall m, getitem (loc_mask df m) "demographic"
                = Ok (mask_select m (map (fun e => VStr (demographic e)) rs)))
  /\ (forall m, getitem (loc_mask df m) "text"
                = Ok (mask_select m (map (fun e => VStr (text e)) rs))).

(** The recommendations as a function of the store: each rule on its own
    condition, in the order of the rules. *)
Definition recommendations_of (rs : list feedback_entry) : list string :=
  ((if fgt (Fin (fraction "negative" rs)) (3 # 10) then [rule1_text] else [])
   ++ match value_counts (map VStr (concerned rs)) with
      | (top_concerned, _) :: _ => [rule2_text top_concerned]
      | [] => []
      end
   ++ (if Nat.ltb 0 (List.length (filter is_suggestion rs))
       then [rule3_text (List.length (filter is_suggestion rs))]
       else []))%list.

(** The cross-tabulation that the insights page draws from a store. *)
Definition demo_sentiment (rs : list feedback_entry) : CrossTab :=
  unstack (groupby2_size (map (fun e => VStr (demographic e)) rs)
                         (map (fun e => VStr (sentiment e)) rs)) 0.

(** The table that the insights page exports from a store. *)
Definition exported_csv (rs : list feedback_entry) : csv_table :=
  {| csv_header := (entry_keys ++ ["hour"])%list;
     csv_rows :=
       map (fun e => (entry_cells e ++ [VInt (Z.of_nat (hour (timestamp e)))])%list) rs |}.

(** The texts of the entries with a sentiment, in the order of the store. *)
Definition texts_with (label : string) (rs : list feedback_entry) : Series :=
  map (fun e => VStr (text e)) (with_sentiment label rs).

Definition key_insights (title : string) (texts : Series) : list widget :=
  match texts with
  | [] => []
  | _ :: _ => st_markdown title :: bullet_points texts
  end.

(** The widgets of the insights page for a non-empty store [rs] whose
    report text is [report]. *)
Definition insights_widgets (format_1f : float -> string)
    (csv_clicked report_clicked : bool) (clock : insights_clock)
    (rs : list feedback_entry) (report : string) : list widget :=
  ([ st_header "📊 Policy Insights Report";
    st_metric "Total Feedback" (str_nat (List.length rs));
    st_metric "Support Rate" (format_1f (Fin (percentage64 "positive" rs)) ++ "%")%string;
    st_metric "Concern Rate" (format_1f (Fin (percentage64 "negative" rs)) ++ "%")%string;
    st_metric "Demographics Represented"
      (str_nat (nunique (map (fun e => VStr (demographic e)) rs)));
    st_subheader "📈 Feedback Trends";
    st_plotly_chart (px_line "Feedback Submission Timeline" (groupby_size (hours rs)));
    st_plotly_chart (px_bar_frame "Sentiment by Demographic" (demo_sentiment rs));
    st_subheader "🔑 Key Insights" ]
  ++ key_insights "**Top Concerns:**" (texts_with "negative" rs)
  ++ key_insights "**Strong Support For:**" (texts_with "positive" rs)
  ++ [ st_subheader "💡 AI-Generated Recommendations" ]
  ++ enumerate_recommendations 1 (recommendations_of rs)
  ++ [ st_subheader "📥 Export Data" ]
  ++ (if csv_clicked
      then [ st_download_button "Download CSV" (csv_data (exported_csv rs))
               ("policy_feedback_" ++ strftime_date (csv_name_now clock) ++ ".csv")%string
               "text/csv" ]
      else [])
  ++ (if report_clicked
      then [ st_download_button "Download Report" (text_data report)
               ("policy_insights_report_" ++ strftime_date (report_name_now clock)
                ++ ".txt")%string "text/plain" ]
      else []))%list.

(** A cell that holds a label, that is, a string. *)
Definition is_label (v : value) : Prop := exists s, v = VStr s.

(** The mean of a boolean column with [k] true rows out of [n], as
    binary64 arithmetic computes it, its comparison with the literal
    [0.3] of rule 1, and its product with 100. *)
Module Binary64.
Import PrimFloat.

Definition mean (k n : Z) : PrimFloat.float :=
  PrimFloat.div (PrimFloat.of_uint63 (Uint63.of_Z k)) (PrimFloat.of_uint63 (Uint63.of_Z n)).

Definition above_threshold (k n : Z) : bool :=
  PrimFloat.ltb 0x1.3333333333333p-2%float (mean k n).

Definition percentage (k n : Z) : PrimFloat.float :=
  PrimFloat.mul (mean k n) (PrimFloat.of_uint63 (Uint63.of_Z 100)).

(** The rational that a finite binary64 number is. *)
Definition to_Q (f : PrimFloat.float) : option Q :=
  match FloatOps.Prim2SF f with
  | SpecFloat.S754_zero _ => Some 0%Q
  | SpecFloat.S754_finite s m e =>
      Some ((if s then -1 else 1) * inject_Z (Zpos m) * 2 ^ e)%Q
  | _ => None
  end.

(** The binary64 number [f] is the rational [q]. *)
Definition same (f : PrimFloat.float) (q : Q) : bool :=
  match to_Q f with
  | Some v => Qeq_bool v q
  | None => false
  end.

End Binary64.

(** The pairs [(k, n)] with [0 <= k <= n] and [1 <= n <= bound]. *)
Definition counts_up_to (bound : nat) : list (Z * Z) :=
  flat_map (fun n => map (fun k => (Z.of_nat k, Z.of_nat n)) (seq 0 (S n))) (seq 1 bound).

(** An entry as the feedback form builds it: a text, and a demographic
    and a type out of the two enumerations. *)
Definition from_form (e : feedback_entry) : Prop :=
  text e <> "" /\ In (demographic e) DEMOGRAPHICS /\ In (type e) FEEDBACK_TYPES.

(** What a session keeps true between its document and its feedback. *)
Definition document_kept (st : session_state) : Prop :=
  (simplified_text st <> "" -> document_text st <> "")
  /\ (feedback_data st <> [] -> document_text st <> "").

(** A list of counts that is the distribution of the labels [l]: one
    entry per distinct label with the number of its occurrences, the
    entries in decreasing order of count, the counts adding up to the
    number of labels. *)
Definition distribution_of (l : list string) (counts : list (value * nat)) : Prop :=
  (forall v n, In (v, n) counts <-> exists s, v = VStr s /\ In s l /\ n = occurrences s l)
  /\ NoDup (map fst counts)
  /\ StronglySorted (fun p q => snd q <= snd p) counts
  /\ list_sum (map snd counts) = List.length l.

(** The card of an entry among the recent feedback. *)
Definition recent_card (feedback : feedback_entry) : widget :=
  st_feedback_card
    (if String.eqb (sentiment feedback) "positive" then "feedback-item" else "concern-item")
    feedback.

(** A cell that holds an integer. *)
Definition is_int (v : value) : Prop := exists z, v = VInt z.

(** The entries submitted in hour [h] of a day. *)
Definition in_hour (h : nat) (rs : list feedback_entry) : list feedback_entry :=
  filter (fun e => Nat.eqb (hour (timestamp e)) h) rs.

(** The entries of a demographic. *)
Definition of_demographic (d : string) (rs : list feedback_entry) : list feedback_entry :=
  filter (fun e => String.eqb (demographic e) d) rs.

(** The part of the report between the generation time and the list
    of concerns, for a store [rs]. *)
Definition report_summary (format_1f : float -> string)
    (to_string : string -> list (value * nat) -> string) (rs : list feedback_entry) : string :=
  nl ++ nl
  ++ "SUMMARY STATISTICS" ++ nl
  ++ "==================" ++ nl
  ++ "Total Feedback Received: " ++ str_nat (List.length rs) ++ nl
  ++ "Support Rate: " ++ format_1f (Fin (percentage64 "positive" rs)) ++ "%" ++ nl
  ++ "Concern Rate: " ++ format_1f (Fin (percentage64 "negative" rs)) ++ "%" ++ nl
  ++ "Demographics Represented: "
  ++ str_nat (nunique (map (fun e => VStr (demographic e)) rs)) ++ nl
  ++ nl
  ++ "DEMOGRAPHIC BREAKDOWN" ++ nl
  ++ "====================" ++ nl
  ++ to_string "demographic" (value_counts (map (fun e => VStr (demographic e)) rs)) ++ nl
  ++ nl
  ++ "SENTIMENT ANALYSIS" ++ nl
  ++ "==================" ++ nl
  ++ to_string "sentiment" (value_counts (map (fun e => VStr (sentiment e)) rs)) ++ nl
  ++ nl
  ++ "FEEDBACK TYPES" ++ nl
  ++ "==============" ++ nl
  ++ to_string "type" (value_counts (map (fun e => VStr (type e)) rs)) ++ nl
  ++ nl.

(** The two numbered lists that end the report, for a store [rs]. *)
Definition report_lists (rs : list feedback_entry) : string :=
  "TOP CONCERNS" ++ nl
  ++ "============" ++ nl
  ++ numbered_lines 1 (firstn 5 (texts_with "negative" rs))
  ++ nl ++ "TOP SUPPORT POINTS" ++ nl
  ++ "================" ++ nl
  ++ numbered_lines 1 (firstn 5 (texts_with "positive" rs)).

(** [shown] is the text [x] cut after its first [n] characters: a
    prefix of [x] that holds [n] characters, or all of them when [x] has
    fewer, and that ends where a character ends. *)
Definition cut_at (n : nat) (x shown : string) : Prop :=
  exists rest,
    x = (shown ++ rest)%string
    /\ str_len shown = Nat.min n (str_len x)
    /\ match rest with
       | String c _ => is_continuation c = false
       | EmptyString => True
       end.

(** The widgets under a heading of the key insights, for the texts
    [texts]: nothing when there is no text; else the heading and one
    bullet for each of the first three texts, the text cut after 100
    characters and followed by three dots. *)
Definition insight_block (heading : string) (texts : list string) (block : list widget)
  : Prop :=
  match texts with
  | [] => block = []
  | _ :: _ =>
      exists bullets,
        block = st_markdown heading :: bullets
        /\ List.length bullets = Nat.min 3 (List.length texts)
        /\ (forall i x,
              i < 3 -> nth_error texts i = Some x ->
              exists shown,
                nth_error bullets i = Some (st_markdown ("• " ++ shown ++ "..."))
                /\ cut_at 100 x shown)
  end.

(** The card of the dashboard with a heading and the three texts. *)
Definition card_html (heading impact concerns benefits : string) : string :=
  nl
  ++ "            <div class=" ++ dq ++ "metric-card" ++ dq ++ ">" ++ nl
  ++ "                <h4>" ++ heading ++ "</h4>" ++ nl
  ++ "                <p><strong>Impact:</strong> " ++ impact ++ "</p>" ++ nl
  ++ "                <p><strong>Concerns:</strong> " ++ concerns ++ "</p>" ++ nl
  ++ "                <p><strong>Benefits:</strong> " ++ benefits ++ "</p>" ++ nl
  ++ "            </div>" ++ nl
  ++ "            ".

(** A text of ASCII characters, on which [title] is [str.title]. *)
Definition is_ascii (s : string) : Prop :=
  forallb (fun c => Nat.ltb (nat_of_ascii c) 128) (list_ascii_of_string s) = true.

(** A value of the analysis that is a dict. *)
Definition is_dict (v : analysis_value) : Prop := exists items, v = analysis_dict items.

(** A text of exactly [width] decimal digits. *)
Definition is_digit (c : ascii) : bool :=
  Nat.leb 48 (nat_of_ascii c) && Nat.leb (nat_of_ascii c) 57.

Definition digits (width : nat) (s : string) : bool :=
  Nat.eqb (String.length s) width && forallb is_digit (list_ascii_of_string s).

(** An upload whose file yields the empty text. *)
Definition extracts_nothing (p : page_run) : Prop :=
  match p with
  | PolicyUpload _ (upload_file (Some extracted)) _ _ => extracted = ""
  | _ => False
  end.

(** A run that cannot store a simplified text: any run but an upload in
    which Analyze is pressed with an API key. *)
Definition analyses_nothing (p : page_run) : Prop :=
  match p with
  | PolicyUpload api_key _ analyze_clicked _ => api_key = "" \/ analyze_clicked = false
  | _ => True
  end.

(** ** Cells and masks *)

Lemma value_eqb_eq (a b : value) : value_eqb a b = true <-> a = b.
Proof.
  unfold value_eqb. destruct (value_eq_dec a b); split; congruence.
Qed.

Lemma value_eqb_VStr (a b : string) : value_eqb (VStr a) (VStr b) = String.eqb a b.
Proof.
  unfold value_eqb.
  destruct (value_eq_dec (VStr a) (VStr b)) as [E|N], (String.eqb_spec a b); congruence.
Qed.

Lemma series_eq_map (f : feedback_entry -> string) (label : string) rs :
  series_eq (map (fun e => VStr (f e)) rs) (VStr label)
  = map (fun e => String.eqb (f e) label) rs.
Proof.
  unfold series_eq. rewrite map_map. apply map_ext. intros e. apply value_eqb_VStr.
Qed.

Lemma mask_sum_map {A} (p : A -> bool) (l : list A) :
  mask_sum (map p l) = List.length (filter p l).
Proof.
  unfold mask_sum. induction l as [|x l IH]; simpl; [reflexivity|].
  destruct (p x); simpl; congruence.
Qed.

Lemma mask_select_map {A B} (p : A -> bool) (f : A -> B) (l : list A) :
  mask_select (map p l) (map f l) = map f (filter p l).
Proof.
  induction l as [|x l IH]; simpl; [reflexivity|].
  destruct (p x); simpl; congruence.
Qed.

Lemma mask_mean_map {A} (p : A -> bool) (l : list A) :
  l <> [] ->
  mask_mean (map p l) = Fin (Z.of_nat (List.length (filter p l)) # Pos.of_nat (List.length l)).
Proof.
  intros H. unfold mask_mean. rewrite length_map, mask_sum_map.
  destruct l; [congruence|reflexivity].
Qed.

(** ** Columns of the frame of a non-empty store *)

Lemma hours_of_timestamps (rs : list feedback_entry) :
  dt_hour (map (fun e => VTime (timestamp e)) rs) = Ok (hours rs).
Proof.
  unfold hours. induction rs as [|e rs IH]; simpl; [reflexivity|].
  rewrite IH. reflexivity.
Qed.

Lemma store_frame_DataFrame_of (rs : list feedback_entry) :
  rs <> [] -> store_frame rs (DataFrame_of rs).
Proof. intros H. destruct rs; [congruence|]. repeat split. Qed.

Lemma store_frame_with_hour (rs : list feedback_entry) :
  rs <> [] -> store_frame rs (with_hour rs).
Proof. intros H. destruct rs; [congruence|]. repeat split. Qed.

Section FrameOfStore.
Variable rs : list feedback_entry.
Variable df : DataFrame.
Hypothesis nonempty : rs <> [].
Hypothesis frame : store_frame rs df.

Lemma frame_sentiment :
  getitem df "sentiment" = Ok (map (fun e => VStr (sentiment e)) rs).
Proof. apply frame. Qed.

Lemma frame_demographic :
  getitem df "demographic" = Ok (map (fun e => VStr (demographic e)) rs).
Proof. apply frame. Qed.

Lemma frame_type :
  getitem df "type" = Ok (map (fun e => VStr (type e)) rs).
Proof. apply frame. Qed.

Lemma frame_mask_demographic m :
  getitem (loc_mask df m) "demographic"
  = Ok (mask_select m (map (fun e => VStr (demographic e)) rs)).
Proof. apply frame. Qed.

Lemma frame_mask_text m :
  getitem (loc_mask df m) "text"
  = Ok (mask_select m (map (fun e => VStr (text e)) rs)).
Proof. apply frame. Qed.

Lemma frame_sentiment_mean label :
  sentiment_mean df label = Ok (Fin (fraction label rs)).
Proof.
  unfold sentiment_mean. rewrite frame_sentiment. simpl.
  rewrite series_eq_map, mask_mean_map by assumption. reflexivity.
Qed.

Lemma frame_sentiment_percentage64 label :
  sentiment_percentage64 df label = Ok (Fin (percentage64 label rs)).
Proof. unfold sentiment_percentage64. rewrite frame_sentiment_mean. reflexivity. Qed.

(** The three rules, each on its own condition, in their order. *)
Lemma frame_recommendations :
  generate_recommendations df = Ok (recommendations_of rs).
Proof.
  unfold generate_recommendations, recommendations_of.
  rewrite frame_sentiment_mean. cbn [bind].
  rewrite frame_sentiment. cbn [bind].
  rewrite frame_mask_demographic. cbn [bind].
  rewrite frame_type. cbn [bind].
  rewrite !series_eq_map, mask_select_map, mask_sum_map.
  unfold concerned, with_sentiment, has_sentiment, is_suggestion.
  rewrite map_map.
  destruct (fgt _ _); destruct (value_counts _) as [|[top n] l];
    destruct (Nat.ltb _ _); reflexivity.
Qed.
End FrameOfStore.

Section FrameOfStoreDirect.
Variable rs : list feedback_entry.
Hypothesis nonempty : rs <> [].

Lemma getitem_sentiment :
  getitem (DataFrame_of rs) "sentiment" = Ok (map (fun e => VStr (sentiment e)) rs).
Proof. apply frame_sentiment, store_frame_DataFrame_of, nonempty. Qed.

Lemma getitem_type :
  getitem (DataFrame_of rs) "type" = Ok (map (fun e => VStr (type e)) rs).
Proof. apply frame_type, store_frame_DataFrame_of, nonempty. Qed.

Lemma sentiment_mean_fraction label :
  sentiment_mean (DataFrame_of rs) label = Ok (Fin (fraction label rs)).
Proof. apply frame_sentiment_mean, store_frame_DataFrame_of; exact nonempty. Qed.

Lemma generate_recommendations_eq :
  generate_recommendations (DataFrame_of rs) = Ok (recommendations_of rs).
Proof. apply frame_recommendations, store_frame_DataFrame_of; exact nonempty. Qed.
End FrameOfStoreDirect.

(** ** Rule 1: the threshold on the negative fraction *)

Lemma rule1_not_rule2 (v : value) : rule1_text <> rule2_text v.
Proof. unfold rule1_text, rule2_text. cbn. discriminate. Qed.

Lemma rule1_not_rule3 (n : nat) : rule1_text <> rule3_text n.
Proof. unfold rule1_text, rule3_text. cbn. discriminate. Qed.

Lemma fgt_Fin (q t : Q) : fgt (Fin q) t = true <-> (t < q)%Q.
Proof.
  unfold fgt. rewrite negb_true_iff, <- not_true_iff_false, Qle_bool_iff.
  split; [apply Qnot_le_lt | apply Qlt_not_le].
Qed.

(** C4. Rule 1 is in the recommendations of a non-empty store exactly
    when the fraction of negative entries is strictly greater than
    3/10; a fraction equal to 3/10 does not emit it. *)
Theorem rule1_iff_negative_fraction_above_threshold (rs : list feedback_entry) :
  rs <> [] ->
  exists recs,
    generate_recommendations (DataFrame_of rs) = Ok recs
    /\ (In rule1_text recs <-> (3 # 10 < fraction "negative" rs)%Q)
    /\ ((fraction "negative" rs == 3 # 10)%Q -> ~ In rule1_text recs).
Proof.
  intros H. rewrite (generate_recommendations_eq rs H).
  eexists. split; [reflexivity|].
  assert (Hiff : In rule1_text (recommendations_of rs)
          <-> (3 # 10 < fraction "negative" rs)%Q).
  { unfold recommendations_of. rewrite <- fgt_Fin. rewrite !in_app_iff. split.
    - intros [H1 | [H2 | H3]].
      + destruct (fgt _ _); [reflexivity | destruct H1].
      + destruct (value_counts _) as [|[top n] l]; [destruct H2|].
        destruct H2 as [H2|[]]. symmetry in H2. now apply rule1_not_rule2 in H2.
      + destruct (Nat.ltb _ _); [|destruct H3].
        destruct H3 as [H3|[]]. symmetry in H3. now apply rule1_not_rule3 in H3.
    - intros ->. left. now left. }
  split; [exact Hiff|].
  intros E HIn. apply Hiff in HIn. rewrite E in HIn. now apply Qlt_irrefl in HIn.
Qed.

Lemma rule1_iff_negative_fraction_above_threshold_witness :
  [sample "Farmer" "negative"] <> []
  /\ exists recs,
       generate_recommendations (DataFrame_of [sample "Farmer" "negative"]) = Ok recs
       /\ (In rule1_text recs <-> (3 # 10 < fraction "negative" [sample "Farmer" "negative"])%Q)
       /\ ((fraction "negative" [sample "Farmer" "negative"] == 3 # 10)%Q
           -> ~ In rule1_text recs).
Proof.
  split; [discriminate|].
  apply (rule1_iff_negative_fraction_above_threshold [sample "Farmer" "negative"]).
  discriminate.
Defined.

(** The binary64 comparison agrees with the exact one around the
    threshold. *)
Example binary64_threshold :
  map (fun kn => (Binary64.above_threshold (fst kn) (snd kn),
                  fgt (Fin (fst kn # Z.to_pos (snd kn))) (3 # 10)))
      [ (3, 10); (30, 100); (300, 1000); (3001, 10000); (31, 100); (29, 100);
        (299999, 1000000); (300001, 1000000) ]%Z
  = [ (false, false); (false, false); (false, false); (true, true); (true, true);
      (false, false); (false, false); (true, true) ].
Proof. vm_compute. reflexivity. Qed.

(** At the boundary: three negative entries out of ten do not emit
    rule 1, 3001 out of 10000 do. *)
Example rule1_at_exactly_30_percent :
  generate_recommendations
    (DataFrame_of (repeat (sample "Farmer" "negative") 3
                   ++ repeat (sample "Student" "positive") 7)%list)
  = Ok [rule2_text (VStr "Farmer")].
Proof. vm_compute. reflexivity. Qed.

Example rule1_just_above_30_percent :
  generate_recommendations
    (DataFrame_of (repeat (sample "Farmer" "negative") 3001
                   ++ repeat (sample "Student" "positive") (3000 + 3999))%list)
  = Ok [rule1_text; rule2_text (VStr "Farmer")].
Proof. vm_compute. reflexivity. Qed.

(** ** Counting in order of first appearance *)

Open Scope list_scope.

Section FirstAppearance.
Context {A : Type}.
Variable eqb : A -> A -> bool.
Hypothesis eqb_eq : forall x y, eqb x y = true <-> x = y.

Lemma eqb_refl x : eqb x x = true.
Proof. now apply eqb_eq. Qed.

Lemma eqb_neq x y : eqb x y = false <-> x <> y.
Proof. rewrite <- eqb_eq. now destruct (eqb x y). Qed.

Lemma count_absent x l : ~ In x l -> count eqb x l = 0.
Proof.
  induction l as [|y l IH]; simpl; intros H; [reflexivity|].
  destruct (eqb x y) eqn:E.
  - apply eqb_eq in E. subst. exfalso. apply H. now left.
  - apply IH. intros HIn. apply H. now right.
Qed.

Lemma count_present x l : In x l -> 0 < count eqb x l.
Proof.
  induction l as [|y l IH]; simpl; intros H; [destruct H|].
  destruct H as [->|H].
  - rewrite eqb_refl. lia.
  - apply IH in H. lia.
Qed.

Lemma unique_In l x : In x (unique eqb l) <-> In x l.
Proof.
  induction l as [|y l IH]; simpl; [reflexivity|].
  rewrite filter_In, IH, negb_true_iff, eqb_neq.
  split.
  - intros [H|[H _]]; auto.
  - intros [H|H]; auto.
    destruct (eqb y x) eqn:E.
    + apply eqb_eq in E. auto.
    + apply eqb_neq in E. auto.
Qed.

(** What comes before the first occurrence of [d] in a list comes
    before [d] among the distinct elements. *)
Lemma unique_before pre d post :
  ~ In d pre ->
  exists u1 u2,
    unique eqb (pre ++ d :: post) = u1 ++ d :: u2
    /\ (forall y, In y pre -> In y u1)
    /\ (forall y, In y u1 -> In y pre).
Proof.
  induction pre as [|x pre IH]; intros Hd.
  - exists [], (filter (fun y => negb (eqb d y)) (unique eqb post)).
    simpl. repeat split; auto.
  - destruct IH as (u1 & u2 & E & H1 & H2).
    { intros H. apply Hd. now right. }
    assert (Hxd : eqb x d = false).
    { apply eqb_neq. intros ->. apply Hd. now left. }
    exists (x :: filter (fun y => negb (eqb x y)) u1),
           (filter (fun y => negb (eqb x y)) u2).
    simpl. rewrite E, filter_app. simpl. rewrite Hxd. simpl.
    repeat split.
    + intros y [->|Hy]; [now left|].
      destruct (eqb x y) eqn:Exy.
      * apply eqb_eq in Exy. now left.
      * right. apply filter_In. split; [auto|]. now rewrite Exy.
    + intros y [->|Hy]; [now left|].
      apply filter_In in Hy. right. apply H2, Hy.
Qed.

Lemma split_at_first (a a' b b' : list A) x :
  a ++ x :: b = a' ++ x :: b' -> ~ In x a -> ~ In x a' -> a = a'.
Proof.
  revert a'. induction a as [|y a IH]; intros [|y' a'] E Ha Ha'; simpl in *.
  - reflexivity.
  - injection E as -> _. exfalso. apply Ha'. now left.
  - injection E as -> _. exfalso. apply Ha. now left.
  - injection E as -> E. f_equal. apply (IH a' E); intros H; [apply Ha|apply Ha']; now right.
Qed.

Lemma hd_sort_desc (l : list (A * nat)) : hd_error (sort_desc l) = leftmost_max l.
Proof.
  induction l as [|p l IH]; simpl; [reflexivity|].
  rewrite <- IH. destruct (sort_desc l) as [|q s]; simpl; [reflexivity|].
  destruct (Nat.ltb (snd p) (snd q)); reflexivity.
Qed.

Lemma leftmost_max_split (l : list (A * nat)) q :
  leftmost_max l = Some q ->
  exists pre post,
    l = pre ++ q :: post
    /\ (forall p, In p pre -> snd p < snd q)
    /\ (forall p, In p post -> snd p <= snd q).
Proof.
  revert q. induction l as [|p l IH]; simpl; intros q H; [discriminate|].
  destruct (leftmost_max l) as [q'|] eqn:E.
  - destruct (IH q' eq_refl) as (pre & post & -> & Hpre & Hpost).
    destruct (Nat.ltb_spec (snd p) (snd q')) as [Hlt|Hge]; injection H as <-.
    + exists (p :: pre), post. repeat split; auto.
      intros p0 [<-|Hp]; auto.
    + exists [], (pre ++ q' :: post)%list. repeat split; auto.
      * intros p0 [].
      * intros p0 Hp. apply in_app_iff in Hp. destruct Hp as [Hp|[<-|Hp]].
        -- apply Hpre in Hp. lia.
        -- assumption.
        -- apply Hpost in Hp. lia.
  - injection H as <-. destruct l as [|p' l'].
    + exists [], []. repeat split; auto; intros p0 [].
    + simpl in E. destruct (leftmost_max l') as [q''|]; [|discriminate].
      destruct (Nat.ltb _ _); discriminate.
Qed.

(** The first entry of the counts of a series. *)
Lemma top_of_counts (l : list A) d n rest :
  sort_desc (map (fun k => (k, count eqb k l)) (unique eqb l)) = (d, n) :: rest ->
  In d l
  /\ n = count eqb d l
  /\ (forall y, count eqb y l <= count eqb d l)
  /\ (forall pre post, l = pre ++ d :: post -> ~ In d pre ->
        forall y, In y pre -> count eqb y l < count eqb d l).
Proof.
  intros Hs.
  assert (Hm : leftmost_max (map (fun k => (k, count eqb k l)) (unique eqb l)) = Some (d, n)).
  { rewrite <- hd_sort_desc, Hs. reflexivity. }
  apply leftmost_max_split in Hm. destruct Hm as (cpre & cpost & Hcs & Hpre & Hpost).
  assert (Hall : forall p, In p (cpre ++ (d, n) :: cpost) ->
                   In (fst p) l /\ snd p = count eqb (fst p) l).
  { rewrite <- Hcs. intros p Hp. apply in_map_iff in Hp.
    destruct Hp as (k & <- & Hk). apply (proj1 (unique_In _ _)) in Hk. simpl. split; [assumption|reflexivity]. }
  destruct (Hall (d, n)) as [Hd Hn]; [apply in_elt|]. simpl in Hd, Hn.
  assert (Hkeys : unique eqb l = map fst cpre ++ d :: map fst cpost).
  { transitivity (map fst (map (fun k => (k, count eqb k l)) (unique eqb l))).
    - rewrite map_map. simpl. now rewrite map_id.
    - rewrite Hcs, map_app. reflexivity. }
  repeat split; auto.
  - intros y. destruct (in_dec (fun a b => match Bool.bool_dec (eqb a b) true with
                                            | left e => left (proj1 (eqb_eq a b) e)
                                            | right ne => right (fun e => ne (proj2 (eqb_eq a b) e))
                                            end) y l) as [Hy|Hy].
    + apply (proj2 (unique_In _ _)) in Hy.
      assert (Hp : In (y, count eqb y l) (cpre ++ (d, n) :: cpost)).
      { rewrite <- Hcs. apply in_map_iff. exists y. auto. }
      apply in_app_iff in Hp. destruct Hp as [Hp|[Hp|Hp]].
      * apply Hpre in Hp. simpl in Hp. lia.
      * injection Hp as -> _. lia.
      * apply Hpost in Hp. simpl in Hp. lia.
    + rewrite (count_absent y l Hy). lia.
  - intros pre post El Hdpre y Hy.
    destruct (unique_before pre d post Hdpre) as (u1 & u2 & Eu & H1 & H2).
    rewrite <- El in Eu. rewrite Hkeys in Eu.
    assert (Hnot : ~ In d (map fst cpre)).
    { intros HIn. apply in_map_iff in HIn. destruct HIn as ([k m] & Ek & Hk).
      simpl in Ek. subst k.
      pose proof (Hpre _ Hk) as Hlt. simpl in Hlt.
      destruct (Hall (d, m)) as [_ Hm]; [apply in_app_iff; now left|].
      simpl in Hm. lia. }
    assert (Hu1 : map fst cpre = u1).
    { apply (split_at_first _ _ _ _ _ Eu Hnot). intros HIn. apply Hdpre, H2, HIn. }
    apply H1 in Hy. rewrite <- Hu1 in Hy. apply in_map_iff in Hy.
    destruct Hy as ([k m] & Ek & Hk). simpl in Ek. subst k.
    pose proof (Hpre _ Hk) as Hlt. simpl in Hlt.
    destruct (Hall (y, m)) as [_ Hm]; [apply in_app_iff; now left|].
    simpl in Hm. lia.
Qed.

Lemma counts_nonempty (l : list A) :
  l <> [] -> sort_desc (map (fun k => (k, count eqb k l)) (unique eqb l)) <> [].
Proof.
  intros Hl Hs. destruct l as [|x l]; [congruence|].
  pose proof (hd_sort_desc (map (fun k => (k, count eqb k (x :: l))) (unique eqb (x :: l)))) as H.
  rewrite Hs in H. simpl in H.
  destruct (leftmost_max _) as [q|]; [|discriminate].
  destruct (Nat.ltb _ _); discriminate.
Qed.
End FirstAppearance.

(** ** Rule 2: the top concerned demographic *)

Lemma count_VStr (d : string) (l : list string) :
  count value_eqb (VStr d) (map VStr l) = occurrences d l.
Proof.
  unfold occurrences. induction l as [|x l IH]; simpl; [reflexivity|].
  now rewrite value_eqb_VStr, IH.
Qed.

Lemma In_VStr (d : string) (l : list string) : In (VStr d) (map VStr l) <-> In d l.
Proof.
  rewrite in_map_iff. split.
  - intros (x & E & H). now injection E as <-.
  - intros H. now exists d.
Qed.

Lemma concerned_nonempty (rs : list feedback_entry) :
  (exists e, In e rs /\ sentiment e = "negative") -> concerned rs <> [].
Proof.
  intros (e & He & Hs) E.
  assert (H : In (demographic e) (concerned rs)).
  { unfold concerned, with_sentiment. apply in_map, filter_In. split; [assumption|].
    unfold has_sentiment. rewrite Hs. reflexivity. }
  rewrite E in H. destruct H.
Qed.

Lemma string_length_app (a b : string) :
  String.length (a ++ b)%string = String.length a + String.length b.
Proof. induction a as [|c a IH]; simpl; [reflexivity|now rewrite IH]. Qed.

Lemma string_app_inv_tail (a b s : string) :
  (a ++ s)%string = (b ++ s)%string -> a = b.
Proof.
  revert b. induction a as [|c a IH]; intros [|c' b] H; simpl in H.
  - reflexivity.
  - apply (f_equal String.length) in H. simpl in H.
    rewrite string_length_app in H. lia.
  - apply (f_equal String.length) in H. simpl in H.
    rewrite string_length_app in H. lia.
  - injection H as -> H. f_equal. now apply IH.
Qed.

(** The sentence of rule 2 names one demographic only. *)
Lemma rule2_text_names (d d' : string) :
  rule2_text (VStr d') = rule2_text (VStr d) -> d' = d.
Proof.
  unfold rule2_text. simpl. intros H. injection H as H.
  now apply string_app_inv_tail in H.
Qed.

(** C5. When some entry is negative, the recommendations hold the
    sentence of rule 2 with the name of one demographic [d] in it, and of
    no other: [d] heads the counts of the negative entries, it has the
    highest count, and every demographic met before the first negative
    entry of [d] has a strictly smaller count, so a tie goes to the
    demographic that appears first.  For two negative entries of Farmer
    followed by one of Student it is Farmer, and the recommendations are
    the warning of rule 1 and the sentence of rule 2 on Farmer. *)
Theorem top_concerned_is_first_most_frequent :
  (forall rs : list feedback_entry,
     (exists e, In e rs /\ sentiment e = "negative") ->
     exists d recs,
       generate_recommendations (DataFrame_of rs) = Ok recs
       /\ In ("Focus stakeholder engagement on " ++ d
              ++ " group, which shows highest concern levels.")%string recs
       /\ (forall d',
             In ("Focus stakeholder engagement on " ++ d'
                 ++ " group, which shows highest concern levels.")%string recs ->
             d' = d)
       /\ hd_error (value_counts (map VStr (concerned rs)))
          = Some (VStr d, occurrences d (concerned rs))
       /\ In d (concerned rs)
       /\ (forall d', occurrences d' (concerned rs) <= occurrences d (concerned rs))
       /\ (forall pre post, concerned rs = pre ++ d :: post -> ~ In d pre ->
             forall d', In d' pre ->
               occurrences d' (concerned rs) < occurrences d (concerned rs)))
  /\ hd_error (value_counts (map VStr (concerned
        [sample "Farmer" "negative"; sample "Farmer" "negative";
         sample "Student" "negative"])))
     = Some (VStr "Farmer", 2)
  /\ generate_recommendations
       (DataFrame_of [sample "Farmer" "negative"; sample "Farmer" "negative";
                      sample "Student" "negative"])
     = Ok ["Consider addressing the high level of concerns (30%+) before policy implementation.";
           "Focus stakeholder engagement on Farmer group, which shows highest concern levels."]%string.
Proof.
  split; [|split; reflexivity].
  intros rs Hneg.
  assert (Hrs : rs <> []).
  { destruct Hneg as (e & He & _). intros ->. destruct He. }
  pose proof (concerned_nonempty rs Hneg) as Hc.
  assert (Hv : map VStr (concerned rs) <> []).
  { intros E. apply map_eq_nil in E. contradiction. }
  pose proof (counts_nonempty value_eqb (map VStr (concerned rs)) Hv) as Hne.
  fold (value_counts (map VStr (concerned rs))) in Hne.
  destruct (value_counts (map VStr (concerned rs))) as [|[dv n] rest] eqn:E;
    [congruence|].
  destruct (top_of_counts value_eqb value_eqb_eq _ _ _ _ E) as (HIn & Hn & Hmax & Hfirst).
  apply in_map_iff in HIn. destruct HIn as (d & <- & Hd).
  rewrite count_VStr in Hn. subst n.
  exists d. eexists. split; [apply (generate_recommendations_eq rs Hrs)|].
  unfold recommendations_of. rewrite E.
  change ("Focus stakeholder engagement on " ++ d
          ++ " group, which shows highest concern levels.")%string
    with (rule2_text (VStr d)).
  split; [|split; [|repeat split]].
  - rewrite !in_app_iff. right. left. now left.
  - intros d' H.
    change ("Focus stakeholder engagement on " ++ d'
            ++ " group, which shows highest concern levels.")%string
      with (rule2_text (VStr d')) in H.
    rewrite !in_app_iff in H. destruct H as [H|[H|H]].
    + destruct (fgt _ _); simpl in H; [|contradiction].
      destruct H as [H|[]]. now apply rule1_not_rule2 in H.
    + destruct H as [H|[]]. symmetry in H. now apply rule2_text_names in H.
    + destruct (Nat.ltb _ _); simpl in H; [|contradiction].
      destruct H as [H|[]]. unfold rule2_text, rule3_text in H. cbn in H. discriminate.
  - assumption.
  - intros d'. rewrite <- !count_VStr. apply Hmax.
  - intros pre post Esplit Hpre d' Hd'. rewrite <- !count_VStr.
    apply (Hfirst (map VStr pre) (map VStr post)).
    + rewrite Esplit, map_app. reflexivity.
    + now rewrite In_VStr.
    + now apply In_VStr.
Qed.

Lemma top_concerned_is_first_most_frequent_witness :
  (exists e, In e [sample "Student" "negative"; sample "Farmer" "negative"]
             /\ sentiment e = "negative")
  /\ exists recs,
       generate_recommendations
         (DataFrame_of [sample "Student" "negative"; sample "Farmer" "negative"]) = Ok recs
       /\ In "Focus stakeholder engagement on Student group, which shows highest concern levels."%string
             recs.
Proof.
  assert (H : exists e, In e [sample "Student" "negative"; sample "Farmer" "negative"]
                        /\ sentiment e = "negative").
  { exists (sample "Student" "negative"). split; [now left|reflexivity]. }
  split; [exact H|].
  destruct (proj1 top_concerned_is_first_most_frequent _ H)
    as (d & recs & Hrecs & Hrule & _ & Hhd & _).
  exists recs. split; [assumption|].
  vm_compute in Hhd. injection Hhd as <-. exact Hrule.
Defined.

(** ** The feedback form and the store *)

Lemma truthy_true (s : string) : truthy s = true <-> s <> "".
Proof.
  unfold truthy. rewrite negb_true_iff. destruct (String.eqb_spec s ""); split; congruence.
Qed.

Lemma live_feedback_stats_total (st : session_state) :
  exists ws, live_feedback_stats st = Ok ws.
Proof.
  unfold live_feedback_stats. destruct (feedback_data st) as [|e l].
  - eexists. reflexivity.
  - rewrite getitem_type by discriminate. cbn [bind].
    rewrite getitem_sentiment by discriminate. cbn [bind].
    eexists. reflexivity.
Qed.

(** A run of the page returns normally; it leaves the session as it was,
    or appends the entry of the form, the latter exactly when a document
    has been analysed and a non-empty text was submitted. *)
Lemma feedback_page_cases (env : run_env) (f : feedback_form) (st : session_state) :
  exists ws,
    (feedback_page env f st = Ok (st, ws)
     /\ (truthy (simplified_text st) && form_submitted f && truthy (form_text f) = false))
    \/ (feedback_page env f st = Ok (appended st (feedback_entry_of env f), ws)
        /\ truthy (simplified_text st) = true
        /\ form_submitted f = true
        /\ truthy (form_text f) = true).
Proof.
  unfold feedback_page.
  destruct (truthy (simplified_text st)); cbn [negb andb].
  - destruct (form_submitted f); cbn [andb].
    + destruct (truthy (form_text f)).
      * eexists. right. repeat split.
      * destruct (live_feedback_stats_total st) as (ws & ->). cbn [bind].
        eexists. left. split; reflexivity.
    + destruct (live_feedback_stats_total st) as (ws & ->). cbn [bind].
      eexists. left. split; reflexivity.
  - eexists. left. split; reflexivity.
Qed.

Lemma selectbox_in_DEMOGRAPHICS (d : demographic_choice) :
  In (selectbox_label d) DEMOGRAPHICS.
Proof. destruct d; simpl; tauto. Qed.

Lemma radio_in_FEEDBACK_TYPES (t : feedback_type_choice) :
  In (radio_label t) FEEDBACK_TYPES.
Proof. destruct t; simpl; tauto. Qed.

(** C2 (as the code has it). A run of the feedback page never raises.
    A submission whose text is empty is ignored: the session is
    unchanged and no error is reported.  Once a document has been
    analysed, a submission with a non-empty text always appends exactly
    one entry; its demographic and its type are members of the two
    enumerations, since the form offers no other value. *)
Theorem feedback_page_appends_or_ignores (env : run_env) (f : feedback_form)
    (st : session_state) :
  (exists st' ws, feedback_page env f st = Ok (st', ws)
                  /\ (st' = st \/ st' = appended st (feedback_entry_of env f)))
  /\ (form_text f = "" -> exists ws, feedback_page env f st = Ok (st, ws))
  /\ (simplified_text st <> "" -> form_submitted f = true -> form_text f <> "" ->
      exists ws, feedback_page env f st = Ok (appended st (feedback_entry_of env f), ws)
                 /\ List.length (feedback_data (appended st (feedback_entry_of env f)))
                    = S (List.length (feedback_data st)))
  /\ In (demographic (feedback_entry_of env f)) DEMOGRAPHICS
  /\ In (type (feedback_entry_of env f)) FEEDBACK_TYPES.
Proof.
  destruct (feedback_page_cases env f st) as (ws & [[E Hg] | (E & H1 & H2 & H3)]).
  - repeat split.
    + exists st, ws. auto.
    + intros _. now exists ws.
    + intros Hs Hsub Ht. apply truthy_true in Hs, Ht.
      rewrite Hs, Hsub, Ht in Hg. discriminate.
    + apply selectbox_in_DEMOGRAPHICS.
    + apply radio_in_FEEDBACK_TYPES.
  - repeat split.
    + exists (appended st (feedback_entry_of env f)), ws. auto.
    + intros Ht. apply truthy_true in H3. contradiction.
    + intros _ _ _. exists ws. split; [assumption|].
      simpl. rewrite length_app. simpl. lia.
    + apply selectbox_in_DEMOGRAPHICS.
    + apply radio_in_FEEDBACK_TYPES.
Qed.

Lemma feedback_page_appends_or_ignores_witness :
  simplified_text analysed <> ""
  /\ form_submitted (mk_form "Asha" Farmer Concern "Too costly." true) = true
  /\ form_text (mk_form "Asha" Farmer Concern "Too costly." true) <> ""
  /\ exists ws,
       feedback_page (answering (Some "negative"))
         (mk_form "Asha" Farmer Concern "Too costly." true) analysed
       = Ok (appended analysed
               (feedback_entry_of (answering (Some "negative"))
                  (mk_form "Asha" Farmer Concern "Too costly." true)), ws)
       /\ List.length (feedback_data (appended analysed
               (feedback_entry_of (answering (Some "negative"))
                  (mk_form "Asha" Farmer Concern "Too costly." true)))) = 1.
Proof.
  repeat split; try discriminate.
  apply (proj1 (proj2 (proj2
    (feedback_page_appends_or_ignores (answering (Some "negative"))
       (mk_form "Asha" Farmer Concern "Too costly." true) analysed))));
    [discriminate | reflexivity | discriminate].
Defined.

(** C2 (as stated) fails: a submission with an empty text does not fail
    with an error; the page returns normally with the session unchanged
    and shows the statistics panel. *)
Lemma empty_text_is_ignored_without_error :
  feedback_page (answering (Some "negative"))
    (mk_form "Asha" Farmer Concern "" true) analysed
  = Ok (analysed,
        [ st_header "💬 Citizen Feedback Collection";
          st_markdown "Every permit costs 5.";
          st_subheader "Submit Your Feedback";
          st_subheader "📊 Live Feedback Stats";
          st_info "No feedback received yet." ]).
Proof. reflexivity. Qed.

(** ** Sentiments that the classifier returns *)

Lemma insert_desc_In {A} (p q : A * nat) (l : list (A * nat)) :
  In q (insert_desc p l) <-> q = p \/ In q l.
Proof.
  induction l as [|r l IH]; simpl.
  - intuition.
  - destruct (Nat.ltb (snd p) (snd r)); simpl; rewrite ?IH; intuition.
Qed.

Lemma sort_desc_In {A} (q : A * nat) (l : list (A * nat)) :
  In q (sort_desc l) <-> In q l.
Proof.
  induction l as [|p l IH]; simpl; [reflexivity|].
  rewrite insert_desc_In, IH. intuition.
Qed.

(** Every label of a series has its own entry in the counts. *)
Lemma value_counts_own_label (l : list string) (s : string) :
  In s l -> In (VStr s, occurrences s l) (value_counts (map VStr l)).
Proof.
  intros H. unfold value_counts. apply sort_desc_In, in_map_iff.
  exists (VStr s). split.
  - now rewrite count_VStr.
  - apply (unique_In value_eqb value_eqb_eq). now apply In_VStr.
Qed.

(** C3 (as the code has it). The entry keeps the sentiment that the
    classifier returned, whatever it is; only an answer without a
    sentiment gives "neutral".  No label makes the aggregation fail: on
    a non-empty store the recommendations are produced, the mean for a
    label is the exact fraction of the entries that carry that very
    label, and each label met in the store has its own entry in the
    sentiment counts. *)
Theorem classifier_sentiment_is_stored_as_returned (env : run_env) (f : feedback_form) :
  (pf_sentiment (process_feedback env (form_text f) (radio_label (form_type f))) = None ->
   sentiment (feedback_entry_of env f) = "neutral")
  /\ (forall s,
        pf_sentiment (process_feedback env (form_text f) (radio_label (form_type f))) = Some s ->
        sentiment (feedback_entry_of env f) = s)
  /\ (forall rs, rs <> [] ->
        (exists recs, generate_recommendations (DataFrame_of rs) = Ok recs)
        /\ (forall label,
              sentiment_mean (DataFrame_of rs) label = Ok (Fin (fraction label rs)))
        /\ (forall e, In e rs ->
              In (VStr (sentiment e), occurrences (sentiment e) (map sentiment rs))
                 (value_counts (map VStr (map sentiment rs))))).
Proof.
  repeat split.
  - intros H. simpl. now rewrite H.
  - intros s H. simpl. now rewrite H.
  - rewrite (generate_recommendations_eq rs H). eexists. reflexivity.
  - intros label. now apply sentiment_mean_fraction.
  - intros e He. apply value_counts_own_label. now apply in_map.
Qed.

Lemma classifier_sentiment_is_stored_as_returned_witness :
  pf_sentiment (process_feedback (answering (Some "mixed")) "Unsure." "Question") = Some "mixed"
  /\ sentiment (feedback_entry_of (answering (Some "mixed"))
                  (mk_form "" Student Question "Unsure." true)) = "mixed".
Proof.
  split; [reflexivity|].
  apply (proj1 (proj2 (classifier_sentiment_is_stored_as_returned
                         (answering (Some "mixed"))
                         (mk_form "" Student Question "Unsure." true)))).
  reflexivity.
Defined.

(** C3 (as stated) fails: the classifier answers "mixed"; the entry is
    stored with that sentiment, no entry counts as neutral, and the
    sentiment counts of the store have the single label "mixed". *)
Lemma unrecognized_sentiment_is_not_neutral :
  exists st ws,
    feedback_page (answering (Some "mixed"))
      (mk_form "" Student Question "Unsure." true) analysed = Ok (st, ws)
    /\ map sentiment (feedback_data st) = ["mixed"]
    /\ sentiment_mean (DataFrame_of (feedback_data st)) "neutral" = Ok (Fin (0 # 1))
    /\ (s <- getitem (DataFrame_of (feedback_data st)) "sentiment" ;; Ok (value_counts s))
       = Ok [(VStr "mixed", 1)].
Proof.
  eexists. eexists. split; [reflexivity|].
  repeat split.
Qed.

(** ** Names in the store *)

Lemma str_or_nonempty (a b : string) : b <> "" -> str_or a b <> "".
Proof.
  intros Hb. unfold str_or. destruct (truthy a) eqn:E; [|assumption].
  now apply truthy_true.
Qed.

Lemma run_keeps_names (st : session_state) (p : page_run) :
  Forall named (feedback_data st) -> Forall named (feedback_data (run st p)).
Proof.
  intros H. destruct p as [api_key doc analyze_clicked simplified| |env f|c r t]; simpl;
    try assumption.
  - unfold policy_upload_page.
    destruct doc as [[extracted|]|pasted]; [| |destruct (truthy pasted)]; simpl;
      destruct (_ && analyze_clicked); simpl; assumption.
  - destruct (feedback_page_cases env f st) as (ws & [[-> _] | (-> & _)]).
    + assumption.
    + simpl. apply Forall_app. split; [assumption|].
      constructor; [|constructor].
      unfold named. simpl. apply str_or_nonempty. discriminate.
Qed.

Lemma runs_keep_names (runs : list page_run) (st : session_state) :
  Forall named (feedback_data st) -> Forall named (feedback_data (fold_left run runs st)).
Proof.
  revert st. induction runs as [|p runs IH]; intros st H; simpl; [assumption|].
  apply IH. now apply run_keeps_names.
Qed.

(** C10. Whatever pages are run from the first run of a session, in
    whatever order and with whatever inputs, every entry in the store has
    a non-empty name: the entry built from a form takes the submitted
    name, and "Anonymous" when that name is empty. *)
Theorem stored_names_are_never_empty :
  (forall runs : list page_run,
     Forall (fun e => name e <> "") (feedback_data (session runs)))
  /\ (forall (env : run_env) (f : feedback_form),
        name (feedback_entry_of env f)
        = if String.eqb (form_name f) "" then "Anonymous" else form_name f).
Proof.
  split.
  - intros runs. apply (runs_keep_names runs). constructor.
  - intros env f. simpl. unfold str_or, truthy.
    destruct (String.eqb (form_name f) ""); reflexivity.
Qed.

Example anonymous_when_name_is_empty :
  map name (feedback_data (session
    [ PolicyUpload "sk-key" (paste_text "Section 1. A fee applies.") true "A fee applies.";
      CitizenFeedback (answering (Some "negative")) (mk_form "" Farmer Concern "Too costly." true);
      InsightsReport true true at_noon;
      CitizenFeedback (answering None) (mk_form "Asha" Student Support "" true);
      CitizenFeedback (answering None) (mk_form "Asha" Student Support "Good." true) ]))
  = ["Anonymous"; "Asha"].
Proof. reflexivity. Qed.

(** ** The narrative report *)

Lemma string_app_assoc (a b c : string) : ((a ++ b) ++ c = a ++ b ++ c)%string.
Proof. induction a as [|x a IH]; simpl; [reflexivity|]. now rewrite IH. Qed.

Section Report.
Variable format_1f : float -> string.
Variable to_string : string -> list (value * nat) -> string.

(** The report is the fixed head, the generation time, and a text
    that does not depend on the clock; an error does not depend on
    the clock either. *)
Lemma generate_summary_report_shape (df : DataFrame) :
  (exists e, forall t, generate_summary_report format_1f to_string t df = Raise e)
  \/ (exists body, forall t,
        generate_summary_report format_1f to_string t df
        = Ok (report_head ++ strftime_seconds t ++ body)%string).
Proof.
  unfold generate_summary_report, sentiment_percentage64, sentiment_mean.
  destruct (getitem df "sentiment") as [s|e]; cbn [bind];
    [|left; exists e; reflexivity].
  destruct (getitem df "demographic") as [d|e]; cbn [bind];
    [|left; exists e; reflexivity].
  destruct (getitem df "type") as [t|e]; cbn [bind];
    [|left; exists e; reflexivity].
  destruct (getitem (loc_mask df (series_eq s (VStr "negative"))) "text") as [c|e];
    cbn [bind]; [|left; exists e; reflexivity].
  destruct (getitem (loc_mask df (series_eq s (VStr "positive"))) "text") as [p|e];
    cbn [bind]; [|left; exists e; reflexivity].
  right. eexists. intros now_. f_equal. unfold report_head.
  rewrite !string_app_assoc. reflexivity.
Qed.

Lemma generate_summary_report_frame_total (rs : list feedback_entry) (df : DataFrame)
    (t : datetime) :
  rs <> [] -> store_frame rs df ->
  exists r, generate_summary_report format_1f to_string t df = Ok r.
Proof.
  intros H F. unfold generate_summary_report.
  rewrite !(frame_sentiment_percentage64 rs df H F). cbn [bind].
  rewrite !(frame_demographic rs df F). cbn [bind].
  rewrite !(frame_sentiment rs df F). cbn [bind].
  rewrite (frame_type rs df F). cbn [bind].
  rewrite !(frame_mask_text rs df F). cbn [bind].
  eexists. reflexivity.
Qed.

Lemma generate_summary_report_total (rs : list feedback_entry) (t : datetime) :
  rs <> [] -> exists r, generate_summary_report format_1f to_string t (DataFrame_of rs) = Ok r.
Proof.
  intros H.
  apply generate_summary_report_frame_total with (rs := rs);
    [assumption | now apply store_frame_DataFrame_of].
Qed.
End Report.

(** C9. For every frame, the report generated at two times is the same
    text except for the generation time that follows the fixed head: there
    is one remainder, independent of the clock, that both reports share;
    when the generator raises, it raises the same error at both times.  On
    a non-empty store the report is always produced. *)
Theorem report_is_identical_up_to_generation_time
    (format_1f : float -> string) (to_string : string -> list (value * nat) -> string) :
  (forall df : DataFrame,
     (exists e, forall t, generate_summary_report format_1f to_string t df = Raise e)
     \/ (exists body, forall t,
           generate_summary_report format_1f to_string t df
           = Ok (report_head ++ strftime_seconds t ++ body)%string))
  /\ (forall (e : feedback_entry) (rs : list feedback_entry),
        exists body, forall t,
          generate_summary_report format_1f to_string t (DataFrame_of (e :: rs))
          = Ok (report_head ++ strftime_seconds t ++ body)%string).
Proof.
  split; [apply generate_summary_report_shape|].
  intros e rs.
  destruct (generate_summary_report_shape format_1f to_string (DataFrame_of (e :: rs)))
    as [(x & Hx) | Hbody]; [|exact Hbody].
  destruct (generate_summary_report_total format_1f to_string (e :: rs) noon) as (r & Hr);
    [discriminate|].
  rewrite Hx in Hr. discriminate.
Qed.

(** ** Sentiment percentages *)

Lemma recognized_partition (rs : list feedback_entry) :
  (forall e, In e rs -> recognized (sentiment e)) ->
  List.length (with_sentiment "positive" rs)
  + List.length (with_sentiment "neutral" rs)
  + List.length (with_sentiment "negative" rs)
  = List.length rs.
Proof.
  unfold with_sentiment, has_sentiment.
  induction rs as [|e rs IH]; intros H; [reflexivity|].
  specialize (IH (fun x Hx => H x (or_intror Hx))).
  simpl. destruct (H e (or_introl eq_refl)) as [E|[E|E]]; rewrite E; simpl; lia.
Qed.

Lemma percentages_of_a_partition (a b c : nat) (n : positive) :
  (Z.of_nat a + Z.of_nat b + Z.of_nat c = Z.pos n)%Z ->
  ((Z.of_nat a # n) * 100 + (Z.of_nat b # n) * 100 + (Z.of_nat c # n) * 100 == 100)%Q.
Proof.
  intros H. unfold Qeq, Qplus, Qmult. cbn [Qnum Qden].
  rewrite !Pos2Z.inj_mul. rewrite <- H. ring.
Qed.

(** *** Rounding *)

Lemma nearest_even_spec (n d : Z) :
  (0 < d -> - d <= 2 * (nearest_even n d * d - n) <= d)%Z.
Proof.
  intros Hd. unfold nearest_even.
  pose proof (Z.div_mod n d ltac:(lia)) as E.
  pose proof (Z.mod_pos_bound n d Hd) as B.
  destruct (Z.compare_spec (2 * (n mod d)) d) as [H|H|H].
  - destruct (Z.even (n / d)); nia.
  - nia.
  - nia.
Qed.

Lemma nearest_even_Q (y : Q) :
  (- (1 # 2) <= inject_Z (nearest_even (Qnum y) (Zpos (Qden y))) - y <= 1 # 2)%Q.
Proof.
  pose proof (nearest_even_spec (Qnum y) (Zpos (Qden y)) ltac:(lia)) as H.
  destruct y as [n d]. cbn [Qnum Qden] in *.
  set (m := nearest_even n (Z.pos d)) in *.
  assert (E : (inject_Z m - (n # d) == (m * Z.pos d - n) # d)%Q).
  { unfold Qeq, Qminus, Qplus, Qopp, inject_Z. simpl. ring. }
  rewrite E. unfold Qle. cbn [Qnum Qden Qopp]. lia.
Qed.

Lemma pow2_pos (z : Z) : (0 < 2 ^ z)%Q.
Proof. apply Qpower_0_lt. reflexivity. Qed.

Lemma pow2_inject (z : Z) : (0 <= z)%Z -> (inject_Z (2 ^ z) == 2 ^ z)%Q.
Proof. intros H. now rewrite Zpower_Qpower. Qed.

Lemma Qdiv_le_cross (a b c d : Q) :
  (0 < b -> 0 < d -> a * d <= c * b -> a / b <= c / d)%Q.
Proof.
  intros Hb Hd H.
  apply Qle_shift_div_l; [assumption|].
  setoid_replace (a / b * d)%Q with ((a * d) / b)%Q
    by (field; intros E; rewrite E in Hb; discriminate).
  apply Qle_shift_div_r; assumption.
Qed.

Lemma Qdiv_lt_cross (a b c d : Q) :
  (0 < b -> 0 < d -> a * d < c * b -> a / b < c / d)%Q.
Proof.
  intros Hb Hd H.
  apply Qlt_shift_div_l; [assumption|].
  setoid_replace (a / b * d)%Q with ((a * d) / b)%Q
    by (field; intros E; rewrite E in Hb; discriminate).
  apply Qlt_shift_div_r; assumption.
Qed.

Lemma log2_floor_le (a b : positive) : (2 ^ log2_floor a b <= Zpos a # b)%Q.
Proof.
  unfold log2_floor.
  set (la := Z.log2 (Z.pos a)). set (lb := Z.log2 (Z.pos b)).
  assert (Hla : (0 <= la)%Z) by apply Z.log2_nonneg.
  assert (Hlb : (0 <= lb)%Z) by apply Z.log2_nonneg.
  destruct (Z.log2_spec (Z.pos a) ltac:(lia)) as [A1 A2]. fold la in A1, A2.
  destruct (Z.log2_spec (Z.pos b) ltac:(lia)) as [B1 B2]. fold lb in B1, B2.
  assert (Qa := pow2_pos la). assert (Qb := pow2_pos lb).
  assert (Ea := pow2_inject la Hla). assert (Eb := pow2_inject lb Hlb).
  rewrite (Qmake_Qdiv (Z.pos a) b).
  assert (Hb0 : (0 < inject_Z (Z.pos b))%Q) by (unfold Qlt; simpl; lia).
  destruct (Z.leb_spec (Z.pos b * 2 ^ la) (Z.pos a * 2 ^ lb)) as [H|H].
  - rewrite Qpower_minus by discriminate.
    apply Qdiv_le_cross; [assumption|assumption|].
    rewrite <- Ea, <- Eb, <- !inject_Z_mult, <- Zle_Qle. lia.
  - replace (la - lb - 1)%Z with (la - (lb + 1))%Z by lia.
    rewrite Qpower_minus by discriminate.
    assert (Qb1 := pow2_pos (lb + 1)).
    apply Qdiv_le_cross; [assumption|assumption|].
    rewrite <- Ea, <- (pow2_inject (lb + 1)) by lia.
    rewrite <- !inject_Z_mult, <- Zle_Qle.
    replace (Z.succ lb) with (lb + 1)%Z in B2 by lia. nia.
Qed.

Lemma log2_floor_lt (a b : positive) : (Zpos a # b < 2 ^ (log2_floor a b + 1))%Q.
Proof.
  unfold log2_floor.
  set (la := Z.log2 (Z.pos a)). set (lb := Z.log2 (Z.pos b)).
  assert (Hla : (0 <= la)%Z) by apply Z.log2_nonneg.
  assert (Hlb : (0 <= lb)%Z) by apply Z.log2_nonneg.
  destruct (Z.log2_spec (Z.pos a) ltac:(lia)) as [A1 A2]. fold la in A1, A2.
  destruct (Z.log2_spec (Z.pos b) ltac:(lia)) as [B1 B2]. fold lb in B1, B2.
  replace (Z.succ la) with (la + 1)%Z in A2 by lia.
  assert (Qa := pow2_pos la). assert (Qb := pow2_pos lb).
  assert (Qa1 := pow2_pos (la + 1)).
  assert (Ea := pow2_inject la Hla). assert (Eb := pow2_inject lb Hlb).
  assert (Ea1 := pow2_inject (la + 1) ltac:(lia)).
  rewrite (Qmake_Qdiv (Z.pos a) b).
  assert (Hb0 : (0 < inject_Z (Z.pos b))%Q) by (unfold Qlt; simpl; lia).
  destruct (Z.leb_spec (Z.pos b * 2 ^ la) (Z.pos a * 2 ^ lb)) as [H|H].
  - replace (la - lb + 1)%Z with ((la + 1) - lb)%Z by lia.
    rewrite Qpower_minus by discriminate.
    apply Qdiv_lt_cross; [assumption|assumption|].
    rewrite <- Ea1, <- Eb, <- !inject_Z_mult, <- Zlt_Qlt. nia.
  - replace (la - lb - 1 + 1)%Z with (la - lb)%Z by lia.
    rewrite Qpower_minus by discriminate.
    apply Qdiv_lt_cross; [assumption|assumption|].
    rewrite <- Ea, <- Eb, <- !inject_Z_mult, <- Zlt_Qlt. lia.
Qed.

(** The integer that [round64_pos] rounds has 53 binary digits. *)
Lemma round64_pos_mantissa (a b : positive) :
  (2 ^ 52 <= (Zpos a # b) * 2 ^ (- (log2_floor a b - 52)) < 2 ^ 53)%Q.
Proof.
  set (e := (log2_floor a b - 52)%Z).
  pose proof (log2_floor_le a b) as H1. pose proof (log2_floor_lt a b) as H2.
  replace (log2_floor a b) with (e + 52)%Z in H1 by (unfold e; lia).
  replace (log2_floor a b + 1)%Z with (e + 53)%Z in H2 by (unfold e; lia).
  rewrite Qpower_plus in H1, H2 by discriminate.
  pose proof (pow2_pos e) as HP.
  rewrite Qpower_opp.
  change (2 ^ 52)%Q with (4503599627370496 # 1)%Q in *.
  change (2 ^ 53)%Q with (9007199254740992 # 1)%Q in *.
  revert HP H1 H2. generalize (2 ^ e)%Q. generalize (Zpos a # b)%Q. clear.
  intros x P HP H1 H2.
  split.
  - apply Qle_shift_div_l; [assumption|]. lra.
  - apply Qlt_shift_div_r; [assumption|]. lra.
Qed.

(** One rounding moves a number by at most the unit roundoff, relative
    to the number. *)
Lemma round64_pos_error (a b : positive) :
  ((Zpos a # b) * (1 - unit_roundoff) <= round64_pos a b
   <= (Zpos a # b) * (1 + unit_roundoff))%Q.
Proof.
  unfold round64_pos.
  set (e := (log2_floor a b - 52)%Z).
  set (x := (Zpos a # b)%Q).
  set (y := (x * 2 ^ (- e))%Q).
  pose proof (nearest_even_Q y) as [M1 M2].
  set (m := inject_Z (nearest_even (Qnum y) (Z.pos (Qden y)))) in *.
  pose proof (pow2_pos e) as HP.
  pose proof (log2_floor_le a b) as HL. fold x in HL.
  replace (log2_floor a b) with (e + 52)%Z in HL by (unfold e; lia).
  rewrite Qpower_plus in HL by discriminate.
  assert (Ey : (y * 2 ^ e == x)%Q).
  { unfold y. rewrite Qpower_opp. field. intros E. rewrite E in HP. discriminate. }
  change (2 ^ 52)%Q with (4503599627370496 # 1)%Q in HL.
  unfold unit_roundoff. change (2 ^ 53)%positive with 9007199254740992%positive.
  revert HP HL Ey M1 M2. generalize (2 ^ e)%Q. clearbody m y x. clear.
  intros P HP HL Ey M1 M2. split; nra.
Qed.

Lemma round64_bounds (x : Q) :
  (0 <= x -> x * (1 - unit_roundoff) <= round64 x <= x * (1 + unit_roundoff))%Q.
Proof.
  intros Hx. destruct x as [[|a|a] b]; unfold round64; cbn [Qnum Qden].
  - unfold Qle, Qmult. simpl. lia.
  - apply round64_pos_error.
  - exfalso. unfold Qle in Hx. simpl in Hx. lia.
Qed.

(** A percentage is rounded twice. *)
Lemma percentage_bounds (f : Q) :
  (0 <= f ->
   f * (100 * ((1 - unit_roundoff) * (1 - unit_roundoff)))
   <= round64 (round64 f * 100)
   <= f * (100 * ((1 + unit_roundoff) * (1 + unit_roundoff))))%Q.
Proof.
  intros Hf.
  pose proof (round64_bounds f Hf) as [A1 A2].
  assert (Hq : (0 <= round64 f * 100)%Q).
  { unfold unit_roundoff in *.
    change (2 ^ 53)%positive with 9007199254740992%positive in *. lra. }
  pose proof (round64_bounds _ Hq) as [B1 B2].
  unfold unit_roundoff in *. change (2 ^ 53)%positive with 9007199254740992%positive in *.
  split; lra.
Qed.

Lemma percentages_sum (f1 f2 f3 : Q) :
  (0 <= f1 -> 0 <= f2 -> 0 <= f3 -> f1 + f2 + f3 == 1 ->
   Qabs (round64 (round64 f1 * 100) + round64 (round64 f2 * 100)
         + round64 (round64 f3 * 100) - 100) <= 1 # (2 ^ 45))%Q.
Proof.
  intros H1 H2 H3 S.
  pose proof (percentage_bounds f1 H1) as [A1 A2].
  pose proof (percentage_bounds f2 H2) as [B1 B2].
  pose proof (percentage_bounds f3 H3) as [C1 C2].
  unfold unit_roundoff in *. change (2 ^ 53)%positive with 9007199254740992%positive in *.
  change (2 ^ 45)%positive with 35184372088832%positive.
  apply Qabs_Qle_condition. split; lra.
Qed.

(** The same sum computed in binary64, from left to right. *)
Lemma percentages_sum64 (f1 f2 f3 : Q) :
  (0 <= f1 -> 0 <= f2 -> 0 <= f3 -> f1 + f2 + f3 == 1 ->
   Qabs (round64 (round64 (round64 (round64 f1 * 100) + round64 (round64 f2 * 100))
                  + round64 (round64 f3 * 100)) - 100) <= 1 # (2 ^ 44))%Q.
Proof.
  intros H1 H2 H3 S.
  pose proof (percentage_bounds f1 H1) as [A1 A2].
  pose proof (percentage_bounds f2 H2) as [B1 B2].
  pose proof (percentage_bounds f3 H3) as [C1 C2].
  set (p := round64 (round64 f1 * 100)%Q) in *.
  set (u := round64 (round64 f2 * 100)%Q) in *.
  set (n := round64 (round64 f3 * 100)%Q) in *.
  assert (Hpu : (0 <= p + u)%Q).
  { unfold unit_roundoff in *.
    change (2 ^ 53)%positive with 9007199254740992%positive in *. lra. }
  pose proof (round64_bounds _ Hpu) as [D1 D2].
  assert (Hs : (0 <= round64 (p + u) + n)%Q).
  { unfold unit_roundoff in *.
    change (2 ^ 53)%positive with 9007199254740992%positive in *. lra. }
  pose proof (round64_bounds _ Hs) as [E1 E2].
  unfold unit_roundoff in *. change (2 ^ 53)%positive with 9007199254740992%positive in *.
  change (2 ^ 44)%positive with 17592186044416%positive.
  apply Qabs_Qle_condition. split; lra.
Qed.

Lemma fraction_nonneg (label : string) (rs : list feedback_entry) :
  (0 <= fraction label rs)%Q.
Proof. unfold fraction, Qle. simpl. lia. Qed.

Lemma sentiment_percentage64_fraction (rs : list feedback_entry) (label : string) :
  rs <> [] ->
  sentiment_percentage64 (DataFrame_of rs) label
  = Ok (Fin (round64 (round64 (fraction label rs) * 100)%Q)).
Proof.
  intros Hne.
  apply (frame_sentiment_percentage64 rs _ Hne (store_frame_DataFrame_of rs Hne)).
Qed.

(** [round64] is the rounding of the machine: for every count [k] out of
    [n] entries, up to 60 entries, the percentage computed with two
    roundings is the binary64 number that primitive arithmetic
    computes. *)
Example round64_is_binary64 :
  forallb (fun kn => Binary64.same (Binary64.percentage (fst kn) (snd kn))
                       (round64 (round64 (fst kn # Z.to_pos (snd kn)) * 100)%Q))
          (counts_up_to 60)
  = true.
Proof. vm_compute. reflexivity. Qed.

(** C8 (as the code has it). On a non-empty store in which every entry
    has one of the three sentiments, the percentages of positive, neutral
    and negative entries, each the count of that sentiment divided by the
    number of entries and multiplied by 100, sum to 100 within rounding
    tolerance: as exact quotients they sum to exactly 100, and as the
    binary64 numbers that the program computes, the quotient rounded and
    the product rounded, their sum differs from 100 by at most 2^-45,
    and by at most 2^-44 when the sum itself is computed in binary64.
    The counts are binary64 numbers as long as the store has fewer than
    2^53 entries. *)
Theorem recognized_percentages_sum_to_100 (rs : list feedback_entry) :
  rs <> [] ->
  (forall e, In e rs -> recognized (sentiment e)) ->
  exists p u n : Q,
    sentiment_mean (DataFrame_of rs) "positive" = Ok (Fin p)
    /\ sentiment_mean (DataFrame_of rs) "neutral" = Ok (Fin u)
    /\ sentiment_mean (DataFrame_of rs) "negative" = Ok (Fin n)
    /\ p = fraction "positive" rs
    /\ u = fraction "neutral" rs
    /\ n = fraction "negative" rs
    /\ fmul (Fin p) 100 = Fin (p * 100)
    /\ (p * 100 + u * 100 + n * 100 == 100)%Q
    /\ ((Z.of_nat (List.length rs) < 2 ^ 53)%Z ->
        exists p64 u64 n64 : Q,
          sentiment_percentage64 (DataFrame_of rs) "positive" = Ok (Fin p64)
          /\ sentiment_percentage64 (DataFrame_of rs) "neutral" = Ok (Fin u64)
          /\ sentiment_percentage64 (DataFrame_of rs) "negative" = Ok (Fin n64)
          /\ p64 = round64 (round64 p * 100)%Q
          /\ u64 = round64 (round64 u * 100)%Q
          /\ n64 = round64 (round64 n * 100)%Q
          /\ (Qabs (p64 + u64 + n64 - 100) <= 1 # (2 ^ 45))%Q
          /\ (Qabs (round64 (round64 (p64 + u64) + n64) - 100) <= 1 # (2 ^ 44))%Q).
Proof.
  intros Hne Hrec.
  assert (Hsum : (fraction "positive" rs * 100 + fraction "neutral" rs * 100
                  + fraction "negative" rs * 100 == 100)%Q).
  { unfold fraction. apply percentages_of_a_partition.
    pose proof (recognized_partition rs Hrec) as H.
    destruct rs as [|e rs']; [congruence|].
    rewrite <- !Nat2Z.inj_add, H.
    change (List.length (e :: rs')) with (S (List.length rs')).
    rewrite <- Pos.of_nat_succ, Zpos_P_of_succ_nat, Nat2Z.inj_succ. reflexivity. }
  exists (fraction "positive" rs), (fraction "neutral" rs), (fraction "negative" rs).
  rewrite !(sentiment_mean_fraction rs Hne).
  do 7 (split; [reflexivity|]). split; [exact Hsum|].
  intros _. do 3 eexists.
  rewrite !(sentiment_percentage64_fraction rs _ Hne).
  do 6 (split; [reflexivity|]).
  split; [apply percentages_sum|apply percentages_sum64];
    try apply fraction_nonneg; lra.
Qed.

Lemma recognized_percentages_sum_to_100_witness :
  [sample "Farmer" "negative"; sample "Student" "positive"; sample "Parent" "neutral"] <> []
  /\ exists p u n : Q,
       sentiment_mean (DataFrame_of
         [sample "Farmer" "negative"; sample "Student" "positive"; sample "Parent" "neutral"])
         "positive" = Ok (Fin p)
       /\ (p * 100 + u * 100 + n * 100 == 100)%Q
       /\ (Qabs (round64 (round64 p * 100) + round64 (round64 u * 100)
                 + round64 (round64 n * 100) - 100) <= 1 # (2 ^ 45))%Q.
Proof.
  split; [discriminate|].
  destruct (recognized_percentages_sum_to_100
              [sample "Farmer" "negative"; sample "Student" "positive"; sample "Parent" "neutral"])
    as (p & u & n & Hp & _ & _ & _ & _ & _ & _ & Hsum & H64).
  - discriminate.
  - intros e [<-|[<-|[<-|[]]]]; unfold recognized; simpl; auto.
  - exists p, u, n. split; [assumption|]. split; [assumption|].
    destruct H64 as (p64 & u64 & n64 & _ & _ & _ & -> & -> & -> & Hclose & _).
    + simpl. lia.
    + exact Hclose.
Defined.

(** The tolerance is needed: on a store with one entry of each
    sentiment the three binary64 percentages are those of primitive
    arithmetic, and their sum is 100 - 2^-46. *)
Example percentages_of_thirds_fall_short_of_100 :
  sentiment_percentage64
    (DataFrame_of [sample "Farmer" "negative"; sample "Student" "positive";
                   sample "Parent" "neutral"]) "positive"
  = Ok (Fin (round64 (round64 (1 # 3) * 100)%Q))
  /\ Binary64.same (Binary64.percentage 1 3) (round64 (round64 (1 # 3) * 100)%Q) = true
  /\ (round64 (round64 (1 # 3) * 100) * 3 == 100 - (1 # 2 ^ 46))%Q.
Proof. repeat split. Qed.

(** C8 (as stated) fails: on the store with the single sentiment
    "mixed", the three percentages are all zero, as exact quotients and
    as binary64 numbers. *)
Lemma percentages_sum_to_zero_with_unrecognized_sentiment :
  [sample "Teacher" "mixed"] <> []
  /\ exists p u n : Q,
       sentiment_mean (DataFrame_of [sample "Teacher" "mixed"]) "positive" = Ok (Fin p)
       /\ sentiment_mean (DataFrame_of [sample "Teacher" "mixed"]) "neutral" = Ok (Fin u)
       /\ sentiment_mean (DataFrame_of [sample "Teacher" "mixed"]) "negative" = Ok (Fin n)
       /\ (p * 100 + u * 100 + n * 100 == 0)%Q
       /\ ~ (p * 100 + u * 100 + n * 100 == 100)%Q
       /\ sentiment_percentage64 (DataFrame_of [sample "Teacher" "mixed"]) "positive"
          = Ok (Fin 0)
       /\ sentiment_percentage64 (DataFrame_of [sample "Teacher" "mixed"]) "neutral"
          = Ok (Fin 0)
       /\ sentiment_percentage64 (DataFrame_of [sample "Teacher" "mixed"]) "negative"
          = Ok (Fin 0)
       /\ ~ (Qabs (0 + 0 + 0 - 100) <= 1 # (2 ^ 45))%Q.
Proof.
  split; [discriminate|].
  exists (0 # 1)%Q, (0 # 1)%Q, (0 # 1)%Q. repeat split; try discriminate.
  intros H. vm_compute in H. now apply H.
Qed.

(** ** The insights page on a non-empty store *)

Lemma nth_map_lt {A B} (f : A -> B) (l : list A) (i : nat) (d : B) (a : A) :
  i < List.length l -> nth i (map f l) d = f (nth i l a).
Proof.
  intros H. rewrite (nth_indep (map f l) d (f a)) by now rewrite length_map.
  apply map_nth.
Qed.

Lemma rows_by_index {A B} (g : A -> B) (l : list A) (a : A) :
  forall F : nat -> B,
    (forall i, i < List.length l -> F i = g (nth i l a)) ->
    map F (seq 0 (List.length l)) = map g l.
Proof.
  induction l as [|x l IH]; intros F H; [reflexivity|].
  simpl. rewrite <- seq_shift, map_map. f_equal.
  - apply (H 0). simpl. lia.
  - apply IH. intros i Hi. apply (H (S i)). simpl. lia.
Qed.

Lemma to_csv_with_hour (rs : list feedback_entry) :
  rs <> [] -> to_csv (with_hour rs) = exported_csv rs.
Proof.
  intros H. destruct rs as [|e rs']; [congruence|].
  remember (e :: rs') as rs eqn:E.
  unfold to_csv, exported_csv. f_equal.
  - rewrite E. reflexivity.
  - assert (Hlen : index_len (with_hour rs) = List.length rs) by (rewrite E; reflexivity).
    rewrite Hlen. apply (rows_by_index _ rs e). intros i Hi.
    unfold row_at, hours.
    assert (Hdata : data (with_hour rs)
                  = [ ("timestamp", map (fun e => VTime (timestamp e)) rs);
                      ("name", map (fun e => VStr (name e)) rs);
                      ("demographic", map (fun e => VStr (demographic e)) rs);
                      ("type", map (fun e => VStr (type e)) rs);
                      ("text", map (fun e => VStr (text e)) rs);
                      ("sentiment", map (fun e => VStr (sentiment e)) rs);
                      ("key_points", map (fun e => VList (key_points e)) rs);
                      ("category", map (fun e => VStr (category e)) rs);
                      ("hour", hours rs) ]) by (rewrite E; reflexivity).
    rewrite Hdata. unfold hours. cbn [map snd entry_cells app].
    rewrite !(nth_map_lt _ rs i _ e Hi). reflexivity.
Qed.

Section InsightsPage.
Variable format_1f : float -> string.
Variable to_string : string -> list (value * nat) -> string.

(** On a non-empty store the page does not fail, and it emits the
    widgets of [insights_widgets]; the frame it exports and reports on
    is the one that holds the [hour] column. *)
Lemma insights_page_nonempty (csv_clicked report_clicked : bool) (t : insights_clock)
    (st : session_state) :
  feedback_data st <> [] ->
  exists report,
    generate_summary_report format_1f to_string (report_now t)
      (with_hour (feedback_data st)) = Ok report
    /\ insights_page format_1f to_string csv_clicked report_clicked t st
       = Ok (insights_widgets format_1f csv_clicked report_clicked t
               (feedback_data st) report).
Proof.
  intros Hne.
  pose proof (store_frame_DataFrame_of _ Hne) as F0.
  pose proof (store_frame_with_hour _ Hne) as F1.
  destruct (generate_summary_report_frame_total format_1f to_string
              (feedback_data st) (with_hour (feedback_data st)) (report_now t) Hne F1)
    as (report & Hrep).
  exists report. split; [assumption|].
  unfold insights_page.
  destruct (feedback_data st) as [|e rs'] eqn:E; [congruence|].
  remember (e :: rs') as rs eqn:Ers.
  cbv zeta.
  rewrite !(frame_sentiment_percentage64 rs _ Hne F0). cbn [bind].
  rewrite (frame_demographic rs _ F0). cbn [bind].
  assert (Hts : getitem (DataFrame_of rs) "timestamp"
                = Ok (map (fun e => VTime (timestamp e)) rs)) by (rewrite Ers; reflexivity).
  rewrite Hts. cbn [bind]. rewrite hours_of_timestamps. cbn [bind].
  fold (with_hour rs).
  assert (Hh : getitem (with_hour rs) "hour" = Ok (hours rs)) by (rewrite Ers; reflexivity).
  rewrite Hh. cbn [bind].
  rewrite (frame_demographic rs _ F1). cbn [bind].
  rewrite !(frame_sentiment rs _ F1). cbn [bind].
  rewrite !(frame_mask_text rs _ F1). cbn [bind].
  assert (Hlen : Nat.ltb 0 (len (with_hour rs)) = true) by (rewrite Ers; reflexivity).
  rewrite Hlen, (frame_recommendations rs _ Hne F1). cbn [bind].
  rewrite (to_csv_with_hour rs Hne).
  rewrite !series_eq_map, !mask_select_map.
  assert (Hl : len (DataFrame_of rs) = List.length rs) by apply F0.
  rewrite Hl.
  unfold insights_widgets, key_insights, demo_sentiment, texts_with, with_sentiment,
    has_sentiment.
  destruct (map (fun e0 => VStr (text e0))
              (filter (fun e0 => String.eqb (sentiment e0) "negative") rs)) as [|c cs];
    destruct (map (fun e0 => VStr (text e0))
                (filter (fun e0 => String.eqb (sentiment e0) "positive") rs)) as [|p ps];
    destruct csv_clicked, report_clicked;
    rewrite ?Hrep; cbn [bind]; f_equal;
    rewrite <- ?app_assoc; cbn [app]; rewrite ?app_nil_r; reflexivity.
Qed.
End InsightsPage.

(** ** Ascending order without repetition *)

Section SortUnique.
Context {A : Type}.
Variable cmp : A -> A -> comparison.
Variable P : A -> Prop.
Hypothesis cmp_eq : forall x y, P x -> P y -> cmp x y = Eq -> x = y.
Hypothesis cmp_antisym : forall x y, P x -> P y -> cmp x y = CompOpp (cmp y x).
Hypothesis cmp_trans :
  forall x y z, P x -> P y -> P z -> cmp x y = Lt -> cmp y z = Lt -> cmp x z = Lt.

Let lt (x y : A) : Prop := cmp x y = Lt.

Lemma insert_unique_In (x y : A) (l : list A) :
  P x -> Forall P l -> (In y (insert_unique cmp x l) <-> y = x \/ In y l).
Proof.
  intros Px Pl. induction l as [|a l IH]; simpl.
  - intuition.
  - inversion Pl as [|? ? Pa Pl']; subst.
    destruct (cmp x a) eqn:E; simpl.
    + apply (cmp_eq _ _ Px Pa) in E. subst. intuition.
    + intuition.
    + rewrite (IH Pl'). intuition.
Qed.

Lemma insert_unique_P (x : A) (l : list A) :
  P x -> Forall P l -> Forall P (insert_unique cmp x l).
Proof.
  intros Px Pl. apply Forall_forall. intros y Hy.
  apply (insert_unique_In x y l Px Pl) in Hy. destruct Hy as [->|Hy]; [assumption|].
  now apply (proj1 (Forall_forall P l) Pl).
Qed.

Lemma sort_unique_P (l : list A) : Forall P l -> Forall P (sort_unique cmp l).
Proof.
  induction l as [|x l IH]; intros H; simpl; [constructor|].
  inversion H; subst. apply insert_unique_P; auto.
Qed.

Lemma sort_unique_In (y : A) (l : list A) :
  Forall P l -> (In y (sort_unique cmp l) <-> In y l).
Proof.
  induction l as [|x l IH]; intros H; simpl; [reflexivity|].
  inversion H; subst.
  rewrite insert_unique_In by (auto using sort_unique_P). rewrite IH by assumption.
  intuition.
Qed.

Lemma insert_unique_sorted (x : A) (l : list A) :
  P x -> Forall P l -> StronglySorted lt l -> StronglySorted lt (insert_unique cmp x l).
Proof.
  intros Px Pl Hs. induction l as [|a l IH]; simpl.
  - repeat constructor.
  - inversion Pl as [|? ? Pa Pl']; subst.
    inversion Hs as [|? ? Hs' Ha]; subst.
    destruct (cmp x a) eqn:E.
    + assumption.
    + constructor; [assumption|]. constructor; [exact E|].
      apply Forall_forall. intros z Hz.
      apply (cmp_trans x a z Px Pa); [| exact E |].
      * now apply (proj1 (Forall_forall P l) Pl').
      * now apply (proj1 (Forall_forall (lt a) l) Ha).
    + constructor; [now apply IH|].
      apply Forall_forall. intros z Hz.
      apply (insert_unique_In x z l Px Pl') in Hz. destruct Hz as [->|Hz].
      * unfold lt. rewrite (cmp_antisym a x Pa Px), E. reflexivity.
      * now apply (proj1 (Forall_forall (lt a) l) Ha).
Qed.

Lemma sort_unique_sorted (l : list A) :
  Forall P l -> StronglySorted lt (sort_unique cmp l).
Proof.
  induction l as [|x l IH]; intros H; simpl; [constructor|].
  inversion H; subst. apply insert_unique_sorted; auto using sort_unique_P.
Qed.
End SortUnique.

(** On labels the order of cells is the order of [String.compare]. *)
Lemma label_compare_eq (x y : value) :
  is_label x -> is_label y -> value_compare x y = Eq -> x = y.
Proof.
  intros [a ->] [b ->] H. simpl in H. f_equal. now apply String.compare_eq_iff.
Qed.

Lemma label_compare_antisym (x y : value) :
  is_label x -> is_label y -> value_compare x y = CompOpp (value_compare y x).
Proof. intros [a ->] [b ->]. simpl. apply String.compare_antisym. Qed.

Lemma label_compare_trans (x y z : value) :
  is_label x -> is_label y -> is_label z ->
  value_compare x y = Lt -> value_compare y z = Lt -> value_compare x z = Lt.
Proof.
  intros [a ->] [b ->] [c ->]. simpl. intros H1 H2.
  apply String_as_OT.cmp_lt. apply String_as_OT.cmp_lt in H1, H2.
  now apply (String_as_OT.lt_trans _ b).
Qed.

Lemma labels_of (f : feedback_entry -> string) (rs : list feedback_entry) :
  Forall is_label (map (fun e => VStr (f e)) rs).
Proof.
  apply Forall_forall. intros v Hv. apply in_map_iff in Hv.
  destruct Hv as (e & <- & _). now exists (f e).
Qed.

Lemma sorted_labels_In (v : value) (l : list value) :
  Forall is_label l -> (In v (sort_unique value_compare l) <-> In v l).
Proof. apply (sort_unique_In value_compare is_label label_compare_eq). Qed.

Lemma sorted_labels_sorted (l : list value) :
  Forall is_label l -> StronglySorted value_lt (sort_unique value_compare l).
Proof.
  apply (sort_unique_sorted value_compare is_label
           label_compare_eq label_compare_antisym label_compare_trans).
Qed.

(** ** The cross-tabulation of demographic and sentiment *)

Lemma pair_eqb_eq (p q : value * value) : pair_eqb p q = true <-> p = q.
Proof.
  destruct p as [a b], q as [c d]. unfold pair_eqb. simpl.
  rewrite andb_true_iff, !value_eqb_eq. split.
  - intros [-> ->]. reflexivity.
  - intros E. injection E as -> ->. auto.
Qed.

Section Assoc.
Context {K V : Type}.
Variable eqb : K -> K -> bool.
Hypothesis eqb_eq : forall x y, eqb x y = true <-> x = y.

Lemma assoc_Some (k : K) (v : V) (l : list (K * V)) :
  assoc eqb k l = Some v -> In (k, v) l.
Proof.
  induction l as [|[k' v'] l IH]; simpl; [discriminate|].
  destruct (eqb k k') eqn:E.
  - apply eqb_eq in E. subst. intros [= ->]. now left.
  - intros H. right. now apply IH.
Qed.

Lemma assoc_None (k : K) (l : list (K * V)) :
  assoc eqb k l = None -> forall v, ~ In (k, v) l.
Proof.
  induction l as [|[k' v'] l IH]; simpl; intros H v; [tauto|].
  destruct (eqb k k') eqn:E; [discriminate|].
  intros [[= -> ->]|HIn].
  - assert (T : eqb k k = true) by now apply eqb_eq. congruence.
  - now apply (IH H v).
Qed.

Lemma assoc_combine_map (f : K -> V) (k : K) (l : list K) :
  In k l -> assoc eqb k (combine l (map f l)) = Some (f k).
Proof.
  induction l as [|x l IH]; simpl; intros H; [destruct H|].
  destruct (eqb k x) eqn:E.
  - apply eqb_eq in E. now subst.
  - apply IH. destruct H as [->|H]; [|assumption].
    assert (T : eqb k k = true) by now apply eqb_eq. congruence.
Qed.
End Assoc.

Section CrossTab.
Variable rs : list feedback_entry.

Let a : Series := map (fun e => VStr (demographic e)) rs.
Let b : Series := map (fun e => VStr (sentiment e)) rs.
Let g := groupby2_size a b.

Lemma pairs_of_store :
  combine a b = map (fun e => (VStr (demographic e), VStr (sentiment e))) rs.
Proof.
  unfold a, b. induction rs as [|e l IH]; simpl; [reflexivity|]. now rewrite IH.
Qed.

Lemma count_pair (d s : string) :
  count pair_eqb (VStr d, VStr s) (combine a b) = cell_count d s rs.
Proof.
  rewrite pairs_of_store. unfold cell_count, pair_eqb.
  induction rs as [|e l IH]; simpl; [reflexivity|].
  rewrite !value_eqb_VStr, IH.
  rewrite (String.eqb_sym d), (String.eqb_sym s).
  destruct (String.eqb (demographic e) d && String.eqb (sentiment e) s); reflexivity.
Qed.

Lemma group_In (r c : value) (n : nat) :
  In ((r, c), n) g
  <-> In r a /\ In c b /\ n = count pair_eqb (r, c) (combine a b) /\ 0 < n.
Proof.
  unfold g, groupby2_size. rewrite in_flat_map. split.
  - intros (r' & Hr & H). apply in_flat_map in H. destruct H as (c' & Hc & H).
    apply (proj1 (sorted_labels_In _ _ (labels_of demographic rs))) in Hr.
    apply (proj1 (sorted_labels_In _ _ (labels_of sentiment rs))) in Hc.
    destruct (count pair_eqb (r', c') (combine a b)) eqn:E; [destruct H|].
    destruct H as [[= <- <- <-]|[]]. repeat split; auto. lia.
  - intros (Hr & Hc & -> & Hpos). exists r. split.
    + now apply (proj2 (sorted_labels_In _ _ (labels_of demographic rs))).
    + apply in_flat_map. exists c. split.
      * now apply (proj2 (sorted_labels_In _ _ (labels_of sentiment rs))).
      * destruct (count pair_eqb (r, c) (combine a b)); [lia|]. now left.
Qed.

Lemma group_of_entry (e : feedback_entry) :
  In e rs -> exists n, In ((VStr (demographic e), VStr (sentiment e)), n) g.
Proof.
  intros He. eexists. apply group_In. repeat split.
  - unfold a. now apply (in_map (fun e => VStr (demographic e))).
  - unfold b. now apply (in_map (fun e => VStr (sentiment e))).
  - apply (count_present pair_eqb pair_eqb_eq). rewrite pairs_of_store.
    now apply (in_map (fun e => (VStr (demographic e), VStr (sentiment e)))).
Qed.

Lemma group_rows_labels : Forall is_label (map (fun e => fst (fst e)) g).
Proof.
  apply Forall_forall. intros v Hv. apply in_map_iff in Hv.
  destruct Hv as ([[r c] n] & <- & H). apply group_In in H. destruct H as (Hr & _).
  simpl. unfold a in Hr. apply in_map_iff in Hr. destruct Hr as (e & <- & _).
  now exists (demographic e).
Qed.

Lemma group_columns_labels : Forall is_label (map (fun e => snd (fst e)) g).
Proof.
  apply Forall_forall. intros v Hv. apply in_map_iff in Hv.
  destruct Hv as ([[r c] n] & <- & H). apply group_In in H. destruct H as (_ & Hc & _).
  simpl. unfold b in Hc. apply in_map_iff in Hc. destruct Hc as (e & <- & _).
  now exists (sentiment e).
Qed.

Lemma crosstab_rows (v : value) :
  In v (ct_index (demo_sentiment rs)) <-> exists e, In e rs /\ v = VStr (demographic e).
Proof.
  unfold demo_sentiment, unstack. cbn [ct_index]. fold a b g.
  rewrite (sorted_labels_In v _ group_rows_labels), in_map_iff. split.
  - intros ([[r c] n] & <- & H). apply group_In in H. destruct H as (Hr & _).
    simpl. unfold a in Hr. apply in_map_iff in Hr. destruct Hr as (e & <- & He).
    now exists e.
  - intros (e & He & ->). destruct (group_of_entry e He) as (n & Hn).
    now exists ((VStr (demographic e), VStr (sentiment e)), n).
Qed.

Lemma crosstab_columns (v : value) :
  In v (ct_columns (demo_sentiment rs)) <-> exists e, In e rs /\ v = VStr (sentiment e).
Proof.
  unfold demo_sentiment, unstack. cbn [ct_columns]. fold a b g.
  rewrite (sorted_labels_In v _ group_columns_labels), in_map_iff. split.
  - intros ([[r c] n] & <- & H). apply group_In in H. destruct H as (_ & Hc & _).
    simpl. unfold b in Hc. apply in_map_iff in Hc. destruct Hc as (e & <- & He).
    now exists e.
  - intros (e & He & ->). destruct (group_of_entry e He) as (n & Hn).
    now exists ((VStr (demographic e), VStr (sentiment e)), n).
Qed.

(** A cell holds the number of rows of its pair, whether the pair has
    a group or is filled. *)
Lemma filled_cell (r c : value) :
  match assoc pair_eqb (r, c) g with
  | Some n => n
  | None => 0
  end = count pair_eqb (r, c) (combine a b).
Proof.
  destruct (assoc pair_eqb (r, c) g) as [n|] eqn:E.
  - apply (assoc_Some pair_eqb pair_eqb_eq) in E. apply group_In in E. tauto.
  - pose proof (assoc_None pair_eqb pair_eqb_eq _ _ E) as HN.
    destruct (count pair_eqb (r, c) (combine a b)) as [|n] eqn:Ec; [reflexivity|].
    exfalso. apply (HN (S n)). apply group_In.
    assert (HIn : In (r, c) (combine a b)).
    { destruct (in_dec (fun p q => match Bool.bool_dec (pair_eqb p q) true with
                                   | left e => left (proj1 (pair_eqb_eq p q) e)
                                   | right ne => right (fun e => ne (proj2 (pair_eqb_eq p q) e))
                                   end) (r, c) (combine a b)) as [H|H]; [assumption|].
      rewrite (count_absent pair_eqb pair_eqb_eq _ _ H) in Ec. discriminate. }
    repeat split.
    + now apply in_combine_l in HIn.
    + now apply in_combine_r in HIn.
    + now rewrite Ec.
    + lia.
Qed.

Lemma crosstab_cell (d s : string) :
  In (VStr d) (ct_index (demo_sentiment rs)) ->
  In (VStr s) (ct_columns (demo_sentiment rs)) ->
  ct_cell (demo_sentiment rs) (VStr d) (VStr s) = Some (cell_count d s rs).
Proof.
  intros Hd Hs. unfold ct_cell, demo_sentiment, unstack in *.
  cbn [ct_index ct_columns ct_cells] in *. fold a b g in Hd, Hs |- *.
  rewrite (assoc_combine_map value_eqb value_eqb_eq _ _ _ Hd).
  rewrite (assoc_combine_map value_eqb value_eqb_eq _ _ _ Hs).
  rewrite filled_cell, count_pair. reflexivity.
Qed.

Lemma crosstab_shape :
  List.length (ct_cells (demo_sentiment rs)) = List.length (ct_index (demo_sentiment rs))
  /\ Forall (fun row => List.length row = List.length (ct_columns (demo_sentiment rs)))
            (ct_cells (demo_sentiment rs)).
Proof.
  unfold demo_sentiment, unstack. cbn [ct_index ct_columns ct_cells]. split.
  - apply length_map.
  - apply Forall_forall. intros row H. apply in_map_iff in H.
    destruct H as (r & <- & _). apply length_map.
Qed.

Lemma crosstab_sorted :
  StronglySorted value_lt (ct_index (demo_sentiment rs))
  /\ StronglySorted value_lt (ct_columns (demo_sentiment rs)).
Proof.
  unfold demo_sentiment, unstack. cbn [ct_index ct_columns]. fold a b g. split.
  - apply sorted_labels_sorted, group_rows_labels.
  - apply sorted_labels_sorted, group_columns_labels.
Qed.
End CrossTab.

(** C7 (as the code has it). The cross-tabulation that the insights page
    draws has as rows exactly the demographics present in the store and
    as columns exactly the sentiments present in the store, both in
    ascending order of their labels without repetition; the cell of a row
    and a column holds the number of entries with that demographic and
    that sentiment, 0 when there is none; every row has one cell per
    column. *)
Theorem crosstab_labels_are_sorted_and_present
    (format_1f : float -> string) (to_string : string -> list (value * nat) -> string)
    (rs : list feedback_entry) :
  StronglySorted value_lt (ct_index (demo_sentiment rs))
  /\ (forall v, In v (ct_index (demo_sentiment rs))
                <-> exists e, In e rs /\ v = VStr (demographic e))
  /\ StronglySorted value_lt (ct_columns (demo_sentiment rs))
  /\ (forall v, In v (ct_columns (demo_sentiment rs))
                <-> exists e, In e rs /\ v = VStr (sentiment e))
  /\ (forall d s,
        In (VStr d) (ct_index (demo_sentiment rs)) ->
        In (VStr s) (ct_columns (demo_sentiment rs)) ->
        ct_cell (demo_sentiment rs) (VStr d) (VStr s) = Some (cell_count d s rs))
  /\ List.length (ct_cells (demo_sentiment rs)) = List.length (ct_index (demo_sentiment rs))
  /\ Forall (fun row => List.length row = List.length (ct_columns (demo_sentiment rs)))
            (ct_cells (demo_sentiment rs))
  /\ (forall csv_clicked report_clicked t doc simplified,
        rs <> [] ->
        exists ws,
          insights_page format_1f to_string csv_clicked report_clicked t
            (mk_session doc simplified rs) = Ok ws
          /\ In (st_plotly_chart (px_bar_frame "Sentiment by Demographic" (demo_sentiment rs)))
                ws).
Proof.
  repeat split.
  - apply crosstab_sorted.
  - apply crosstab_rows.
  - apply crosstab_rows.
  - apply crosstab_sorted.
  - apply crosstab_columns.
  - apply crosstab_columns.
  - apply crosstab_cell.
  - apply crosstab_shape.
  - apply crosstab_shape.
  - intros csv_clicked report_clicked t doc simplified Hne.
    destruct (insights_page_nonempty format_1f to_string csv_clicked report_clicked t
                (mk_session doc simplified rs) Hne) as (report & _ & ->).
    eexists. split; [reflexivity|].
    unfold insights_widgets. cbn [feedback_data].
    apply in_app_iff. left. simpl. tauto.
Qed.

Lemma crosstab_labels_are_sorted_and_present_witness :
  In (VStr "Farmer")
     (ct_index (demo_sentiment [sample "Student" "positive"; sample "Farmer" "negative"]))
  /\ In (VStr "positive")
        (ct_columns (demo_sentiment [sample "Student" "positive"; sample "Farmer" "negative"]))
  /\ ct_cell (demo_sentiment [sample "Student" "positive"; sample "Farmer" "negative"])
       (VStr "Farmer") (VStr "positive")
     = Some (cell_count "Farmer" "positive"
               [sample "Student" "positive"; sample "Farmer" "negative"]).
Proof.
  assert (H1 : In (VStr "Farmer")
     (ct_index (demo_sentiment [sample "Student" "positive"; sample "Farmer" "negative"])))
    by (simpl; tauto).
  assert (H2 : In (VStr "positive")
     (ct_columns (demo_sentiment [sample "Student" "positive"; sample "Farmer" "negative"])))
    by (simpl; tauto).
  split; [exact H1|]. split; [exact H2|].
  apply (proj1 (proj2 (proj2 (proj2 (proj2
    (crosstab_labels_are_sorted_and_present (fun _ => "") (fun _ _ => "")
       [sample "Student" "positive"; sample "Farmer" "negative"])))))); assumption.
Defined.

(** C7 (as stated) fails: with a positive entry of Student followed by a
    negative entry of Farmer, the rows are Farmer then Student, not in
    order of first appearance, and the columns are negative then positive,
    without a neutral column. *)
Lemma crosstab_is_not_in_order_of_appearance :
  demo_sentiment [sample "Student" "positive"; sample "Farmer" "negative"]
  = {| ct_index := [VStr "Farmer"; VStr "Student"];
       ct_columns := [VStr "negative"; VStr "positive"];
       ct_cells := [[1; 0]; [0; 1]] |}.
Proof. reflexivity. Qed.

(** ** The export *)

(** C6. With the CSV button pressed on a non-empty store, the page offers
    the table [exported_csv]: one row per entry in the order of the
    store, each row holding the eight attributes of its entry, followed
    by a ninth cell, the hour of its timestamp, under a ninth column
    labelled "hour". *)
Theorem exported_csv_carries_the_hour_column
    (format_1f : float -> string) (to_string : string -> list (value * nat) -> string)
    (report_clicked : bool) (t : insights_clock) (st : session_state) :
  feedback_data st <> [] ->
  exists ws,
    insights_page format_1f to_string true report_clicked t st = Ok ws
    /\ In (st_download_button "Download CSV" (csv_data (exported_csv (feedback_data st)))
             ("policy_feedback_" ++ strftime_date (csv_name_now t) ++ ".csv")%string
             "text/csv") ws
    /\ csv_header (exported_csv (feedback_data st))
       = [ "timestamp"; "name"; "demographic"; "type"; "text"; "sentiment";
           "key_points"; "category"; "hour" ]
    /\ csv_rows (exported_csv (feedback_data st))
       = map (fun e => entry_cells e ++ [VInt (Z.of_nat (hour (timestamp e)))])
             (feedback_data st).
Proof.
  intros Hne.
  destruct (insights_page_nonempty format_1f to_string true report_clicked t st Hne)
    as (report & _ & ->).
  eexists. split; [reflexivity|]. repeat split.
  unfold insights_widgets. rewrite !in_app_iff.
  do 6 right. left. now left.
Qed.

Lemma exported_csv_carries_the_hour_column_witness :
  feedback_data (mk_session "" "" [sample "Farmer" "negative"]) <> []
  /\ exists ws,
       insights_page (fun _ => "") (fun _ _ => "") true false at_noon
         (mk_session "" "" [sample "Farmer" "negative"]) = Ok ws
       /\ In (st_download_button "Download CSV"
                (csv_data
                   {| csv_header := [ "timestamp"; "name"; "demographic"; "type"; "text";
                                      "sentiment"; "key_points"; "category"; "hour" ];
                      csv_rows := [ [ VTime noon; VStr "Anonymous"; VStr "Farmer";
                                      VStr "Concern"; VStr "The fee is too high.";
                                      VStr "negative"; VList []; VStr "general";
                                      VInt 12 ] ] |})
                "policy_feedback_20250314.csv" "text/csv") ws.
Proof.
  split; [discriminate|].
  destruct (exported_csv_carries_the_hour_column (fun _ => "") (fun _ _ => "") false at_noon
              (mk_session "" "" [sample "Farmer" "negative"])) as (ws & Hws & HIn & _);
    [discriminate|].
  exists ws. split; assumption.
Defined.

(** ** The empty store *)

(** C1 (as the code has it). With an empty store the insights page stops
    at its guard: it shows its header and the warning and nothing else,
    whatever buttons are pressed, and the statistics panel of the
    feedback page shows that no feedback was received; neither fails.
    The rates are not 0 where there is no row: on a frame with the
    columns of the entries and no row both means are NaN, and the
    recommendation sequence is empty.  On every non-empty store the
    recommendations and the report are produced. *)
Theorem empty_store_stops_at_the_guard
    (format_1f : float -> string) (to_string : string -> list (value * nat) -> string) :
  (forall csv_clicked report_clicked t doc simplified,
     insights_page format_1f to_string csv_clicked report_clicked t
       (mk_session doc simplified [])
     = Ok [ st_header "📊 Policy Insights Report";
            st_warning "No feedback data available for insights!" ])
  /\ (forall doc simplified,
        live_feedback_stats (mk_session doc simplified [])
        = Ok [ st_subheader "📊 Live Feedback Stats"; st_info "No feedback received yet." ])
  /\ sentiment_mean no_rows "positive" = Ok NaN
  /\ sentiment_mean no_rows "negative" = Ok NaN
  /\ generate_recommendations no_rows = Ok []
  /\ (forall e rs t,
        exists recs report,
          generate_recommendations (DataFrame_of (e :: rs)) = Ok recs
          /\ generate_summary_report format_1f to_string t (DataFrame_of (e :: rs))
             = Ok report).
Proof.
  repeat split.
  intros e rs t.
  destruct (generate_summary_report_total format_1f to_string (e :: rs) t) as (report & Hr);
    [discriminate|].
  exists (recommendations_of (e :: rs)), report. split; [|assumption].
  apply generate_recommendations_eq. discriminate.
Qed.

(** C1 (as stated) fails: the frame of an empty store has no column, and
    the support rate, the concern rate and the recommendations raise
    [KeyError] on it; on a frame with the columns and no row the rates are
    NaN, not 0. *)
Lemma empty_store_rates_are_not_zero :
  sentiment_mean (DataFrame_of []) "positive" = Raise (KeyError "sentiment")
  /\ sentiment_mean (DataFrame_of []) "negative" = Raise (KeyError "sentiment")
  /\ generate_recommendations (DataFrame_of []) = Raise (KeyError "sentiment")
  /\ fmul NaN 100 = NaN
  /\ sentiment_mean no_rows "positive" = Ok NaN
  /\ sentiment_mean no_rows "negative" = Ok NaN.
Proof. repeat split. Qed.

(** ** The store over a session *)

Lemma run_appends (st : session_state) (p : page_run) :
  exists added,
    feedback_data (run st p) = feedback_data st ++ added
    /\ List.length added <= 1
    /\ Forall from_form added.
Proof.
  destruct p as [api_key doc analyze_clicked simplified| |env f|c r t]; simpl.
  - exists []. rewrite app_nil_r. unfold policy_upload_page.
    destruct doc as [[extracted|]|pasted]; [| |destruct (truthy pasted)]; simpl;
      destruct (_ && analyze_clicked); simpl; auto.
  - exists []. rewrite app_nil_r. auto.
  - destruct (feedback_page_cases env f st) as (ws & [[-> _] | (-> & _ & _ & Ht)]).
    + exists []. rewrite app_nil_r. auto.
    + exists [feedback_entry_of env f]. repeat split; auto.
      constructor; [|constructor]. repeat split.
      * simpl. now apply truthy_true.
      * apply selectbox_in_DEMOGRAPHICS.
      * apply radio_in_FEEDBACK_TYPES.
  - exists []. rewrite app_nil_r. auto.
Qed.

Lemma runs_append (runs : list page_run) (st : session_state) :
  exists added,
    feedback_data (fold_left run runs st) = feedback_data st ++ added
    /\ List.length added <= List.length runs
    /\ Forall from_form added.
Proof.
  revert st. induction runs as [|p runs IH]; intros st; simpl.
  - exists []. rewrite app_nil_r. auto.
  - destruct (run_appends st p) as (a1 & E1 & L1 & F1).
    destruct (IH (run st p)) as (a2 & E2 & L2 & F2).
    exists (a1 ++ a2). rewrite E2, E1, <- app_assoc. repeat split.
    + rewrite length_app. lia.
    + apply Forall_app. auto.
Qed.

(** X1. The store only grows: whatever runs follow, the entries already
    stored stay as they are, in their order, at the front of the store;
    one run adds at most one entry. *)
Theorem store_is_append_only (runs more : list page_run) :
  exists added,
    feedback_data (session (runs ++ more)) = feedback_data (session runs) ++ added
    /\ List.length added <= List.length more.
Proof.
  unfold session. rewrite fold_left_app.
  destruct (runs_append more (fold_left run runs (initialize_session_state None)))
    as (added & E & L & _).
  exists added. auto.
Qed.

(** X2. In every session every stored entry has a non-empty text, a
    demographic of [DEMOGRAPHICS] and a type of [FEEDBACK_TYPES]. *)
Theorem stored_entries_come_from_the_form (runs : list page_run) :
  Forall (fun e => text e <> ""
                   /\ In (demographic e) DEMOGRAPHICS
                   /\ In (type e) FEEDBACK_TYPES)
         (feedback_data (session runs)).
Proof.
  unfold session.
  destruct (runs_append runs (initialize_session_state None)) as (added & -> & _ & F).
  exact F.
Qed.

Lemma run_keeps_document (st : session_state) (p : page_run) :
  ~ extracts_nothing p -> document_kept st -> document_kept (run st p).
Proof.
  intros Hp [H1 H2].
  destruct p as [api_key doc analyze_clicked simplified| |env f|c r t]; simpl;
    try (split; assumption).
  - unfold policy_upload_page, document_kept.
    destruct doc as [[extracted|]|pasted]; [| |destruct (truthy pasted) eqn:Ed]; simpl.
    + assert (extracted <> "") by (intros ->; now apply Hp).
      destruct (_ && analyze_clicked); simpl; auto.
    + destruct (truthy (document_text st)) eqn:Es; simpl; [|auto].
      apply truthy_true in Es.
      destruct (_ && analyze_clicked); simpl; auto.
    + apply truthy_true in Ed.
      destruct (_ && analyze_clicked); simpl; auto.
    + destruct (truthy (document_text st)) eqn:Es; simpl; [|auto].
      apply truthy_true in Es.
      destruct (_ && analyze_clicked); simpl; auto.
  - destruct (feedback_page_cases env f st) as (ws & [[-> _] | (-> & Hs & _ & _)]).
    + split; assumption.
    + apply truthy_true in Hs. split; simpl; auto.
Qed.

(** X3. In a session where no uploaded file yields the empty text, a
    simplified text is stored only with a document, and feedback is
    stored only with a document: the analysis needs a document and the
    form needs the analysis.  An uploaded file that yields the empty
    text breaks this: it replaces the stored document by the empty text
    and leaves the simplified text and the feedback as they are, with
    or without an API key and the Analyze button. *)
Theorem feedback_needs_a_document (runs : list page_run) :
  (Forall (fun p => ~ extracts_nothing p) runs ->
   (simplified_text (session runs) <> "" -> document_text (session runs) <> "")
   /\ (feedback_data (session runs) <> [] -> document_text (session runs) <> ""))
  /\ (forall api_key analyze_clicked simplified,
        run (session runs)
            (PolicyUpload api_key (upload_file (Some "")) analyze_clicked simplified)
        = {| document_text := "";
             simplified_text := simplified_text (session runs);
             feedback_data := feedback_data (session runs) |}).
Proof.
  split.
  - unfold session. intros F.
    assert (H : forall st, document_kept st -> document_kept (fold_left run runs st)).
    { induction F as [|p runs' Hp _ IH]; intros st Hst; simpl; [assumption|].
      apply IH. now apply run_keeps_document. }
    apply (H (initialize_session_state None)). split; simpl; congruence.
  - intros api_key analyze_clicked simplified. reflexivity.
Qed.

Lemma feedback_needs_a_document_witness :
  Forall (fun p => ~ extracts_nothing p)
    [ PolicyUpload "sk-key" (upload_file (Some "Section 1. A fee applies.")) true
        "A fee applies.";
      CitizenFeedback (answering None) (mk_form "" Farmer Concern "Too costly." true) ]
  /\ feedback_data (session
    [ PolicyUpload "sk-key" (upload_file (Some "Section 1. A fee applies.")) true
        "A fee applies.";
      CitizenFeedback (answering None) (mk_form "" Farmer Concern "Too costly." true) ]) <> []
  /\ document_text (session
    [ PolicyUpload "sk-key" (upload_file (Some "Section 1. A fee applies.")) true
        "A fee applies.";
      CitizenFeedback (answering None) (mk_form "" Farmer Concern "Too costly." true) ]) <> "".
Proof.
  assert (F : Forall (fun p => ~ extracts_nothing p)
    [ PolicyUpload "sk-key" (upload_file (Some "Section 1. A fee applies.")) true
        "A fee applies.";
      CitizenFeedback (answering None) (mk_form "" Farmer Concern "Too costly." true) ]).
  { constructor; [simpl; discriminate|]. constructor; [simpl; tauto|constructor]. }
  split; [exact F|]. split; [discriminate|].
  apply (proj2 (proj1 (feedback_needs_a_document _) F)).
  discriminate.
Defined.

(** ** Rules 2 and 3 *)

Lemma rule2_not_rule3 (v : value) (n : nat) : rule2_text v <> rule3_text n.
Proof. unfold rule2_text, rule3_text. cbn. discriminate. Qed.

Lemma concerned_spec (rs : list feedback_entry) :
  concerned rs <> [] <-> exists e, In e rs /\ sentiment e = "negative".
Proof.
  split; [|apply concerned_nonempty].
  unfold concerned, with_sentiment. intros H.
  destruct (filter (has_sentiment "negative") rs) as [|e l] eqn:E; [now destruct H|].
  assert (He : In e (filter (has_sentiment "negative") rs)) by (rewrite E; now left).
  apply filter_In in He. destruct He as [He Hs]. exists e. split; [assumption|].
  unfold has_sentiment in Hs. now apply String.eqb_eq.
Qed.

Lemma top_of_concerned (rs : list feedback_entry) :
  match value_counts (map VStr (concerned rs)) with
  | [] => concerned rs = []
  | (v, _) :: _ => exists d, v = VStr d /\ In d (concerned rs)
  end.
Proof.
  destruct (concerned rs) as [|c l] eqn:E; [reflexivity|].
  assert (Hv : map VStr (c :: l) <> []) by discriminate.
  pose proof (counts_nonempty value_eqb (map VStr (c :: l)) Hv) as Hne.
  fold (value_counts (map VStr (c :: l))) in Hne.
  destruct (value_counts (map VStr (c :: l))) as [|[v n] rest] eqn:Ev; [congruence|].
  destruct (top_of_counts value_eqb value_eqb_eq _ _ _ _ Ev) as (HIn & _).
  apply in_map_iff in HIn. destruct HIn as (d & <- & Hd). now exists d.
Qed.

(** X4. On a non-empty store rule 2 is emitted exactly when some entry
    is negative, and rule 1 is never emitted without rule 2. *)
Theorem rule2_iff_some_negative_entry (rs : list feedback_entry) :
  rs <> [] ->
  exists recs,
    generate_recommendations (DataFrame_of rs) = Ok recs
    /\ ((exists v, In (rule2_text v) recs) <-> exists e, In e rs /\ sentiment e = "negative")
    /\ (In rule1_text recs -> exists d, In (rule2_text (VStr d)) recs).
Proof.
  intros Hne. rewrite (generate_recommendations_eq rs Hne). eexists.
  split; [reflexivity|].
  assert (Hiff : (exists v, In (rule2_text v) (recommendations_of rs))
                 <-> exists e, In e rs /\ sentiment e = "negative").
  { rewrite <- concerned_spec. unfold recommendations_of.
    pose proof (top_of_concerned rs) as Htop.
    destruct (value_counts (map VStr (concerned rs))) as [|[v n] rest].
    - split.
      + intros (v & Hv). rewrite !in_app_iff in Hv. destruct Hv as [Hv|[[]|Hv]].
        * destruct (fgt _ _); [|destruct Hv]. destruct Hv as [Hv|[]].
          now apply rule1_not_rule2 in Hv.
        * destruct (Nat.ltb _ _); [|destruct Hv]. destruct Hv as [Hv|[]].
          symmetry in Hv. now apply rule2_not_rule3 in Hv.
      + intros H. contradiction.
    - destruct Htop as (d & -> & Hd). split.
      + intros _ E. rewrite E in Hd. destruct Hd.
      + intros _. exists (VStr d). rewrite !in_app_iff. right. left. now left. }
  split; [exact Hiff|].
  intros H1.
  assert (Hneg : exists e, In e rs /\ sentiment e = "negative").
  { apply concerned_spec. intros E.
    unfold recommendations_of in H1. rewrite !in_app_iff in H1.
    assert (Hf : fgt (Fin (fraction "negative" rs)) (3 # 10) = true).
    { destruct (fgt (Fin (fraction "negative" rs)) (3 # 10)); [reflexivity|].
      destruct H1 as [[]|[H1|H1]].
      - destruct (value_counts _) as [|[v n] l]; [destruct H1|].
        destruct H1 as [H1|[]]. symmetry in H1. now apply rule1_not_rule2 in H1.
      - destruct (Nat.ltb _ _); [|destruct H1].
        destruct H1 as [H1|[]]. symmetry in H1. now apply rule1_not_rule3 in H1. }
    apply fgt_Fin in Hf. unfold fraction in Hf.
    unfold concerned in E. apply map_eq_nil in E. rewrite E in Hf.
    unfold Qlt in Hf. simpl in Hf. lia. }
  pose proof (top_of_concerned rs) as Htop.
  unfold recommendations_of.
  destruct (value_counts (map VStr (concerned rs))) as [|[v n] rest].
  - apply concerned_spec in Hneg. contradiction.
  - destruct Htop as (d & -> & _). exists d.
    rewrite !in_app_iff. right. left. now left.
Qed.

Lemma rule2_iff_some_negative_entry_witness :
  [sample "Farmer" "negative"] <> []
  /\ exists recs,
       generate_recommendations (DataFrame_of [sample "Farmer" "negative"]) = Ok recs
       /\ (In rule1_text recs -> exists d, In (rule2_text (VStr d)) recs).
Proof.
  split; [discriminate|].
  destruct (rule2_iff_some_negative_entry [sample "Farmer" "negative"])
    as (recs & H & _ & H12); [discriminate|].
  exists recs. split; assumption.
Defined.



(** ** The hour column and the aggregates *)

(** The report of a frame that holds a non-empty store. *)
Lemma generate_summary_report_frame
    (format_1f : float -> string) (to_string : string -> list (value * nat) -> string)
    (rs : list feedback_entry) (df : DataFrame) (t : datetime) :
  rs <> [] -> store_frame rs df ->
  generate_summary_report format_1f to_string t df
  = Ok (report_head ++ strftime_seconds t
        ++ report_summary format_1f to_string rs ++ report_lists rs)%string.
Proof.
  intros Hne F. unfold generate_summary_report.
  rewrite !(frame_sentiment_percentage64 rs _ Hne F). cbn [bind].
  rewrite !(frame_demographic rs _ F). cbn [bind].
  rewrite !(frame_sentiment rs _ F). cbn [bind].
  rewrite (frame_type rs _ F). cbn [bind].
  rewrite !(frame_mask_text rs _ F). cbn [bind].
  rewrite !series_eq_map, !mask_select_map.
  assert (Hl : len df = List.length rs) by apply F.
  rewrite Hl. f_equal.
  unfold report_head, report_summary, report_lists, texts_with, with_sentiment,
    has_sentiment, head, fmul.
  rewrite !string_app_assoc. reflexivity.
Qed.

(** X7. The [hour] column that the insights page writes into the frame
    of a non-empty store changes neither the recommendations nor the
    report: computed from the frame with the column, they are what the
    frame built from the store gives, and the report that the page
    offers for download is the report of that frame. *)
Theorem extra_column_changes_no_aggregate
    (format_1f : float -> string) (to_string : string -> list (value * nat) -> string)
    (rs : list feedback_entry) :
  rs <> [] ->
  generate_recommendations (with_hour rs) = generate_recommendations (DataFrame_of rs)
  /\ (forall t,
        generate_summary_report format_1f to_string t (with_hour rs)
        = generate_summary_report format_1f to_string t (DataFrame_of rs))
  /\ (forall csv_clicked clock doc simplified,
        exists ws report,
          insights_page format_1f to_string csv_clicked true clock
            (mk_session doc simplified rs) = Ok ws
          /\ generate_summary_report format_1f to_string (report_now clock)
               (DataFrame_of rs) = Ok report
          /\ In (st_download_button "Download Report" (text_data report)
                   ("policy_insights_report_" ++ strftime_date (report_name_now clock)
                    ++ ".txt")%string "text/plain") ws).
Proof.
  intros Hne.
  pose proof (store_frame_DataFrame_of rs Hne) as F0.
  pose proof (store_frame_with_hour rs Hne) as F1.
  assert (Hrep : forall t,
            generate_summary_report format_1f to_string t (with_hour rs)
            = generate_summary_report format_1f to_string t (DataFrame_of rs)).
  { intros t.
    rewrite (generate_summary_report_frame format_1f to_string rs _ t Hne F0).
    apply (generate_summary_report_frame format_1f to_string rs _ t Hne F1). }
  split; [|split; [exact Hrep|]].
  - rewrite (frame_recommendations rs _ Hne F0).
    apply (frame_recommendations rs _ Hne F1).
  - intros csv_clicked clock doc simplified.
    destruct (insights_page_nonempty format_1f to_string csv_clicked true clock
                (mk_session doc simplified rs) Hne) as (report & Hreport & ->).
    simpl in Hreport. rewrite Hrep in Hreport.
    eexists. exists report. split; [reflexivity|]. split; [exact Hreport|].
    unfold insights_widgets. rewrite !in_app_iff. do 7 right. now left.
Qed.

Lemma extra_column_changes_no_aggregate_witness :
  [sample "Farmer" "negative"] <> []
  /\ generate_recommendations (with_hour [sample "Farmer" "negative"])
     = generate_recommendations (DataFrame_of [sample "Farmer" "negative"]).
Proof.
  split; [discriminate|].
  apply (proj1 (extra_column_changes_no_aggregate (fun _ => "") (fun _ _ => "")
                  [sample "Farmer" "negative"] ltac:(discriminate))).
Defined.

(** ** The insights page on any session *)

(** X8. A run of the insights page never raises, whatever the session
    holds and whatever buttons are pressed: an empty store ends at the
    warning, and on a non-empty store every column that the page reads
    is there. *)
Theorem insights_page_never_raises
    (format_1f : float -> string) (to_string : string -> list (value * nat) -> string)
    (csv_clicked report_clicked : bool) (t : insights_clock) (st : session_state) :
  exists ws,
    insights_page format_1f to_string csv_clicked report_clicked t st = Ok ws
    /\ hd_error ws = Some (st_header "📊 Policy Insights Report")
    /\ (In (st_warning "No feedback data available for insights!") ws
        <-> feedback_data st = []).
Proof.
  destruct (feedback_data st) as [|e rs] eqn:E.
  - exists [ st_header "📊 Policy Insights Report";
             st_warning "No feedback data available for insights!" ].
    unfold insights_page. rewrite E. repeat split; simpl; auto.
  - assert (Hne : feedback_data st <> []) by (rewrite E; discriminate).
    destruct (insights_page_nonempty format_1f to_string csv_clicked report_clicked t st Hne)
      as (report & _ & ->).
    eexists. split; [reflexivity|]. split; [reflexivity|].
    split; [|discriminate].
    intros H. exfalso. unfold insights_widgets in H. rewrite !in_app_iff in H.
    assert (Hb : forall items w, In w (bullet_points items) -> exists s, w = st_markdown s).
    { intros items w Hw. unfold bullet_points in Hw. apply in_map_iff in Hw.
      destruct Hw as (x & <- & _). eexists. reflexivity. }
    assert (Hk : forall title items w, In w (key_insights title items) ->
                                       exists s, w = st_markdown s).
    { intros title items w Hw. unfold key_insights in Hw.
      destruct items; [destruct Hw|]. destruct Hw as [<-|Hw]; [eexists; reflexivity|].
      now apply Hb in Hw. }
    assert (He : forall recs i w, In w (enumerate_recommendations i recs) ->
                                  exists s, w = st_markdown s).
    { intros recs. induction recs as [|r recs IH]; intros i w Hw; [destruct Hw|].
      destruct Hw as [<-|Hw]; [eexists; reflexivity|]. now apply IH in Hw. }
    destruct H as [H|[H|[H|[H|[H|[H|[H|H]]]]]]].
    + simpl in H. repeat (destruct H as [H|H]; [discriminate|]). destruct H.
    + apply Hk in H. destruct H as (s & H). discriminate.
    + apply Hk in H. destruct H as (s & H). discriminate.
    + destruct H as [H|[]]. discriminate.
    + apply He in H. destruct H as (s & H). discriminate.
    + destruct H as [H|[]]. discriminate.
    + destruct csv_clicked; [|destruct H]. destruct H as [H|[]]. discriminate.
    + destruct report_clicked; [|destruct H]. destruct H as [H|[]]. discriminate.
Qed.

(** ** Support and concern rates *)

Lemma positive_and_negative_are_disjoint (rs : list feedback_entry) :
  List.length (with_sentiment "positive" rs) + List.length (with_sentiment "negative" rs)
  <= List.length rs.
Proof.
  unfold with_sentiment, has_sentiment.
  induction rs as [|e rs IH]; simpl; [lia|].
  destruct (String.eqb_spec (sentiment e) "positive") as [E|_].
  - rewrite E. simpl. lia.
  - destruct (String.eqb (sentiment e) "negative"); simpl; lia.
Qed.

Lemma support_and_concern_fractions (rs : list feedback_entry) :
  rs <> [] -> (fraction "positive" rs + fraction "negative" rs <= 1)%Q.
Proof.
  intros Hne. pose proof (positive_and_negative_are_disjoint rs) as H.
  destruct rs as [|e rs']; [congruence|].
  unfold fraction, Qle, Qplus. cbn [Qnum Qden].
  change (List.length (e :: rs')) with (S (List.length rs')) in *.
  rewrite <- Pos.of_nat_succ. rewrite !Pos2Z.inj_mul.
  rewrite !Zpos_P_of_succ_nat. nia.
Qed.

(** X9. On every non-empty store, whatever sentiments it holds, the
    support rate and the concern rate are percentages from 0 on whose
    sum is at most 100 within rounding tolerance: as exact quotients
    they sum to at most 100, and as the binary64 numbers that the program
    computes (for a store of fewer than 2^53 entries) their sum exceeds
    100 by at most 2^-45. *)
Theorem support_and_concern_rates_are_bounded (rs : list feedback_entry) :
  rs <> [] ->
  exists p n : Q,
    sentiment_mean (DataFrame_of rs) "positive" = Ok (Fin p)
    /\ sentiment_mean (DataFrame_of rs) "negative" = Ok (Fin n)
    /\ fmul (Fin p) 100 = Fin (p * 100)
    /\ fmul (Fin n) 100 = Fin (n * 100)
    /\ (0 <= p * 100)%Q /\ (0 <= n * 100)%Q
    /\ (p * 100 + n * 100 <= 100)%Q
    /\ ((Z.of_nat (List.length rs) < 2 ^ 53)%Z ->
        exists p64 n64 : Q,
          sentiment_percentage64 (DataFrame_of rs) "positive" = Ok (Fin p64)
          /\ sentiment_percentage64 (DataFrame_of rs) "negative" = Ok (Fin n64)
          /\ p64 = round64 (round64 p * 100)%Q
          /\ n64 = round64 (round64 n * 100)%Q
          /\ (0 <= p64)%Q /\ (0 <= n64)%Q
          /\ (p64 + n64 <= 100 + (1 # 2 ^ 45))%Q).
Proof.
  intros Hne. exists (fraction "positive" rs), (fraction "negative" rs).
  rewrite !(sentiment_mean_fraction rs Hne).
  pose proof (fraction_nonneg "positive" rs) as Hp.
  pose proof (fraction_nonneg "negative" rs) as Hn.
  pose proof (support_and_concern_fractions rs Hne) as Hsum.
  do 4 (split; [reflexivity|]).
  split; [lra|]. split; [lra|]. split; [lra|].
  intros _. do 2 eexists.
  rewrite !(sentiment_percentage64_fraction rs _ Hne).
  do 4 (split; [reflexivity|]).
  pose proof (percentage_bounds _ Hp) as [A1 A2].
  pose proof (percentage_bounds _ Hn) as [B1 B2].
  unfold unit_roundoff in *. change (2 ^ 53)%positive with 9007199254740992%positive in *.
  change (2 ^ 45)%positive with 35184372088832%positive.
  repeat split; lra.
Qed.

Lemma support_and_concern_rates_are_bounded_witness :
  [sample "Farmer" "negative"; sample "Teacher" "mixed"] <> []
  /\ exists p n : Q,
       sentiment_mean (DataFrame_of [sample "Farmer" "negative"; sample "Teacher" "mixed"])
         "positive" = Ok (Fin p)
       /\ sentiment_mean (DataFrame_of [sample "Farmer" "negative"; sample "Teacher" "mixed"])
            "negative" = Ok (Fin n)
       /\ (p * 100 + n * 100 <= 100)%Q.
Proof.
  split; [discriminate|].
  destruct (support_and_concern_rates_are_bounded
              [sample "Farmer" "negative"; sample "Teacher" "mixed"])
    as (p & n & Hp & Hn & _ & _ & _ & _ & H & _); [discriminate|].
  exists p, n. repeat split; assumption.
Defined.

(** The tolerance is needed: with one positive entry and five negative
    ones the two binary64 rates are those of primitive arithmetic, and
    their sum is 100 + 2^-47. *)
Example rates_of_sixths_exceed_100 :
  Binary64.same (Binary64.percentage 1 6) (round64 (round64 (1 # 6) * 100)%Q) = true
  /\ Binary64.same (Binary64.percentage 5 6) (round64 (round64 (5 # 6) * 100)%Q) = true
  /\ (round64 (round64 (1 # 6) * 100) + round64 (round64 (5 # 6) * 100)
      == 100 + (1 # 2 ^ 47))%Q.
Proof. repeat split. Qed.

(** ** Distributions *)

Section Counts.
Context {A : Type}.
Variable eqb : A -> A -> bool.
Hypothesis eqb_eq : forall x y, eqb x y = true <-> x = y.

Lemma unique_NoDup (l : list A) : NoDup (unique eqb l).
Proof.
  induction l as [|x l IH]; simpl; constructor.
  - intros H. apply filter_In in H. destruct H as [_ H].
    rewrite (eqb_refl eqb eqb_eq) in H. discriminate.
  - now apply NoDup_filter.
Qed.

Lemma list_sum_map_add {B} (f g : B -> nat) (ks : list B) :
  list_sum (map (fun k => f k + g k) ks) = list_sum (map f ks) + list_sum (map g ks).
Proof. induction ks as [|k ks IH]; simpl; lia. Qed.

Lemma indicator_absent (x : A) (ks : list A) :
  ~ In x ks -> list_sum (map (fun k => if eqb k x then 1 else 0) ks) = 0.
Proof.
  induction ks as [|k ks IH]; simpl; intros H; [reflexivity|].
  rewrite IH by tauto.
  destruct (eqb k x) eqn:E; [|reflexivity].
  apply eqb_eq in E. subst. tauto.
Qed.

Lemma indicator_present (x : A) (ks : list A) :
  NoDup ks -> In x ks -> list_sum (map (fun k => if eqb k x then 1 else 0) ks) = 1.
Proof.
  intros Hnd. induction ks as [|k ks IH]; simpl; intros H; [destruct H|].
  inversion Hnd as [|? ? Hk Hks]; subst.
  destruct H as [->|H].
  - rewrite (eqb_refl eqb eqb_eq). rewrite (indicator_absent x ks Hk). reflexivity.
  - rewrite (IH Hks H).
    destruct (eqb k x) eqn:E; [|reflexivity].
    apply eqb_eq in E. subst. contradiction.
Qed.

(** Over distinct keys that cover a list, the counts add up to its
    length. *)
Lemma counts_add_up (ks l : list A) :
  NoDup ks -> (forall x, In x l -> In x ks) ->
  list_sum (map (fun k => count eqb k l) ks) = List.length l.
Proof.
  intros Hnd. induction l as [|x l IH]; intros Hcov; simpl.
  - clear Hnd Hcov. induction ks as [|k ks IHk]; simpl; [reflexivity|assumption].
  - rewrite list_sum_map_add, indicator_present by (auto; apply Hcov; now left).
    rewrite IH by (intros y Hy; apply Hcov; now right). reflexivity.
Qed.

Lemma insert_desc_perm (p : A * nat) (l : list (A * nat)) :
  Permutation (insert_desc p l) (p :: l).
Proof.
  induction l as [|q l IH]; simpl; [reflexivity|].
  destruct (Nat.ltb (snd p) (snd q)); [|reflexivity].
  rewrite IH. apply perm_swap.
Qed.

Lemma sort_desc_perm (l : list (A * nat)) : Permutation (sort_desc l) l.
Proof.
  induction l as [|p l IH]; simpl; [reflexivity|].
  rewrite insert_desc_perm. now constructor.
Qed.

Lemma insert_desc_sorted (p : A * nat) (l : list (A * nat)) :
  StronglySorted (fun a b => snd b <= snd a) l ->
  StronglySorted (fun a b => snd b <= snd a) (insert_desc p l).
Proof.
  intros Hs. induction l as [|q l IH]; simpl; [repeat constructor|].
  inversion Hs as [|? ? Hs' Hq]; subst.
  destruct (Nat.ltb_spec (snd p) (snd q)) as [Hlt|Hge].
  - constructor; [now apply IH|].
    apply Forall_forall. intros r Hr.
    apply (Permutation_in _ (insert_desc_perm p l)) in Hr.
    destruct Hr as [<-|Hr]; [lia|].
    now apply (proj1 (Forall_forall _ _) Hq).
  - constructor; [assumption|]. constructor; [assumption|].
    apply Forall_forall. intros r Hr.
    pose proof (proj1 (Forall_forall _ _) Hq r Hr). simpl in *. lia.
Qed.

Lemma sort_desc_sorted (l : list (A * nat)) :
  StronglySorted (fun a b => snd b <= snd a) (sort_desc l).
Proof.
  induction l as [|p l IH]; simpl; [constructor|]. now apply insert_desc_sorted.
Qed.
End Counts.

Lemma list_sum_perm (l l' : list nat) : Permutation l l' -> list_sum l = list_sum l'.
Proof. induction 1; simpl; lia. Qed.

Lemma value_counts_distribution (l : list string) :
  distribution_of l (value_counts (map VStr l)).
Proof.
  unfold distribution_of, value_counts.
  set (cs := map (fun k => (k, count value_eqb k (map VStr l))) (unique value_eqb (map VStr l))).
  pose proof (sort_desc_perm cs) as Hperm.
  assert (Hkeys : map fst cs = unique value_eqb (map VStr l)).
  { unfold cs. rewrite map_map. simpl. apply map_id. }
  repeat split.
  - intros H. apply (Permutation_in _ Hperm) in H. unfold cs in H.
    apply in_map_iff in H. destruct H as (k & [= <- <-] & Hk).
    apply (proj1 (unique_In value_eqb value_eqb_eq _ _)) in Hk. apply in_map_iff in Hk.
    destruct Hk as (s & <- & Hs). exists s. rewrite count_VStr. auto.
  - intros (s & -> & Hs & ->). apply (Permutation_in _ (Permutation_sym Hperm)).
    unfold cs. apply in_map_iff. exists (VStr s). rewrite count_VStr. split; [reflexivity|].
    apply (proj2 (unique_In value_eqb value_eqb_eq _ _)). now apply In_VStr.
  - apply (Permutation_NoDup (Permutation_map fst (Permutation_sym Hperm))).
    rewrite Hkeys. apply (unique_NoDup value_eqb value_eqb_eq).
  - apply sort_desc_sorted.
  - rewrite (list_sum_perm _ _ (Permutation_map snd Hperm)).
    unfold cs. rewrite map_map. simpl.
    rewrite (counts_add_up value_eqb value_eqb_eq).
    + apply length_map.
    + apply (unique_NoDup value_eqb value_eqb_eq).
    + intros x Hx. now apply (proj2 (unique_In value_eqb value_eqb_eq _ _)).
Qed.

Lemma nunique_value_counts (s : Series) : List.length (value_counts s) = nunique s.
Proof.
  unfold value_counts, nunique.
  rewrite (Permutation_length (sort_desc_perm _)). apply length_map.
Qed.

(** ** The statistics panel of the feedback page *)

Lemma live_feedback_stats_nonempty (st : session_state) :
  feedback_data st <> [] ->
  live_feedback_stats st
  = Ok ([ st_subheader "📊 Live Feedback Stats";
          st_plotly_chart (px_pie "Feedback Types"
                             (value_counts (map VStr (map type (feedback_data st)))));
          st_plotly_chart (px_bar "Sentiment Analysis"
                             (value_counts (map VStr (map sentiment (feedback_data st)))));
          st_subheader "Recent Feedback" ]
        ++ map recent_card (last_n 5 (feedback_data st))).
Proof.
  intros Hne. unfold live_feedback_stats.
  destruct (feedback_data st) as [|e rs] eqn:E; [congruence|].
  rewrite (getitem_type _ Hne). cbn [bind].
  rewrite (getitem_sentiment _ Hne). cbn [bind].
  rewrite !map_map. reflexivity.
Qed.

(** X10. With feedback in the store, the statistics panel draws the
    distribution of the feedback types and the distribution of the
    sentiments of the whole store: one slice or bar per label that
    occurs, with the number of its entries, in decreasing order of that
    number, the numbers adding up to the size of the store. *)
Theorem live_stats_show_the_distributions (st : session_state) :
  feedback_data st <> [] ->
  exists slices bars cards,
    live_feedback_stats st
    = Ok ([ st_subheader "📊 Live Feedback Stats";
            st_plotly_chart (px_pie "Feedback Types" slices);
            st_plotly_chart (px_bar "Sentiment Analysis" bars);
            st_subheader "Recent Feedback" ] ++ cards)
    /\ distribution_of (map type (feedback_data st)) slices
    /\ distribution_of (map sentiment (feedback_data st)) bars
    /\ list_sum (map snd slices) = List.length (feedback_data st)
    /\ list_sum (map snd bars) = List.length (feedback_data st).
Proof.
  intros Hne. rewrite (live_feedback_stats_nonempty st Hne).
  do 3 eexists. split; [reflexivity|].
  pose proof (value_counts_distribution (map type (feedback_data st))) as Ht.
  pose proof (value_counts_distribution (map sentiment (feedback_data st))) as Hs.
  repeat split; try apply Ht; try apply Hs.
  - destruct Ht as (_ & _ & _ & ->). apply length_map.
  - destruct Hs as (_ & _ & _ & ->). apply length_map.
Qed.

Lemma live_stats_show_the_distributions_witness :
  feedback_data (mk_session "d" "s" [sample "Farmer" "negative"; sample "Parent" "neutral"])
  <> []
  /\ exists slices bars cards,
       live_feedback_stats
         (mk_session "d" "s" [sample "Farmer" "negative"; sample "Parent" "neutral"])
       = Ok ([ st_subheader "📊 Live Feedback Stats";
               st_plotly_chart (px_pie "Feedback Types" slices);
               st_plotly_chart (px_bar "Sentiment Analysis" bars);
               st_subheader "Recent Feedback" ] ++ cards)
       /\ list_sum (map snd slices) = 2.
Proof.
  split; [discriminate|].
  destruct (live_stats_show_the_distributions
              (mk_session "d" "s" [sample "Farmer" "negative"; sample "Parent" "neutral"]))
    as (slices & bars & cards & H & _ & _ & Hsum & _); [discriminate|].
  exists slices, bars, cards. split; assumption.
Defined.

Lemma last_n_suffix {A} (n : nat) (l : list A) :
  l = firstn (List.length l - n) l ++ last_n n l
  /\ List.length (last_n n l) = Nat.min n (List.length l).
Proof.
  unfold last_n. split.
  - symmetry. apply firstn_skipn.
  - rewrite length_skipn. lia.
Qed.

(** X11. The recent feedback of the panel is the last five entries of
    the store, all of them when the store holds fewer, in the order of
    the store: the store is the entries not shown followed by the entries
    of the cards. *)
Theorem recent_feedback_is_the_last_five (st : session_state) :
  feedback_data st <> [] ->
  exists head_widgets older recent,
    live_feedback_stats st = Ok (head_widgets ++ map recent_card recent)
    /\ List.length head_widgets = 4
    /\ feedback_data st = older ++ recent
    /\ List.length recent = Nat.min 5 (List.length (feedback_data st)).
Proof.
  intros Hne. rewrite (live_feedback_stats_nonempty st Hne).
  destruct (last_n_suffix 5 (feedback_data st)) as [Hsplit Hlen].
  eexists. exists (firstn (List.length (feedback_data st) - 5) (feedback_data st)),
                  (last_n 5 (feedback_data st)).
  split; [reflexivity|]. split; [reflexivity|]. split; assumption.
Qed.

Lemma recent_feedback_is_the_last_five_witness :
  feedback_data (mk_session "d" "s" (repeat (sample "Farmer" "negative") 7)) <> []
  /\ exists head_widgets recent,
       live_feedback_stats (mk_session "d" "s" (repeat (sample "Farmer" "negative") 7))
       = Ok (head_widgets ++ map recent_card recent)
       /\ List.length recent = 5.
Proof.
  split; [discriminate|].
  destruct (recent_feedback_is_the_last_five
              (mk_session "d" "s" (repeat (sample "Farmer" "negative") 7)))
    as (hw & older & recent & H & _ & _ & Hlen); [discriminate|].
  exists hw, recent. split; assumption.
Defined.

(** ** Demographics represented *)

Lemma unique_nonempty {A} (eqb : A -> A -> bool) (l : list A) :
  l <> [] -> unique eqb l <> [].
Proof. destruct l; [congruence|discriminate]. Qed.

(** X12. In every session with feedback, the insights page shows as
    "Demographics Represented" a number between 1 and 8, and that number
    is the number of entries of the demographic counts. *)
Theorem demographics_represented_is_bounded
    (format_1f : float -> string) (to_string : string -> list (value * nat) -> string)
    (csv_clicked report_clicked : bool) (t : insights_clock) (runs : list page_run) :
  feedback_data (session runs) <> [] ->
  exists ws k,
    insights_page format_1f to_string csv_clicked report_clicked t (session runs) = Ok ws
    /\ In (st_metric "Demographics Represented" (str_nat k)) ws
    /\ 1 <= k <= 8
    /\ k = List.length
             (value_counts (map (fun e => VStr (demographic e)) (feedback_data (session runs)))).
Proof.
  intros Hne.
  destruct (insights_page_nonempty format_1f to_string csv_clicked report_clicked t
              (session runs) Hne) as (report & _ & ->).
  set (rs := feedback_data (session runs)) in *.
  exists (insights_widgets format_1f csv_clicked report_clicked t rs report),
         (nunique (map (fun e => VStr (demographic e)) rs)).
  split; [reflexivity|]. split; [|split].
  - unfold insights_widgets. apply in_app_iff. left. simpl. tauto.
  - unfold nunique. split.
    + assert (H : unique value_eqb (map (fun e => VStr (demographic e)) rs) <> []).
      { apply unique_nonempty. intros E. apply map_eq_nil in E. contradiction. }
      destruct (unique value_eqb (map (fun e => VStr (demographic e)) rs));
        [congruence|simpl; lia].
    + change 8 with (List.length (map VStr DEMOGRAPHICS)).
      apply NoDup_incl_length; [apply (unique_NoDup value_eqb value_eqb_eq)|].
      intros v Hv. apply (proj1 (unique_In value_eqb value_eqb_eq _ _)) in Hv.
      apply in_map_iff in Hv. destruct Hv as (e & <- & He).
      apply in_map.
      pose proof (stored_entries_come_from_the_form runs) as F.
      apply (proj1 (Forall_forall _ _) F e He).
  - symmetry. apply nunique_value_counts.
Qed.

Lemma demographics_represented_is_bounded_witness :
  feedback_data (session
    [ PolicyUpload "sk-key" (paste_text "Section 1. A fee applies.") true "A fee applies.";
      CitizenFeedback (answering None) (mk_form "" Farmer Concern "Too costly." true) ]) <> []
  /\ exists ws k,
       insights_page (fun _ => "") (fun _ _ => "") false false at_noon (session
         [ PolicyUpload "sk-key" (paste_text "Section 1. A fee applies.") true "A fee applies.";
           CitizenFeedback (answering None) (mk_form "" Farmer Concern "Too costly." true) ])
       = Ok ws
       /\ In (st_metric "Demographics Represented" (str_nat k)) ws
       /\ 1 <= k <= 8.
Proof.
  split; [discriminate|].
  destruct (demographics_represented_is_bounded (fun _ => "") (fun _ _ => "") false false at_noon
    [ PolicyUpload "sk-key" (paste_text "Section 1. A fee applies.") true "A fee applies.";
      CitizenFeedback (answering None) (mk_form "" Farmer Concern "Too costly." true) ])
    as (ws & k & H & HIn & Hk & _); [discriminate|].
  exists ws, k. repeat split; try assumption; apply Hk.
Defined.

(** ** The hourly timeline *)

Lemma int_compare_eq (x y : value) :
  is_int x -> is_int y -> value_compare x y = Eq -> x = y.
Proof. intros [a ->] [b ->] H. simpl in H. f_equal. now apply Z.compare_eq. Qed.

Lemma int_compare_antisym (x y : value) :
  is_int x -> is_int y -> value_compare x y = CompOpp (value_compare y x).
Proof. intros [a ->] [b ->]. simpl. apply Z.compare_antisym. Qed.

Lemma int_compare_trans (x y z : value) :
  is_int x -> is_int y -> is_int z ->
  value_compare x y = Lt -> value_compare y z = Lt -> value_compare x z = Lt.
Proof.
  intros [a ->] [b ->] [c ->]. simpl. rewrite !Z.compare_lt_iff. lia.
Qed.

Lemma hours_are_ints (rs : list feedback_entry) : Forall is_int (hours rs).
Proof.
  apply Forall_forall. intros v Hv. unfold hours in Hv. apply in_map_iff in Hv.
  destruct Hv as (e & <- & _). eexists. reflexivity.
Qed.

Lemma value_eqb_VInt (a b : Z) : value_eqb (VInt a) (VInt b) = Z.eqb a b.
Proof.
  unfold value_eqb.
  destruct (value_eq_dec (VInt a) (VInt b)) as [E|N], (Z.eqb_spec a b); congruence.
Qed.

Lemma count_hour (h : nat) (rs : list feedback_entry) :
  count value_eqb (VInt (Z.of_nat h)) (hours rs) = List.length (in_hour h rs).
Proof.
  unfold hours, in_hour. induction rs as [|e rs IH]; simpl; [reflexivity|].
  rewrite value_eqb_VInt, IH.
  destruct (Nat.eqb_spec (hour (timestamp e)) h) as [->|Hne].
  - rewrite Z.eqb_refl. reflexivity.
  - destruct (Z.eqb_spec (Z.of_nat h) (Z.of_nat (hour (timestamp e)))) as [E|_];
      [|reflexivity].
    apply Nat2Z.inj in E. congruence.
Qed.

Lemma sorted_NoDup {A} (lt : A -> A -> Prop) (l : list A) :
  (forall x, In x l -> ~ lt x x) -> StronglySorted lt l -> NoDup l.
Proof.
  intros Hirr Hs. induction Hs as [|x l Hs IH Hx]; constructor.
  - intros H. apply (Hirr x); [now left|].
    now apply (proj1 (Forall_forall _ _) Hx).
  - apply IH. intros y Hy. apply Hirr. now right.
Qed.

(** X13. The timeline of the insights page has one point per hour of
    the day in which some entry was submitted, in ascending order of the
    hour; the point of an hour counts the entries of that hour, whatever
    their dates; hours without entries have no point; the counts add up
    to the size of the store. *)
Theorem timeline_counts_entries_by_hour
    (format_1f : float -> string) (to_string : string -> list (value * nat) -> string)
    (csv_clicked report_clicked : bool) (t : insights_clock) (st : session_state) :
  feedback_data st <> [] ->
  exists ws points,
    insights_page format_1f to_string csv_clicked report_clicked t st = Ok ws
    /\ In (st_plotly_chart (px_line "Feedback Submission Timeline" points)) ws
    /\ StronglySorted value_lt (map fst points)
    /\ (forall v n, In (v, n) points
          <-> exists h, v = VInt (Z.of_nat h)
                        /\ (exists e, In e (feedback_data st) /\ hour (timestamp e) = h)
                        /\ n = List.length (in_hour h (feedback_data st)))
    /\ list_sum (map snd points) = List.length (feedback_data st).
Proof.
  intros Hne.
  destruct (insights_page_nonempty format_1f to_string csv_clicked report_clicked t st Hne)
    as (report & _ & ->).
  set (rs := feedback_data st) in *.
  exists (insights_widgets format_1f csv_clicked report_clicked t rs report),
         (groupby_size (hours rs)).
  split; [reflexivity|]. split; [|split; [|split]].
  - unfold insights_widgets. apply in_app_iff. left. simpl. tauto.
  - unfold groupby_size. rewrite map_map. simpl. rewrite map_id.
    apply (sort_unique_sorted value_compare is_int
             int_compare_eq int_compare_antisym int_compare_trans).
    apply hours_are_ints.
  - intros v n. unfold groupby_size. rewrite in_map_iff. split.
    + intros (k & [= <- <-] & Hk).
      apply (proj1 (sort_unique_In value_compare is_int int_compare_eq k (hours rs)
                      (hours_are_ints rs))) in Hk.
      unfold hours in Hk. apply in_map_iff in Hk. destruct Hk as (e & <- & He).
      exists (hour (timestamp e)). split; [reflexivity|]. split; [now exists e|].
      apply count_hour.
    + intros (h & -> & (e & He & <-) & ->). exists (VInt (Z.of_nat (hour (timestamp e)))).
      split; [now rewrite count_hour|].
      apply (proj2 (sort_unique_In value_compare is_int int_compare_eq _ (hours rs)
                      (hours_are_ints rs))).
      unfold hours. now apply (in_map (fun e => VInt (Z.of_nat (hour (timestamp e))))).
  - unfold groupby_size. rewrite map_map. simpl.
    rewrite (counts_add_up value_eqb value_eqb_eq).
    + unfold hours. apply length_map.
    + apply (sorted_NoDup value_lt).
      * intros x Hx.
        apply (proj1 (sort_unique_In value_compare is_int int_compare_eq x (hours rs)
                        (hours_are_ints rs))) in Hx.
        unfold hours in Hx. apply in_map_iff in Hx. destruct Hx as (e & <- & _).
        unfold value_lt. simpl. rewrite Z.compare_refl. discriminate.
      * apply (sort_unique_sorted value_compare is_int
                 int_compare_eq int_compare_antisym int_compare_trans).
        apply hours_are_ints.
    + intros x Hx.
      now apply (proj2 (sort_unique_In value_compare is_int int_compare_eq x (hours rs)
                          (hours_are_ints rs))).
Qed.

Lemma timeline_counts_entries_by_hour_witness :
  feedback_data (mk_session "d" "s" [sample "Farmer" "negative"; sample "Parent" "neutral"])
  <> []
  /\ exists ws points,
       insights_page (fun _ => "") (fun _ _ => "") false false at_noon
         (mk_session "d" "s" [sample "Farmer" "negative"; sample "Parent" "neutral"]) = Ok ws
       /\ In (st_plotly_chart (px_line "Feedback Submission Timeline" points)) ws
       /\ list_sum (map snd points) = 2.
Proof.
  split; [discriminate|].
  destruct (timeline_counts_entries_by_hour (fun _ => "") (fun _ _ => "") false false at_noon
              (mk_session "d" "s" [sample "Farmer" "negative"; sample "Parent" "neutral"]))
    as (ws & points & H & HIn & _ & _ & Hsum); [discriminate|].
  exists ws, points. repeat split; assumption.
Defined.

(** ** Sums over the cross-tabulation *)

Lemma count_pair_in_row (d : string) (c : value) (rs : list feedback_entry) :
  count pair_eqb (VStr d, c)
    (combine (map (fun e => VStr (demographic e)) rs) (map (fun e => VStr (sentiment e)) rs))
  = count value_eqb c (map (fun e => VStr (sentiment e)) (of_demographic d rs)).
Proof.
  rewrite pairs_of_store. unfold of_demographic, pair_eqb.
  induction rs as [|e rs IH]; simpl; [reflexivity|].
  rewrite value_eqb_VStr, IH, (String.eqb_sym d).
  destruct (String.eqb (demographic e) d); simpl; reflexivity.
Qed.

Lemma count_demographic (d : string) (rs : list feedback_entry) :
  count value_eqb (VStr d) (map (fun e => VStr (demographic e)) rs)
  = List.length (of_demographic d rs).
Proof.
  unfold of_demographic. induction rs as [|e rs IH]; simpl; [reflexivity|].
  rewrite value_eqb_VStr, IH, (String.eqb_sym d).
  destruct (String.eqb (demographic e) d); reflexivity.
Qed.

Lemma label_lt_irrefl (v : value) : is_label v -> ~ value_lt v v.
Proof.
  intros [s ->]. unfold value_lt. simpl.
  destruct (String.compare s s) eqn:E; try discriminate.
  pose proof (String.compare_antisym s s) as H. rewrite E in H. discriminate.
Qed.

Lemma crosstab_labels_NoDup (rs : list feedback_entry) :
  NoDup (ct_index (demo_sentiment rs)) /\ NoDup (ct_columns (demo_sentiment rs)).
Proof.
  destruct (crosstab_sorted rs) as [Hr Hc]. split.
  - apply (sorted_NoDup value_lt); [|assumption].
    intros v Hv. apply crosstab_rows in Hv. destruct Hv as (e & _ & ->).
    apply label_lt_irrefl. now exists (demographic e).
  - apply (sorted_NoDup value_lt); [|assumption].
    intros v Hv. apply crosstab_columns in Hv. destruct Hv as (e & _ & ->).
    apply label_lt_irrefl. now exists (sentiment e).
Qed.

Lemma crosstab_row_sum (rs : list feedback_entry) (d : string) :
  list_sum
    (map (fun c =>
            match assoc pair_eqb (VStr d, c)
                    (groupby2_size (map (fun e => VStr (demographic e)) rs)
                                   (map (fun e => VStr (sentiment e)) rs)) with
            | Some n => n
            | None => 0
            end) (ct_columns (demo_sentiment rs)))
  = List.length (of_demographic d rs).
Proof.
  rewrite (map_ext _ (fun c => count value_eqb c
                                 (map (fun e => VStr (sentiment e)) (of_demographic d rs)))).
  - rewrite (counts_add_up value_eqb value_eqb_eq).
    + apply length_map.
    + apply crosstab_labels_NoDup.
    + intros x Hx. apply in_map_iff in Hx. destruct Hx as (e & <- & He).
      apply crosstab_columns. exists e. split; [|reflexivity].
      unfold of_demographic in He. now apply filter_In in He.
  - intros c. rewrite filled_cell. apply count_pair_in_row.
Qed.

(** X14. In the cross-tabulation of the insights page the cells of the
    row of a demographic add up to the number of entries of that
    demographic, and all cells together add up to the size of the store. *)
Theorem crosstab_rows_add_up (rs : list feedback_entry) :
  (forall i d,
     nth_error (ct_index (demo_sentiment rs)) i = Some (VStr d) ->
     exists row,
       nth_error (ct_cells (demo_sentiment rs)) i = Some row
       /\ list_sum row = List.length (of_demographic d rs))
  /\ list_sum (map (fun row => list_sum row) (ct_cells (demo_sentiment rs)))
     = List.length rs.
Proof.
  split.
  - intros i d Hi. eexists. split.
    + unfold demo_sentiment, unstack in *. cbn [ct_index ct_cells] in *.
      rewrite nth_error_map, Hi. reflexivity.
    + apply crosstab_row_sum.
  - pose proof (crosstab_labels_NoDup rs) as [Hnd _].
    assert (Hrows : forall r, In r (ct_index (demo_sentiment rs)) ->
                              exists d, r = VStr d).
    { intros r Hr. apply crosstab_rows in Hr. destruct Hr as (e & _ & ->). eauto. }
    assert (Hcover : forall x, In x (map (fun e => VStr (demographic e)) rs) ->
                               In x (ct_index (demo_sentiment rs))).
    { intros x Hx. apply in_map_iff in Hx. destruct Hx as (e & <- & He).
      apply crosstab_rows. now exists e. }
    rewrite <- (length_map (fun e => VStr (demographic e)) rs).
    rewrite <- (counts_add_up value_eqb value_eqb_eq _ _ Hnd Hcover).
    unfold demo_sentiment at 1, unstack. cbn [ct_cells]. rewrite map_map.
    f_equal. apply map_ext_in. intros r Hr.
    change (sort_unique value_compare
              (map (fun e => fst (fst e))
                 (groupby2_size (map (fun e => VStr (demographic e)) rs)
                                (map (fun e => VStr (sentiment e)) rs))))
      with (ct_index (demo_sentiment rs)) in Hr.
    destruct (Hrows r Hr) as (d & ->).
    rewrite count_demographic. apply crosstab_row_sum.
Qed.

Lemma crosstab_rows_add_up_witness :
  nth_error (ct_index (demo_sentiment
     [sample "Student" "positive"; sample "Farmer" "negative"; sample "Farmer" "neutral"])) 0
  = Some (VStr "Farmer")
  /\ exists row,
       nth_error (ct_cells (demo_sentiment
         [sample "Student" "positive"; sample "Farmer" "negative"; sample "Farmer" "neutral"])) 0
       = Some row
       /\ list_sum row = 2.
Proof.
  split; [reflexivity|].
  apply (proj1 (crosstab_rows_add_up
    [sample "Student" "positive"; sample "Farmer" "negative"; sample "Farmer" "neutral"])
    0 "Farmer").
  reflexivity.
Defined.

(** ** The text of the report *)

(** X15. The report of a non-empty store, generated at time [t], is the
    head, the time, the summary of the store and the two numbered lists:
    the texts of the first five negative entries and of the first five
    positive entries, in the order of the store, numbered from 1. *)
Theorem report_of_a_store
    (format_1f : float -> string) (to_string : string -> list (value * nat) -> string)
    (rs : list feedback_entry) (t : datetime) :
  rs <> [] ->
  generate_summary_report format_1f to_string t (DataFrame_of rs)
  = Ok (report_head ++ strftime_seconds t
        ++ report_summary format_1f to_string rs ++ report_lists rs)%string
  /\ List.length (firstn 5 (texts_with "negative" rs)) <= 5
  /\ List.length (firstn 5 (texts_with "positive" rs)) <= 5
  /\ (exists later, texts_with "negative" rs = firstn 5 (texts_with "negative" rs) ++ later)
  /\ (exists later, texts_with "positive" rs = firstn 5 (texts_with "positive" rs) ++ later).
Proof.
  intros Hne. pose proof (store_frame_DataFrame_of rs Hne) as F.
  repeat split.
  - now apply generate_summary_report_frame.
  - apply firstn_le_length.
  - apply firstn_le_length.
  - exists (skipn 5 (texts_with "negative" rs)). symmetry. apply firstn_skipn.
  - exists (skipn 5 (texts_with "positive" rs)). symmetry. apply firstn_skipn.
Qed.

Lemma report_of_a_store_witness :
  [sample "Farmer" "negative"] <> []
  /\ generate_summary_report (fun _ => "-") (fun _ _ => "-") noon
       (DataFrame_of [sample "Farmer" "negative"])
     = Ok (report_head ++ strftime_seconds noon
           ++ report_summary (fun _ => "-") (fun _ _ => "-") [sample "Farmer" "negative"]
           ++ report_lists [sample "Farmer" "negative"])%string.
Proof.
  split; [discriminate|].
  apply (proj1 (report_of_a_store (fun _ => "-") (fun _ _ => "-")
                  [sample "Farmer" "negative"] noon ltac:(discriminate))).
Defined.

(** ** Key insights *)

Lemma str_prefix_spec (n : nat) (s : string) : cut_at n s (str_prefix n s).
Proof.
  unfold cut_at. revert n. induction s as [|c s IH]; intros n.
  - exists ""%string. simpl. rewrite Nat.min_0_r. auto.
  - simpl. destruct (is_continuation c) eqn:Ec.
    + destruct (IH n) as (rest & Hr & Hl & Hb). exists rest. simpl.
      rewrite Ec. repeat split; [now rewrite <- Hr|assumption|assumption].
    + destruct n as [|n].
      * exists (String c s). repeat split. assumption.
      * destruct (IH n) as (rest & Hr & Hl & Hb). exists rest. simpl.
        rewrite Ec. repeat split; [now rewrite <- Hr|now rewrite Hl|assumption].
Qed.

Lemma key_insights_block (heading : string) (texts : list string) :
  insight_block heading texts (key_insights heading (map VStr texts)).
Proof.
  unfold insight_block, key_insights. destruct texts as [|t texts]; [reflexivity|].
  cbn [map]. exists (bullet_points (map VStr (t :: texts))).
  split; [reflexivity|]. unfold bullet_points. split.
  - rewrite length_map, length_firstn, length_map. reflexivity.
  - intros i x Hi Hx. exists (str_prefix 100 x). split; [|apply str_prefix_spec].
    rewrite nth_error_map, nth_error_firstn.
    destruct (Nat.ltb_spec i 3) as [_|Hge]; [|lia].
    rewrite nth_error_map, Hx. reflexivity.
Qed.

(** X16. On a non-empty store the insights page shows, between the
    subheader of the key insights and the subheader of the
    recommendations, the block of the concerns and then the block of the
    support: each is empty when the store has no entry of that
    sentiment, and is else its heading followed by one bullet for each of
    the first three texts of that sentiment in the order of the store;
    a bullet holds the first 100 characters of its text, or the whole
    text when it is shorter, and always ends in three dots. *)
Theorem key_insights_show_three_cut_texts
    (format_1f : float -> string) (to_string : string -> list (value * nat) -> string)
    (csv_clicked report_clicked : bool) (clock : insights_clock) (st : session_state) :
  feedback_data st <> [] ->
  exists ws before concerns support after,
    insights_page format_1f to_string csv_clicked report_clicked clock st = Ok ws
    /\ ws = before ++ concerns ++ support ++ after
    /\ last before (st_header "") = st_subheader "🔑 Key Insights"
    /\ hd_error after = Some (st_subheader "💡 AI-Generated Recommendations")
    /\ insight_block "**Top Concerns:**"
         (map text (with_sentiment "negative" (feedback_data st))) concerns
    /\ insight_block "**Strong Support For:**"
         (map text (with_sentiment "positive" (feedback_data st))) support.
Proof.
  intros Hne.
  destruct (insights_page_nonempty format_1f to_string csv_clicked report_clicked clock
              st Hne) as (report & _ & ->).
  unfold insights_widgets.
  eexists. eexists. eexists. eexists. eexists.
  split; [reflexivity|]. split; [reflexivity|].
  split; [reflexivity|]. split; [reflexivity|].
  unfold texts_with. rewrite <- !(map_map text VStr).
  split; apply key_insights_block.
Qed.

Lemma key_insights_show_three_cut_texts_witness :
  feedback_data (mk_session "d" "s" [sample "Farmer" "negative"]) <> []
  /\ exists ws before concerns support after,
       insights_page (fun _ => "") (fun _ _ => "") false false at_noon
         (mk_session "d" "s" [sample "Farmer" "negative"]) = Ok ws
       /\ ws = before ++ concerns ++ support ++ after
       /\ insight_block "**Top Concerns:**" ["The fee is too high."%string] concerns
       /\ support = [].
Proof.
  split; [discriminate|].
  destruct (key_insights_show_three_cut_texts (fun _ => "") (fun _ _ => "") false false
              at_noon (mk_session "d" "s" [sample "Farmer" "negative"]))
    as (ws & before & concerns & support & after & Hws & Hsplit & _ & _ & Hc & Hs);
    [discriminate|].
  exists ws, before, concerns, support, after.
  split; [exact Hws|]. split; [exact Hsplit|]. split; [exact Hc|exact Hs].
Defined.

(** The cut counts characters, not bytes: the first three characters
    of a word that starts with a letter of two bytes are four bytes. *)
Example cut_counts_characters :
  str_prefix 3 "école" = "éco"%string
  /\ String.length "éco" = 4
  /\ str_len "éco" = 3.
Proof. repeat split. Qed.

(** ** The analysis dashboard *)

Lemma is_dict_dec (v : analysis_value) : {is_dict v} + {~ is_dict v}.
Proof.
  destruct v as [items|l|s].
  - left. now exists items.
  - right. intros (d & H). discriminate.
  - right. intros (d & H). discriminate.
Qed.

Lemma metric_card_of_dict (demo : string) (items : list (string * string)) :
  exists html, metric_card demo (analysis_dict items) = Ok html.
Proof. unfold metric_card. simpl. eexists. reflexivity. Qed.

Lemma metric_card_raises (demo : string) (v : analysis_value) :
  ~ is_dict v -> metric_card demo v = Raise (AttributeError "get").
Proof.
  intros H. destruct v as [items| |]; [|reflexivity|reflexivity].
  exfalso. apply H. now exists items.
Qed.

Lemma dashboard_cards_of_dicts (ncols : nat) (items : list (string * analysis_value)) :
  Forall (fun kv => is_dict (snd kv)) items ->
  forall i, exists cards,
    dashboard_cards ncols i items = Ok cards
    /\ List.length cards = List.length items
    /\ (forall j, j < List.length items ->
          exists html,
            nth_error cards j = Some (in_column ((i + j) mod ncols) (st_markdown html))).
Proof.
  induction 1 as [|[demo v] items Hv _ IH]; intros i.
  - exists []. repeat split. intros j Hj. inversion Hj.
  - destruct Hv as (d & Hd). simpl in Hd. subst v.
    destruct (metric_card_of_dict demo d) as (html & Hhtml).
    destruct (IH (S i)) as (cards & Hc & Hl & Hn).
    exists (in_column (i mod ncols) (st_markdown html) :: cards).
    cbn [dashboard_cards]. rewrite Hhtml. cbn [bind]. rewrite Hc. cbn [bind].
    repeat split.
    + simpl. now rewrite Hl.
    + intros [|j] Hj.
      * exists html. rewrite Nat.add_0_r. reflexivity.
      * destruct (Hn j) as (h & Hh); [simpl in Hj; lia|].
        exists h. simpl. rewrite Hh. do 3 f_equal. lia.
Qed.

Lemma dashboard_cards_raise (ncols : nat) (items : list (string * analysis_value)) :
  ~ Forall (fun kv => is_dict (snd kv)) items ->
  forall i, dashboard_cards ncols i items = Raise (AttributeError "get").
Proof.
  induction items as [|[demo v] items IH]; intros H i.
  - exfalso. apply H. constructor.
  - cbn [dashboard_cards].
    destruct v as [d|l|s]; try reflexivity.
    destruct (metric_card_of_dict demo d) as (html & ->). cbn [bind].
    rewrite IH; [reflexivity|].
    intros F. apply H. constructor; [|assumption]. now exists d.
Qed.

(** X17. With an analysis in the session, the dashboard is drawn
    exactly when every value of the analysis is a dict; any other value
    makes the run raise [AttributeError] at its card.  So a list stored
    under "key_provisions", the key that the page reads its provisions
    from, is never displayed: the run raises before it reaches them. *)
Theorem dashboard_needs_dicts (demographic_analysis : list (string * analysis_value)) :
  demographic_analysis <> [] ->
  ((exists ws, analysis_dashboard_page demographic_analysis = Ok ws)
   <-> Forall (fun kv => is_dict (snd kv)) demographic_analysis)
  /\ (~ Forall (fun kv => is_dict (snd kv)) demographic_analysis ->
      analysis_dashboard_page demographic_analysis = Raise (AttributeError "get"))
  /\ (forall provisions,
        In ("key_provisions", analysis_list provisions) demographic_analysis ->
        analysis_dashboard_page demographic_analysis = Raise (AttributeError "get")).
Proof.
  intros Hne.
  assert (Hraise : ~ Forall (fun kv => is_dict (snd kv)) demographic_analysis ->
                   analysis_dashboard_page demographic_analysis
                   = Raise (AttributeError "get")).
  { intros H. unfold analysis_dashboard_page.
    destruct demographic_analysis as [|kv rest] eqn:E; [congruence|].
    rewrite (dashboard_cards_raise _ _ H). reflexivity. }
  split; [|split].
  - split.
    + intros (ws & Hws).
      destruct (Forall_dec (fun kv => is_dict (snd kv))
                  (fun kv => is_dict_dec (snd kv)) demographic_analysis) as [F|F];
        [assumption|].
      rewrite (Hraise F) in Hws. discriminate.
    + intros F. unfold analysis_dashboard_page.
      destruct demographic_analysis as [|kv rest] eqn:E; [congruence|].
      destruct (dashboard_cards_of_dicts
                  (if Nat.leb 3 (List.length (map fst (kv :: rest)))
                   then 3 else List.length (map fst (kv :: rest)))
                  (kv :: rest) F 0) as (cards & -> & _).
      cbn [bind]. eexists. reflexivity.
  - exact Hraise.
  - intros provisions HIn. apply Hraise. intros F.
    apply (proj1 (Forall_forall _ _) F) in HIn. destruct HIn as (d & Hd). discriminate.
Qed.

Lemma dashboard_needs_dicts_witness :
  [ ("students", analysis_dict [("impact", "Lower fees")]);
    ("key_provisions", analysis_list ["Fees"; "Permits"]) ] <> []
  /\ In ("key_provisions", analysis_list ["Fees"; "Permits"])
        [ ("students", analysis_dict [("impact", "Lower fees")]);
          ("key_provisions", analysis_list ["Fees"; "Permits"]) ]
  /\ analysis_dashboard_page
       [ ("students", analysis_dict [("impact", "Lower fees")]);
         ("key_provisions", analysis_list ["Fees"; "Permits"]) ]
     = Raise (AttributeError "get").
Proof.
  split; [discriminate|]. split; [simpl; tauto|].
  apply (proj2 (proj2 (dashboard_needs_dicts
    [ ("students", analysis_dict [("impact", "Lower fees")]);
      ("key_provisions", analysis_list ["Fees"; "Permits"]) ] ltac:(discriminate)))
    ["Fees"; "Permits"]).
  simpl. tauto.
Defined.

Lemma metric_card_html (demo : string) (items : list (string * string)) :
  metric_card demo (analysis_dict items)
  = Ok (card_html (title demo)
          (dict_get (assoc String.eqb "impact" items) "N/A")
          (dict_get (assoc String.eqb "concerns" items) "None identified")
          (dict_get (assoc String.eqb "benefits" items) "None identified")).
Proof. reflexivity. Qed.

Lemma dashboard_cards_nth (ncols : nat) (analysis : list (string * analysis_value)) :
  forall i cards,
    dashboard_cards ncols i analysis = Ok cards ->
    List.length cards = List.length analysis
    /\ (forall j demo items,
          nth_error analysis j = Some (demo, analysis_dict items) ->
          nth_error cards j
          = Some (in_column ((i + j) mod ncols)
                    (st_markdown
                       (card_html (title demo)
                          (dict_get (assoc String.eqb "impact" items) "N/A")
                          (dict_get (assoc String.eqb "concerns" items) "None identified")
                          (dict_get (assoc String.eqb "benefits" items)
                             "None identified"))))).
Proof.
  induction analysis as [|[demo v] analysis IH]; intros i cards H.
  - injection H as <-. split; [reflexivity|]. intros [|j] d items Hj; discriminate.
  - cbn [dashboard_cards] in H.
    destruct (metric_card demo v) as [card|e] eqn:Ecard; [|discriminate].
    cbn [bind] in H.
    destruct (dashboard_cards ncols (S i) analysis) as [rest|e] eqn:Erest; [|discriminate].
    cbn [bind] in H. injection H as <-.
    destruct (IH (S i) rest Erest) as [Hl Hn]. split.
    + simpl. now rewrite Hl.
    + intros [|j] d items Hj; simpl in Hj.
      * injection Hj as <- ->. rewrite metric_card_html in Ecard.
        injection Ecard as <-. rewrite Nat.add_0_r. reflexivity.
      * simpl. rewrite (Hn j d items Hj). do 3 f_equal. lia.
Qed.

(** X18. When every value of a non-empty analysis is a dict, the
    dashboard draws one card per entry, in the order of the analysis:
    the card of the entry at index [i] stands in column [i] modulo the
    number of columns, three or the number of entries when there are
    fewer, and holds the name of the entry in title case and its impact,
    concerns and benefits, or "N/A" and "None identified" where the dict
    has none.  The provisions listed below the cards are the keys of the
    dict stored under "key_provisions", if there is one.  [title] is
    the title case of Python on names of ASCII characters. *)
Theorem dashboard_places_one_card_per_entry
    (demographic_analysis : list (string * analysis_value)) :
  demographic_analysis <> [] ->
  Forall (fun kv => is_dict (snd kv)) demographic_analysis ->
  Forall (fun kv => is_ascii (fst kv)) demographic_analysis ->
  exists cards provisions,
    analysis_dashboard_page demographic_analysis
    = Ok ([ on_page (st_header "🔍 Policy Analysis Dashboard");
            on_page (st_subheader "👥 Demographic Impact Analysis") ]
          ++ cards
          ++ [ on_page (st_subheader "📋 Key Provisions") ]
          ++ provisions)
    /\ List.length cards = List.length demographic_analysis
    /\ (forall i demo items,
          nth_error demographic_analysis i = Some (demo, analysis_dict items) ->
          nth_error cards i
          = Some (in_column (i mod Nat.min 3 (List.length demographic_analysis))
                    (st_markdown
                       (card_html (title demo)
                          (dict_get (assoc String.eqb "impact" items) "N/A")
                          (dict_get (assoc String.eqb "concerns" items) "None identified")
                          (dict_get (assoc String.eqb "benefits" items)
                             "None identified"))))
          /\ i mod Nat.min 3 (List.length demographic_analysis)
             < Nat.min 3 (List.length demographic_analysis))
    /\ provisions
       = match assoc String.eqb "key_provisions" demographic_analysis with
         | Some (analysis_dict items) =>
             map (fun kv => on_page (st_markdown ("• " ++ fst kv))) items
         | _ => []
         end.
Proof.
  intros Hne F _. unfold analysis_dashboard_page.
  destruct demographic_analysis as [|kv rest] eqn:E; [congruence|].
  rewrite <- E in *.
  assert (Hn : (if Nat.leb 3 (List.length (map fst demographic_analysis))
                then 3 else List.length (map fst demographic_analysis))
               = Nat.min 3 (List.length demographic_analysis)).
  { rewrite length_map. destruct (Nat.leb_spec 3 (List.length demographic_analysis)); lia. }
  rewrite Hn.
  destruct (dashboard_cards_of_dicts (Nat.min 3 (List.length demographic_analysis))
              demographic_analysis F 0) as (cards & Hcards & _).
  destruct (dashboard_cards_nth _ _ _ _ Hcards) as [Hl Hnth].
  rewrite Hcards. cbn [bind]. exists cards. eexists.
  split; [reflexivity|]. split; [assumption|]. split.
  - intros i demo items Hi. split; [apply (Hnth i demo items Hi)|].
    apply Nat.mod_upper_bound. rewrite E. simpl. lia.
  - destruct (assoc String.eqb "key_provisions" demographic_analysis) as [v|] eqn:Ev;
      [|reflexivity].
    assert (Hv : is_dict v).
    { assert (HIn : exists k, In (k, v) demographic_analysis).
      { clear - Ev. induction demographic_analysis as [|[k w] l IH]; [discriminate|].
        cbn [assoc] in Ev. destruct (String.eqb "key_provisions" k).
        - injection Ev as ->. exists k. now left.
        - destruct (IH Ev) as (k' & Hk'). exists k'. now right. }
      destruct HIn as (k & HIn).
      apply (proj1 (Forall_forall _ _) F) in HIn. exact HIn. }
    destruct Hv as (items & ->). simpl. now rewrite map_map.
Qed.

Lemma dashboard_places_one_card_per_entry_witness :
  [ ("students", analysis_dict [("impact", "Lower fees")]) ] <> []
  /\ Forall (fun kv => is_dict (snd kv))
            [ ("students", analysis_dict [("impact", "Lower fees")]) ]
  /\ Forall (fun kv => is_ascii (fst kv))
            [ ("students", analysis_dict [("impact", "Lower fees")]) ]
  /\ exists cards provisions,
       analysis_dashboard_page [ ("students", analysis_dict [("impact", "Lower fees")]) ]
       = Ok ([ on_page (st_header "🔍 Policy Analysis Dashboard");
               on_page (st_subheader "👥 Demographic Impact Analysis") ]
             ++ cards
             ++ [ on_page (st_subheader "📋 Key Provisions") ]
             ++ provisions)
       /\ nth_error cards 0
          = Some (in_column 0
                    (st_markdown
                       (card_html "Students" "Lower fees" "None identified"
                          "None identified"))).
Proof.
  assert (F : Forall (fun kv => is_dict (snd kv))
                [ ("students", analysis_dict [("impact", "Lower fees")]) ]).
  { constructor; [|constructor]. eexists. reflexivity. }
  assert (G : Forall (fun kv => is_ascii (fst kv))
                [ ("students", analysis_dict [("impact", "Lower fees")]) ]).
  { constructor; [reflexivity|constructor]. }
  split; [discriminate|]. split; [exact F|]. split; [exact G|].
  destruct (dashboard_places_one_card_per_entry
              [ ("students", analysis_dict [("impact", "Lower fees")]) ]
              ltac:(discriminate) F G) as (cards & provisions & H & _ & Hnth & _).
  exists cards, provisions. split; [assumption|].
  apply (proj1 (Hnth 0 "students"%string [("impact", "Lower fees")]%string eq_refl)).
Defined.

(** ** Names of the downloads *)

Lemma digits_app (w1 w2 : nat) (a b : string) :
  digits w1 a = true -> digits w2 b = true -> digits (w1 + w2) (a ++ b) = true.
Proof.
  unfold digits. rewrite !andb_true_iff, !Nat.eqb_eq. intros [La Da] [Lb Db].
  subst w1 w2. split.
  - clear Da Db. induction a as [|c a IH]; simpl; [reflexivity|]. now rewrite IH.
  - revert Da. induction a as [|c a IH]; simpl; [auto|].
    rewrite !andb_true_iff. intros [Hc Ha]. auto.
Qed.

Lemma zfill_digits (width bound : nat) :
  forallb (fun n => digits width (zfill width n)) (seq 0 bound) = true ->
  forall n, n < bound -> digits width (zfill width n) = true.
Proof.
  intros H n Hn. apply (proj1 (forallb_forall _ _) H). apply in_seq. lia.
Qed.

Lemma strftime_date_digits (t : datetime) :
  year t < 100 * 100 -> month t < 100 -> day t < 100 -> digits 8 (strftime_date t) = true.
Proof.
  intros Hy Hm Hd. unfold strftime_date.
  apply (digits_app 4 4); [|apply (digits_app 2 2)].
  - apply (zfill_digits 4 (100 * 100)); [vm_compute; reflexivity|assumption].
  - apply (zfill_digits 2 100); [vm_compute; reflexivity|assumption].
  - apply (zfill_digits 2 100); [vm_compute; reflexivity|assumption].
Qed.

Lemma bullet_points_markdown (items : list value) (w : widget) :
  In w (bullet_points items) -> exists s, w = st_markdown s.
Proof.
  unfold bullet_points. intros Hw. apply in_map_iff in Hw.
  destruct Hw as (x & <- & _). eexists. reflexivity.
Qed.

Lemma key_insights_markdown (heading : string) (items : list value) (w : widget) :
  In w (key_insights heading items) -> exists s, w = st_markdown s.
Proof.
  unfold key_insights. destruct items as [|x items]; [intros []|].
  intros [<-|Hw]; [eexists; reflexivity|]. now apply bullet_points_markdown in Hw.
Qed.

Lemma enumerate_recommendations_markdown (recs : list string) (i : nat) (w : widget) :
  In w (enumerate_recommendations i recs) -> exists s, w = st_markdown s.
Proof.
  revert i. induction recs as [|r recs IH]; intros i Hw; [destruct Hw|].
  destruct Hw as [<-|Hw]; [eexists; reflexivity|]. now apply IH in Hw.
Qed.

(** X19. On a non-empty store the insights page offers a download
    exactly for each button that is pressed.  The CSV file is named
    "policy_feedback_", the date of the clock when that name is made,
    and ".csv"; the report file is named "policy_insights_report_", the
    date of the clock when that name is made, and ".txt", and it holds
    the report generated at the reading of the clock in between.  The
    three readings are separate: nothing makes the two names carry the
    same date.  A date whose year has four digits is written with eight
    decimal digits. *)
Theorem download_names_carry_the_date
    (format_1f : float -> string) (to_string : string -> list (value * nat) -> string)
    (csv_clicked report_clicked : bool) (clock : insights_clock) (st : session_state) :
  feedback_data st <> [] ->
  exists ws report,
    insights_page format_1f to_string csv_clicked report_clicked clock st = Ok ws
    /\ generate_summary_report format_1f to_string (report_now clock)
         (with_hour (feedback_data st)) = Ok report
    /\ (forall label d file_name mime,
          In (st_download_button label d file_name mime) ws
          <-> (csv_clicked = true
               /\ label = "Download CSV"
               /\ d = csv_data (exported_csv (feedback_data st))
               /\ file_name
                  = ("policy_feedback_" ++ strftime_date (csv_name_now clock)
                     ++ ".csv")%string
               /\ mime = "text/csv")
              \/ (report_clicked = true
                  /\ label = "Download Report"
                  /\ d = text_data report
                  /\ file_name
                     = ("policy_insights_report_"
                        ++ strftime_date (report_name_now clock) ++ ".txt")%string
                  /\ mime = "text/plain"))
    /\ (forall t, 1000 <= year t < 100 * 100 -> month t <= 12 -> day t <= 31 ->
          digits 8 (strftime_date t) = true).
Proof.
  intros Hne.
  destruct (insights_page_nonempty format_1f to_string csv_clicked report_clicked clock
              st Hne) as (report & Hreport & ->).
  eexists. exists report. split; [reflexivity|]. split; [exact Hreport|].
  split; [|intros t Hy Hm Hd; apply strftime_date_digits; lia].
  intros label d file_name mime. unfold insights_widgets. rewrite !in_app_iff. split.
  - intros [H|[H|[H|[H|[H|[H|[H|H]]]]]]].
    + simpl in H. repeat (destruct H as [H|H]; [discriminate|]). destruct H.
    + apply key_insights_markdown in H. destruct H as (x & H). discriminate.
    + apply key_insights_markdown in H. destruct H as (x & H). discriminate.
    + destruct H as [H|[]]. discriminate.
    + apply enumerate_recommendations_markdown in H. destruct H as (x & H). discriminate.
    + destruct H as [H|[]]. discriminate.
    + destruct csv_clicked; [|destruct H]. destruct H as [H|[]].
      injection H as <- <- <- <-. left. repeat split.
    + destruct report_clicked; [|destruct H]. destruct H as [H|[]].
      injection H as <- <- <- <-. right. repeat split.
  - intros [(-> & -> & -> & -> & ->)|(-> & -> & -> & -> & ->)].
    + do 6 right. left. now left.
    + do 7 right. now left.
Qed.

Lemma download_names_carry_the_date_witness :
  feedback_data (mk_session "d" "s" [sample "Farmer" "negative"]) <> []
  /\ exists ws,
       insights_page (fun _ => "") (fun _ _ => "") true false
         (mk_insights_clock (mk_datetime 2025 12 31 23 59 59 0)
                            (mk_datetime 2026 1 1 0 0 0 0)
                            (mk_datetime 2026 1 1 0 0 1 0))
         (mk_session "d" "s" [sample "Farmer" "negative"]) = Ok ws
       /\ In (st_download_button "Download CSV"
                (csv_data (exported_csv [sample "Farmer" "negative"]))
                "policy_feedback_20251231.csv" "text/csv") ws.
Proof.
  split; [discriminate|].
  destruct (download_names_carry_the_date (fun _ => "") (fun _ _ => "") true false
              (mk_insights_clock (mk_datetime 2025 12 31 23 59 59 0)
                                 (mk_datetime 2026 1 1 0 0 0 0)
                                 (mk_datetime 2026 1 1 0 0 1 0))
              (mk_session "d" "s" [sample "Farmer" "negative"]))
    as (ws & report & H & _ & Hiff & _); [discriminate|].
  exists ws. split; [assumption|].
  apply (proj2 (Hiff _ _ _ _)). left. repeat split.
Defined.

(** With both buttons pressed around midnight, the two names carry
    different dates. *)
Example download_names_may_differ :
  exists ws csv report,
    insights_page (fun _ => "") (fun _ _ => "") true true
      (mk_insights_clock (mk_datetime 2025 12 31 23 59 59 0)
                         (mk_datetime 2026 1 1 0 0 0 0)
                         (mk_datetime 2026 1 1 0 0 1 0))
      (mk_session "d" "s" [sample "Farmer" "negative"]) = Ok ws
    /\ In (st_download_button "Download CSV" csv "policy_feedback_20251231.csv" "text/csv") ws
    /\ In (st_download_button "Download Report" report
             "policy_insights_report_20260101.txt" "text/plain") ws.
Proof.
  do 3 eexists. split; [vm_compute; reflexivity|].
  split; simpl; [do 15 right; left; reflexivity|do 16 right; left; reflexivity].
Qed.

(** ** When feedback is accepted *)

Lemma appended_differs (st : session_state) (e : feedback_entry) : appended st e <> st.
Proof.
  intros H. apply (f_equal (fun s => List.length (feedback_data s))) in H.
  simpl in H. rewrite length_app in H. simpl in H. lia.
Qed.

Lemma live_feedback_stats_no_success (st : session_state) (ws : list widget) (s : string) :
  live_feedback_stats st = Ok ws -> ~ In (st_success s) ws.
Proof.
  intros H HIn. destruct (feedback_data st) as [|e rs] eqn:E.
  - unfold live_feedback_stats in H. rewrite E in H. injection H as <-.
    simpl in HIn. destruct HIn as [HIn|[HIn|[]]]; discriminate.
  - rewrite live_feedback_stats_nonempty in H by (rewrite E; discriminate).
    injection H as <-. simpl in HIn.
    destruct HIn as [HIn|[HIn|[HIn|[HIn|HIn]]]]; try discriminate.
    apply in_map_iff in HIn. destruct HIn as (x & Hx & _). discriminate.
Qed.

(** X20. A run of the feedback page changes the store exactly when a
    document has been analysed, the form was submitted and its text is
    not empty; the page thanks the citizen in exactly those runs; a text
    of blanks counts as a text. *)
Theorem feedback_is_accepted_iff (env : run_env) (f : feedback_form) (st : session_state) :
  exists st' ws,
    feedback_page env f st = Ok (st', ws)
    /\ (st' <> st
        <-> simplified_text st <> "" /\ form_submitted f = true /\ form_text f <> "")
    /\ (In (st_success "Thank you for your feedback!") ws <-> st' <> st)
    /\ (st' <> st -> st' = appended st (feedback_entry_of env f)
                     /\ text (feedback_entry_of env f) = form_text f).
Proof.
  destruct (feedback_page_cases env f st) as (ws & [[E Hg] | (E & H1 & H2 & H3)]).
  - exists st, ws. split; [assumption|].
    assert (Hno : ~ In (st_success "Thank you for your feedback!") ws).
    { unfold feedback_page in E.
      destruct (truthy (simplified_text st)); cbn [negb] in E.
      - cbn [andb] in Hg. rewrite Hg in E.
        destruct (live_feedback_stats st) as [stats|x] eqn:Es; [|discriminate].
        cbn [bind] in E. injection E as <-. intros HIn. simpl in HIn.
        destruct HIn as [HIn|[HIn|[HIn|HIn]]]; try discriminate.
        now apply (live_feedback_stats_no_success st stats _ Es) in HIn.
      - injection E as <-. simpl. intros [H|[H|[]]]; discriminate. }
    repeat split; try tauto.
    intros (Hs & Hsub & Ht). apply truthy_true in Hs, Ht.
    rewrite Hs, Hsub, Ht in Hg. discriminate.
  - exists (appended st (feedback_entry_of env f)), ws. split; [assumption|].
    apply truthy_true in H1, H3.
    assert (Hyes : In (st_success "Thank you for your feedback!") ws).
    { unfold feedback_page in E.
      destruct (truthy (simplified_text st)) eqn:Es; cbn [negb] in E.
      - rewrite H2 in E. cbn [andb] in E.
        destruct (truthy (form_text f)) eqn:Et.
        + injection E as <-. simpl. tauto.
        + apply truthy_true in H3. congruence.
      - apply truthy_true in H1. congruence. }
    pose proof (appended_differs st (feedback_entry_of env f)) as Hd.
    repeat split; auto.
Qed.

Example blank_text_is_accepted :
  exists ws,
    feedback_page (answering None) (mk_form "" Parent Question "   " true) analysed
    = Ok (appended analysed
            (feedback_entry_of (answering None) (mk_form "" Parent Question "   " true)), ws)
    /\ text (feedback_entry_of (answering None) (mk_form "" Parent Question "   " true))
       = "   ".
Proof. eexists. split; reflexivity. Qed.

(** ** Feedback needs an analysis *)

Lemma run_without_analysis (st : session_state) (p : page_run) :
  analyses_nothing p ->
  simplified_text st = "" /\ feedback_data st = [] ->
  simplified_text (run st p) = "" /\ feedback_data (run st p) = [].
Proof.
  intros Hp [Hs Hd].
  destruct p as [api_key doc analyze_clicked simplified| |env f|c r t]; simpl; auto.
  - unfold policy_upload_page. simpl in Hp.
    assert (Hc : forall b, b && truthy api_key && analyze_clicked = false).
    { intros b. destruct Hp as [-> | ->].
      - now rewrite andb_false_r.
      - now rewrite andb_false_r. }
    destruct doc as [[extracted|]|pasted]; [| |destruct (truthy pasted)]; simpl;
      rewrite Hc; simpl; auto.
  - unfold feedback_page. rewrite Hs. simpl. auto.
Qed.

(** X21. As long as no run of the upload page presses Analyze with an
    API key, the session holds no simplified text and no feedback,
    whatever is submitted on the feedback page. *)
Theorem no_feedback_without_an_analysis (runs : list page_run) :
  Forall analyses_nothing runs ->
  simplified_text (session runs) = "" /\ feedback_data (session runs) = [].
Proof.
  unfold session. intros H.
  assert (G : forall st, simplified_text st = "" /\ feedback_data st = [] ->
                         simplified_text (fold_left run runs st) = ""
                         /\ feedback_data (fold_left run runs st) = []).
  { induction H as [|p runs Hp _ IH]; intros st Hst; simpl; [assumption|].
    apply IH. now apply run_without_analysis. }
  apply G. split; reflexivity.
Qed.

Lemma no_feedback_without_an_analysis_witness :
  Forall analyses_nothing
    [ PolicyUpload "" (paste_text "Section 1. A fee applies.") true "A fee applies.";
      CitizenFeedback (answering None) (mk_form "" Farmer Concern "Too costly." true) ]
  /\ feedback_data (session
       [ PolicyUpload "" (paste_text "Section 1. A fee applies.") true "A fee applies.";
         CitizenFeedback (answering None) (mk_form "" Farmer Concern "Too costly." true) ])
     = [].
Proof.
  assert (F : Forall analyses_nothing
    [ PolicyUpload "" (paste_text "Section 1. A fee applies.") true "A fee applies.";
      CitizenFeedback (answering None) (mk_form "" Farmer Concern "Too costly." true) ]).
  { constructor; [now left|]. constructor; [exact I|constructor]. }
  split; [exact F|].
  apply (proj2 (no_feedback_without_an_analysis _ F)).
Defined.

Lemma feedback_is_accepted_iff_witness :
  exists st' ws,
    feedback_page (answering None) (mk_form "" Parent Question "   " true) analysed
    = Ok (st', ws)
    /\ st' <> analysed
    /\ In (st_success "Thank you for your feedback!") ws.
Proof.
  destruct (feedback_is_accepted_iff (answering None)
              (mk_form "" Parent Question "   " true) analysed)
    as (st' & ws & H & Hiff & Hthanks & _).
  assert (Hd : st' <> analysed).
  { apply Hiff. repeat split; discriminate. }
  exists st', ws. repeat split; [assumption|assumption|].
  now apply Hthanks.
Defined.
